(** * OneAccount tracking scripts: a shallow embedding and its properties

    The development follows the two browser scripts of the repository:

    - [OneAccountTracking.js]: [getRootDomain], [CookieUtil] and the
      conversion reporter [oneAccountSales];
    - [OneAccountCrossDomain.js]: the same two utilities (textually
      identical there) and [CROSS_DOMAIN] with [updateAnchorHref],
      [addHiddenInputToForm] and [init].

    JavaScript values are an inductive type, numbers are IEEE 754 binary64
    (Rocq's primitive floats), strings are sequences of 8-bit code units,
    the page (location, cookie store, the DOM nodes the scripts touch, the
    console) is an explicit [World] threaded through every effectful
    function, and a thrown exception is a result of type [Completion].
    The cookie store follows the storage model of RFC 6265bis; what the
    browser alone decides (its clock, its public suffix list) is supplied
    by a [Host]. *)

From Stdlib Require Import ZArith Arith List Bool Lia.
From Stdlib Require Import Strings.Ascii Strings.String Numbers.DecimalString.
From Stdlib Require Numbers.DecimalNat.
From Stdlib Require Import Floats.PrimFloat Floats.FloatOps Floats.SpecFloat.
From Stdlib Require Import Numbers.Cyclic.Int63.Uint63.
Import ListNotations.

#[local] Set Warnings "-inexact-float,-register-all".
#[local] Open Scope list_scope.
#[local] Open Scope string_scope.

(* ================================================================== *)
(** ** JavaScript strings *)
(* ================================================================== *)

Module JsString.

(** [s.substring(a, b)]: the code units from [min a b] up to [max a b]. *)
Definition substring (s : string) (a b : nat) : string :=
  String.substring (Nat.min a b) (Nat.max a b - Nat.min a b) s.

(** [s.substring(a)]: everything from position [a]. *)
Definition substring_from (s : string) (a : nat) : string :=
  substring s a (String.length s).

(** [s.indexOf(pat)], with [None] for [-1]. *)
Definition indexOf (s pat : string) : option nat := String.index 0 pat s.

(** [s.includes(pat)]. *)
Definition includes (s pat : string) : bool :=
  match indexOf s pat with Some _ => true | None => false end.

(** [s.split(sep)] for a one-character separator. *)
Fixpoint split (sep : ascii) (s : string) : list string :=
  match s with
  | EmptyString => [EmptyString]
  | String c rest =>
      if Ascii.eqb c sep then EmptyString :: split sep rest
      else match split sep rest with
           | [] => [String c EmptyString]
           | p :: ps => String c p :: ps
           end
  end.

(** [parts.join(sep)]. *)
Definition join (sep : string) (parts : list string) : string :=
  String.concat sep parts.

(** White space as [String.prototype.trim] sees it, among 8-bit code
    units: TAB, LF, VT, FF, CR, SPACE and NBSP. *)
Definition is_space (c : ascii) : bool :=
  let n := nat_of_ascii c in
  (((9 <=? n) && (n <=? 13)) || (n =? 32) || (n =? 160))%nat.

Fixpoint trimStart (s : string) : string :=
  match s with
  | EmptyString => EmptyString
  | String c rest => if is_space c then trimStart rest else s
  end.

Fixpoint trimEnd (s : string) : string :=
  match s with
  | EmptyString => EmptyString
  | String c rest =>
      match trimEnd rest with
      | EmptyString => if is_space c then EmptyString else String c EmptyString
      | r => String c r
      end
  end.

(** [s.trim()]. *)
Definition trim (s : string) : string := trimEnd (trimStart s).

Definition upper_char (c : ascii) : ascii :=
  let n := nat_of_ascii c in
  if ((97 <=? n) && (n <=? 122))%nat then ascii_of_nat (n - 32) else c.

(** [s.toUpperCase()] on the letters a-z; other code units are left as
    they are.  The result is only compared with the words of
    [validCurrencies] and only used when it is one of them, and no text
    with a code unit outside a-z and A-Z upper-cases to one of these
    words. *)
Fixpoint toUpperCase (s : string) : string :=
  match s with
  | EmptyString => EmptyString
  | String c rest => String (upper_char c) (toUpperCase rest)
  end.

Definition lower_char (c : ascii) : ascii :=
  let n := nat_of_ascii c in
  if ((65 <=? n) && (n <=? 90))%nat then ascii_of_nat (n + 32) else c.

(** Lower case on the letters A-Z, as host names are compared. *)
Fixpoint toLowerCase (s : string) : string :=
  match s with
  | EmptyString => EmptyString
  | String c rest => String (lower_char c) (toLowerCase rest)
  end.

(** [s.endsWith(suffix)]. *)
Definition endsWith (s suffix : string) : bool :=
  (String.length suffix <=? String.length s)%nat
  && String.eqb (substring_from s (String.length s - String.length suffix)) suffix.

Definition forall_chars (p : ascii -> bool) (s : string) : bool :=
  forallb p (list_ascii_of_string s).

Definition is_digit (c : ascii) : bool :=
  let n := nat_of_ascii c in ((48 <=? n) && (n <=? 57))%nat.

Definition is_upper (c : ascii) : bool :=
  let n := nat_of_ascii c in ((65 <=? n) && (n <=? 90))%nat.

Definition is_lower (c : ascii) : bool :=
  let n := nat_of_ascii c in ((97 <=? n) && (n <=? 122))%nat.

Definition is_alnum (c : ascii) : bool :=
  is_upper c || is_lower c || is_digit c.

Definition of_nat (n : nat) : string :=
  NilEmpty.string_of_uint (Nat.to_uint n).

Definition of_Z (z : Z) : string :=
  NilEmpty.string_of_int (Z.to_int z).

Definition hex_digit (n : nat) : ascii :=
  match String.get n "0123456789ABCDEF" with
  | Some c => c
  | None => "0"%char
  end.

(** [%XX] for one byte. *)
Definition percent_byte (n : nat) : string :=
  String "%"%char (String (hex_digit (n / 16)) (String (hex_digit (n mod 16)) EmptyString)).

(** The UTF-8 bytes of one code unit below 256, each percent-encoded. *)
Definition percent_char (c : ascii) : string :=
  let n := nat_of_ascii c in
  if (n <? 128)%nat then percent_byte n
  else percent_byte (192 + n / 64) ++ percent_byte (128 + n mod 64).

Definition mem_char (c : ascii) (set : string) : bool :=
  existsb (Ascii.eqb c) (list_ascii_of_string set).

(** [encodeURIComponent(s)]: letters, digits and [-_.!~*'()] stay, every
    other code unit is percent-encoded. *)
Fixpoint encodeURIComponent (s : string) : string :=
  match s with
  | EmptyString => EmptyString
  | String c rest =>
      (if is_alnum c || mem_char c "-_.!~*'()"
       then String c EmptyString else percent_char c)
      ++ encodeURIComponent rest
  end.

(** The [application/x-www-form-urlencoded] serializer that
    [URLSearchParams] uses: letters, digits and [*-._] stay, a space
    becomes [+], every other code unit is percent-encoded. *)
Fixpoint formEncode (s : string) : string :=
  match s with
  | EmptyString => EmptyString
  | String c rest =>
      (if is_alnum c || mem_char c "*-._" then String c EmptyString
       else if Ascii.eqb c " "%char then "+"
       else percent_char c)
      ++ formEncode rest
  end.

End JsString.

(* ================================================================== *)
(** ** JavaScript numbers *)
(* ================================================================== *)

Module JsNumber.

#[local] Open Scope float_scope.

Definition NaN : float := PrimFloat.nan.

(** [Math.floor]: the mantissa and exponent of a finite non-zero [x] give
    [x = (-1)^s * m * 2^e]; for [e >= 0] the value is already integral,
    otherwise the quotient of [m] by [2^(-e)] is below [2^53] and is
    converted back exactly. *)
Definition Math_floor (x : float) : float :=
  match Prim2SF x with
  | S754_finite s m e =>
      if (0 <=? e)%Z then x
      else
        let d := Z.pow 2 (- e) in
        let q := Z.div (Zpos m) d in
        let r := Z.modulo (Zpos m) d in
        if s then PrimFloat.opp (PrimFloat.of_uint63 (Uint63.of_Z (if (r =? 0)%Z then q else (q + 1)%Z)))
        else PrimFloat.of_uint63 (Uint63.of_Z q)
  | _ => x
  end.

(** [Number.isInteger] on a number. *)
Definition isInteger (x : float) : bool :=
  PrimFloat.is_finite x && (Math_floor x =? x).

(** ToBoolean on a number: false for NaN, [+0] and [-0]. *)
Definition truthy (x : float) : bool :=
  negb (PrimFloat.is_nan x) && negb (x =? 0).

End JsNumber.

(* ================================================================== *)
(** ** JavaScript values and completions *)
(* ================================================================== *)

Inductive JsValue : Type :=
| VUndefined
| VNull
| VBool (b : bool)
| VNum (x : float)
| VStr (s : string)
| VArr (elems : list JsValue)
| VObj (props : list (string * JsValue)).

Inductive JsError : Type :=
| TypeError.

(** The result of evaluating a piece of code that may throw. *)
Inductive Completion (A : Type) : Type :=
| Normal (a : A)
| Throw (e : JsError).

Arguments Normal {A} a.
Arguments Throw {A} e.

Definition bindC {A B} (c : Completion A) (k : A -> Completion B) : Completion B :=
  match c with
  | Normal a => k a
  | Throw e => Throw e
  end.

Notation "x <- c ;; k" := (bindC c (fun x => k))
  (at level 61, c at next level, right associativity).

Fixpoint mapC {A B} (f : A -> Completion B) (l : list A) : Completion (list B) :=
  match l with
  | [] => Normal []
  | a :: rest => b <- f a ;; bs <- mapC f rest ;; Normal (b :: bs)
  end.

Module Js.

(** The [typeof] operator. *)
Definition typeof (v : JsValue) : string :=
  match v with
  | VUndefined => "undefined"
  | VNull => "object"
  | VBool _ => "boolean"
  | VNum _ => "number"
  | VStr _ => "string"
  | VArr _ => "object"
  | VObj _ => "object"
  end.

(** ToBoolean. *)
Definition truthy (v : JsValue) : bool :=
  match v with
  | VUndefined | VNull => false
  | VBool b => b
  | VNum x => JsNumber.truthy x
  | VStr s => negb (String.eqb s "")
  | VArr _ | VObj _ => true
  end.

Fixpoint lookup (k : string) (props : list (string * JsValue)) : JsValue :=
  match props with
  | [] => VUndefined
  | (k', v) :: rest => if String.eqb k k' then v else lookup k rest
  end.

(** Property read [v.k] for the property names the scripts read this
    way ([pid], [items], [price], [quantity], [code]).  Reading a
    property of [undefined] or [null] throws a TypeError; a primitive or
    an array has none of these properties. *)
Definition get (v : JsValue) (k : string) : Completion JsValue :=
  match v with
  | VUndefined | VNull => Throw TypeError
  | VBool _ | VNum _ | VStr _ | VArr _ => Normal VUndefined
  | VObj props => Normal (lookup k props)
  end.

(** Property write [o.k = v] on an object: an existing key keeps its
    place, a new key goes last (the order [Object.keys] reports). *)
Fixpoint assign (props : list (string * JsValue)) (k : string) (v : JsValue)
  : list (string * JsValue) :=
  match props with
  | [] => [(k, v)]
  | (k', v') :: rest =>
      if String.eqb k k' then (k, v) :: rest else (k', v') :: assign rest k v
  end.

(** The own properties that [{ ...v }] copies.  Only objects reach the
    spread in [oneAccountSales]: phase 1 requires a string [pid]
    property, which no array or primitive has here. *)
Definition spread (v : JsValue) : list (string * JsValue) :=
  match v with
  | VObj props => props
  | _ => []
  end.

Definition is_number (v : JsValue) : bool :=
  match v with VNum _ => true | _ => false end.

(** [v === "lit"]. *)
Definition strict_eq_string (v : JsValue) (lit : string) : bool :=
  match v with VStr s => String.eqb s lit | _ => false end.

(** [v === true]. *)
Definition strict_eq_true (v : JsValue) : bool :=
  match v with VBool true => true | _ => false end.

(** ToNumber on the primitives whose conversion is immediate.  The one
    call, [Number(item.price)], is reached with a number only (phase 1
    admits nothing else), where it is the identity. *)
Definition ToNumber (v : JsValue) : float :=
  match v with
  | VNum x => x
  | VNull => 0%float
  | VBool true => 1%float
  | VBool false => 0%float
  | _ => JsNumber.NaN
  end.

End Js.

(* ================================================================== *)
(** ** The page: location, cookie store, DOM nodes, console *)
(* ================================================================== *)

(** A stored cookie; [ck_domain] is [None] for a host-only cookie, and
    [ck_expires] is [None] for a session cookie.  The flags [Secure] and
    [HttpOnly], which the texts of the scripts never carry, are not kept:
    the store is that of the cookies a script of the page can read. *)
Record Cookie : Type := {
  ck_name : string;
  ck_value : string;
  ck_domain : option string;
  ck_path : string;
  ck_expires : option Z
}.

Inductive Lifetime : Type :=
| Expires (time : Z)
| MaxAge (seconds : Z).

(** The text assigned to [document.cookie], kept as its fields:
    [name=value;expires=<date>;path=<path>] or
    [name=value; Max-Age=<seconds>;path=<path>], followed by
    [;domain=<domain>] when there is one. *)
Record CookieString : Type := {
  cs_name : string;
  cs_value : string;
  cs_life : Lifetime;
  cs_path : string;
  cs_domain : option string
}.

(** What the language runtime and the browser supply and the scripts
    only call or rely on: Number::toString, the clock behind [Date.now()],
    [new Date()] and the expiry of cookies, the base-36 text of the value
    [Math.random()] returns, the browser's public suffix list, and what
    its cookie parser reads in a text whose name or value holds a
    character with a meaning in the cookie syntax (a semicolon, an equals
    sign in the name, white space), [None] when it ignores the text, and
    the longest lifetime it grants a cookie, in milliseconds. *)
Record Host : Type := {
  NumberToString : float -> string;
  Date_now : Z;
  Math_random_toString36 : string;
  public_suffix : string -> bool;
  cookie_reparse : CookieString -> option CookieString;
  cookie_lifetime_limit : positive
}.

Record Img : Type := {
  img_width : Z;
  img_height : Z;
  img_alt : string;
  img_style_display : string;
  img_src : option string
}.

(** The texts the scripts print, by kind (the originals are Japanese
    sentences; the parameters are the interpolated values).  The sentence
    of [MsgLinkUpdated] interpolates [anchor.href] as the URL parser
    reads the assigned text back, which is not kept here. *)
Inductive Message : Type :=
| MsgNoContainer
| MsgNotObject
| MsgBadPid
| MsgBadItems
| MsgBadPrice (index : nat)
| MsgBadQuantity (index : nat)
| MsgReceived (value : option string) (length : nat)
| MsgBadParam
| MsgNoClickId
| MsgAspSent (url : string)
| MsgCookieDeleted (name : string)
| MsgRelayDeleted
| MsgLinkUpdated.

Inductive ConsoleEntry : Type :=
| ConsoleLog (m : Message)
| ConsoleInfo (m : Message)
| ConsoleError (m : Message).

Record World : Type := {
  location_hostname : string;
  (** the pairs of [new URLSearchParams(window.location.search)] *)
  location_search : list (string * string);
  (** [data-oneaccountstoplog="1"] on the script tag *)
  stopLog : bool;
  (** the cookies the browser holds for the document, in the order
      [document.cookie] lists those it shows: longer paths first, then
      older cookies first *)
  cookie_jar : list Cookie;
  (** every text assigned to [document.cookie], oldest first *)
  cookie_assignments : list CookieString;
  (** the [img] descendants of [#oneAccountSales]; [None] when the page has
      no such element *)
  container : option (list Img);
  (** the [img] elements appended to [document.body] *)
  body_appended : list Img;
  console : list ConsoleEntry
}.

Module Browser.

Definition with_console (w : World) (c : list ConsoleEntry) : World :=
  {| location_hostname := location_hostname w;
     location_search := location_search w;
     stopLog := stopLog w;
     cookie_jar := cookie_jar w;
     cookie_assignments := cookie_assignments w;
     container := container w;
     body_appended := body_appended w;
     console := c |}.

Definition with_cookies (w : World) (jar : list Cookie) (log : list CookieString) : World :=
  {| location_hostname := location_hostname w;
     location_search := location_search w;
     stopLog := stopLog w;
     cookie_jar := jar;
     cookie_assignments := log;
     container := container w;
     body_appended := body_appended w;
     console := console w |}.

Definition with_container (w : World) (c : option (list Img)) : World :=
  {| location_hostname := location_hostname w;
     location_search := location_search w;
     stopLog := stopLog w;
     cookie_jar := cookie_jar w;
     cookie_assignments := cookie_assignments w;
     container := c;
     body_appended := body_appended w;
     console := console w |}.

Definition with_body (w : World) (b : list Img) : World :=
  {| location_hostname := location_hostname w;
     location_search := location_search w;
     stopLog := stopLog w;
     cookie_jar := cookie_jar w;
     cookie_assignments := cookie_assignments w;
     container := container w;
     body_appended := b;
     console := console w |}.

Definition console_log (m : Message) (w : World) : World :=
  with_console w (console w ++ [ConsoleLog m])%list.

(** [params.get(key)]: the first value under [key], [None] for [null]. *)
Fixpoint URLSearchParams_get (params : list (string * string)) (key : string)
  : option string :=
  match params with
  | [] => None
  | (k, v) :: rest => if String.eqb k key then Some v else URLSearchParams_get rest key
  end.

Definition option_string_eqb (a b : option string) : bool :=
  match a, b with
  | Some x, Some y => String.eqb x y
  | None, None => true
  | _, _ => false
  end.


(** *** Parsing an assigned text *)

(** A control character other than TAB: the browser ignores a text that
    holds one. *)
Definition is_control (c : ascii) : bool :=
  let n := nat_of_ascii c in
  (((n <? 32) && negb (n =? 9)) || (n =? 127))%nat.

Definition no_control (s : string) : bool :=
  JsString.forall_chars (fun c => negb (is_control c)) s.

(** A name and a value that the parser reads as they are written: the
    first semicolon ends the pair, the first equals sign ends the name,
    white space around either is dropped. *)
Definition plain_name (s : string) : bool :=
  JsString.forall_chars
    (fun c => negb (JsString.is_space c) && negb (Ascii.eqb c ";"%char)
              && negb (Ascii.eqb c "="%char)) s.

Definition plain_value (s : string) : bool :=
  JsString.forall_chars
    (fun c => negb (JsString.is_space c) && negb (Ascii.eqb c ";"%char)) s.

(** The octets of a text of 8-bit code units in UTF-8. *)
Definition byte_length (s : string) : nat :=
  fold_right (fun c n => ((if (nat_of_ascii c <? 128)%nat then 1 else 2) + n)%nat)
             0%nat (list_ascii_of_string s).

(** Name and value together take at most 4096 octets. *)
Definition fits (name value : string) : bool :=
  (byte_length name + byte_length value <=? 4096)%nat.

Definition text_no_control (a : CookieString) : bool :=
  no_control (cs_name a) && no_control (cs_value a) && no_control (cs_path a)
  && match cs_domain a with Some d => no_control d | None => true end.

(** A name with the prefix [__Secure-] or [__Host-], in any case: the
    browser takes a cookie of such a name only with the [Secure]
    attribute, which the texts of the scripts never carry. *)
Definition reserved (name : string) : bool :=
  let n := JsString.toLowerCase name in
  String.prefix "__secure-" n || String.prefix "__host-" n.

(** What the parser reads in an assigned text; [None] when it ignores
    the text. *)
Definition parsed (h : Host) (a : CookieString) : option CookieString :=
  if negb (text_no_control a) then None
  else
    match (if plain_name (cs_name a) && plain_value (cs_value a) then Some a
           else cookie_reparse h a) with
    | Some a' =>
        if text_no_control a' && fits (cs_name a') (cs_value a')
           && negb (reserved (cs_name a'))
        then Some a' else None
    | None => None
    end.

(** *** The domain of a cookie *)

(** The domain attribute as it is compared: without one leading dot, in
    lower case. *)
Definition canonical_domain (d : string) : string :=
  JsString.toLowerCase
    (match d with
     | String c rest => if Ascii.eqb c "."%char then rest else d
     | EmptyString => d
     end).

Definition numeric (s : string) : bool :=
  negb (String.eqb s "") && JsString.forall_chars JsString.is_digit s.

(** The host is an IPv4 address in dotted form or an IPv6 address in
    brackets. *)
Definition is_ip_address (host : string) : bool :=
  match JsString.split "."%char host with
  | [a; b; c; d] => numeric a && numeric b && numeric c && numeric d
  | _ => false
  end
  || String.prefix "[" host.

(** The host domain-matches [d]: it is [d], or it is a host name that
    ends with [d] after a dot. *)
Definition domain_match (host d : string) : bool :=
  String.eqb host d
  || (negb (is_ip_address host) && JsString.endsWith host ("." ++ d)).

(** A domain under which the browser holds a cookie for the host. *)
Definition domain_ok (h : Host) (host d : string) : bool :=
  (byte_length d <=? 1024)%nat
  && no_control d
  && String.eqb (canonical_domain d) d
  && negb (String.eqb d "")
  && negb (public_suffix h d)
  && domain_match host d.

(** The domain the cookie gets on the host for a domain attribute:
    [None] when the browser refuses the cookie, [Some None] for a
    host-only cookie. *)
Definition effective_domain (h : Host) (host : string) (d : option string)
  : option (option string) :=
  match d with
  | None => Some None
  | Some d0 =>
      if negb (no_control d0) then None
      else if (1024 <? byte_length d0)%nat then Some None
      else
        let d := canonical_domain d0 in
        if String.eqb d "" then Some None
        else if public_suffix h d
             then (if String.eqb d host then Some None else None)
             else if domain_ok h host d then Some (Some d) else None
  end.

(** *** Storing and showing *)

(** The expiry time of a cookie written now: the time asked for, or
    the furthest time the browser grants. *)
Definition expiry (h : Host) (l : Lifetime) : Z :=
  let now := Date_now h in
  Z.min (match l with
         | Expires t => t
         | MaxAge s => now + s * 1000
         end)
        (now + Zpos (cookie_lifetime_limit h))%Z.

(** The cookie the browser makes of an assigned text on the host;
    [None] when it ignores the text. *)
Definition cookie_of (h : Host) (host : string) (a : CookieString) : option Cookie :=
  match parsed h a with
  | Some a' =>
      match effective_domain h (JsString.toLowerCase host) (cs_domain a') with
      | Some d =>
          Some {| ck_name := cs_name a';
                  ck_value := cs_value a';
                  ck_domain := d;
                  ck_path := cs_path a';
                  ck_expires := Some (expiry h (cs_life a')) |}
      | None => None
      end
  | None => None
  end.

Definition unexpired (now : Z) (c : Cookie) : bool :=
  match ck_expires c with
  | Some t => (now <? t)%Z
  | None => true
  end.

(** Two cookies are the same cookie when name, domain and path agree. *)
Definition same_key (c x : Cookie) : bool :=
  String.eqb (ck_name c) (ck_name x)
  && option_string_eqb (ck_domain c) (ck_domain x)
  && String.eqb (ck_path c) (ck_path x).

Definition remove (c : Cookie) (jar : list Cookie) : list Cookie :=
  filter (fun x => negb (same_key c x)) jar.

(** A cookie that replaces one takes its place; a new one goes last. *)
Fixpoint put (c : Cookie) (jar : list Cookie) : list Cookie :=
  match jar with
  | [] => [c]
  | x :: rest => if same_key c x then c :: remove c rest else x :: put c rest
  end.

(** [document.cookie = a]: nothing when the browser ignores the text;
    otherwise the cookie replaces the one with its name, domain and path,
    or, when it is already expired, removes it. *)
Definition document_cookie_set (h : Host) (a : CookieString) (w : World) : World :=
  with_cookies w
    (match cookie_of h (location_hostname w) a with
     | Some c =>
         if unexpired (Date_now h) c then put c (cookie_jar w)
         else remove c (cookie_jar w)
     | None => cookie_jar w
     end)
    (cookie_assignments w ++ [a])%list.

(** The browser shows a cookie it can hold (no control character, name
    and value within the size), that has not expired and whose domain
    matches the host. *)
Definition shown (h : Host) (host : string) (c : Cookie) : bool :=
  no_control (ck_name c) && no_control (ck_value c)
  && fits (ck_name c) (ck_value c)
  && unexpired (Date_now h) c
  && match ck_domain c with
     | Some d => domain_ok h (JsString.toLowerCase host) d
     | None => true
     end.

Definition visible (h : Host) (w : World) : list Cookie :=
  filter (shown h (location_hostname w)) (cookie_jar w).

(** Reading [document.cookie]: the [name=value] pairs of the cookies
    shown, separated by ["; "]. *)
Definition document_cookie (h : Host) (w : World) : string :=
  JsString.join "; " (map (fun c => ck_name c ++ "=" ++ ck_value c) (visible h w)).


End Browser.

(** ToString, the conversion behind [String(v)], template literals and
    the arguments of [encodeURIComponent] and [searchParams.append].  An
    object is an ordinary object with the own properties listed: without
    an own [toString] it converts through the inherited one, to
    ["[object Object]"]; an own [toString] shadows that one and, no value
    here being a function, cannot be called, so that the conversion goes
    on to [valueOf] (which is not callable either when it is an own
    property, and returns the object itself when it is inherited) and
    ends in a TypeError.  An array joins the texts of its elements with
    commas, [undefined] and [null] elements giving the empty text. *)
Fixpoint ToString (h : Host) (v : JsValue) : Completion string :=
  match v with
  | VUndefined => Normal "undefined"
  | VNull => Normal "null"
  | VBool true => Normal "true"
  | VBool false => Normal "false"
  | VNum x => Normal (NumberToString h x)
  | VStr s => Normal s
  | VArr elems =>
      texts <- (fix each (l : list JsValue) : Completion (list string) :=
                  match l with
                  | [] => Normal []
                  | e :: rest =>
                      t <- match e with
                           | VUndefined | VNull => Normal ""
                           | _ => ToString h e
                           end ;;
                      ts <- each rest ;;
                      Normal (t :: ts)
                  end) elems ;;
      Normal (JsString.join "," texts)
  | VObj props =>
      if existsb (fun kv => String.eqb (fst kv) "toString") props
      then Throw TypeError
      else Normal "[object Object]"
  end.

(* ================================================================== *)
(** ** The utilities both scripts define: root domain and cookies *)
(* ================================================================== *)

(** [/^(localhost|(\d{1,3}\.){3}\d{1,3})$/.test(s)]: the word [localhost],
    or four groups of one to three digits separated by dots. *)
Definition digits_1_3 (s : string) : bool :=
  ((1 <=? String.length s) && (String.length s <=? 3))%nat
  && JsString.forall_chars JsString.is_digit s.

Definition re_localhost_or_ip (s : string) : bool :=
  String.eqb s "localhost"
  || match JsString.split "."%char s with
     | [a; b; c; d] => digits_1_3 a && digits_1_3 b && digits_1_3 c && digits_1_3 d
     | _ => false
     end.

Definition slds : list string :=
  ["co"; "ne"; "or"; "go"; "ac"; "ad"; "ed"; "gr"; "com"; "net"; "org";
   "gov"; "edu"; "uk"; "au"; "ca"; "de"; "fr"; "kr"].

(** [xs.includes(x)] on an array of strings; [None] stands for the
    [undefined] an out-of-range index reads. *)
Definition Array_includes (xs : list string) (x : option string) : bool :=
  match x with
  | Some s => existsb (String.eqb s) xs
  | None => false
  end.

(** [xs[i]]. *)
Definition Array_at {A} (xs : list A) (i : Z) : option A :=
  if (i <? 0)%Z then None else nth_error xs (Z.to_nat i).

(** [xs.slice(-n)]: the last [n] elements, all of them when there are
    fewer. *)
Definition Array_slice_last {A} (n : nat) (xs : list A) : list A :=
  skipn (List.length xs - n) xs.

Definition getRootDomain (w : World) : string :=
  let hostname := location_hostname w in
  if re_localhost_or_ip hostname then hostname
  else
    let parts := JsString.split "."%char hostname in
    if (List.length parts <=? 2)%nat then hostname
    else if Array_includes slds (Array_at parts (Z.of_nat (List.length parts) - 2))
            && (2 <? List.length parts)%nat
    then JsString.join "." (Array_slice_last 3 parts)
    else JsString.join "." (Array_slice_last 2 parts).

Module CookieUtil.

Definition set (h : Host) (name value : string) (days : Z) (domain : string)
    (w : World) : World :=
  let date := (Date_now h + days * 24 * 60 * 60 * 1000)%Z in
  Browser.document_cookie_set h
    {| cs_name := name;
       cs_value := value;
       cs_life := Expires date;
       cs_path := "/";
       cs_domain := if re_localhost_or_ip domain then None else Some domain |}
    w.

Fixpoint scan (nameEQ : string) (ca : list string) : option string :=
  match ca with
  | [] => None
  | x :: rest =>
      let c := JsString.trim x in
      match JsString.indexOf c nameEQ with
      | Some O => Some (JsString.substring c (String.length nameEQ) (String.length c))
      | _ => scan nameEQ rest
      end
  end.

(** [None] is the [null] of a cookie that is not there.  The host is
    the browser that answers [document.cookie]. *)
Definition get (h : Host) (name : string) (w : World) : option string :=
  let nameEQ := name ++ "=" in
  let ca := JsString.split ";"%char (Browser.document_cookie h w) in
  scan nameEQ ca.

Definition delete (h : Host) (name domain : string) (w : World) : World :=
  Browser.document_cookie_set h
    {| cs_name := name;
       cs_value := "";
       cs_life := MaxAge (-99999999);
       cs_path := "/";
       cs_domain := if re_localhost_or_ip domain then None else Some domain |}
    w.

End CookieUtil.

(* ================================================================== *)
(** ** OneAccountTracking.js *)
(* ================================================================== *)

Definition ONEACCOUNT_SALES_SERVER_URL : string :=
  "https://px.oneaccount.net/oneaccountfly/sales".

Definition ASP_POSTBACK_URL : string :=
  "http://asp-site.local:8080/asp-conversion-pixel.gif".

Module logger.

Definition info (m : Message) (w : World) : World :=
  if stopLog w then w
  else Browser.with_console w (console w ++ [ConsoleInfo m])%list.

Definition error (m : Message) (w : World) : World :=
  if stopLog w then w
  else Browser.with_console w (console w ++ [ConsoleError m])%list.

End logger.

(** [/^[A-Za-z0-9\-_.]+$/.test(s)]: one or more code units, each a letter,
    a digit, a hyphen, an underscore or a dot. *)
Definition click_id_char (c : ascii) : bool :=
  JsString.is_alnum c || JsString.mem_char c "-_.".

Definition re_click_id (s : string) : bool :=
  negb (String.eqb s "") && JsString.forall_chars click_id_char s.

Definition validCurrencies : list string := ["JPY"; "AUD"; "CHF"].

(** A normalized line item, [{ code, price, quantity }]. *)
Record Item : Type := {
  item_code : string;
  item_price : float;
  item_quantity : float
}.

(** The properties of the normalized copy [data] that the later phases
    read.  [data] starts as [{ ...dataObject }]; [order_number],
    [currency], [items] and [total_price] are then reassigned, the other
    four are the caller's. *)
Record Data : Type := {
  data_pid : JsValue;
  data_order_number : string;
  data_currency : string;
  data_items : list Item;
  data_total_price : float;
  data_amount_priority : JsValue;
  data_coupon : JsValue;
  data_repeat : JsValue
}.

(** *** Phase 1: validation *)

(** The body of the [forEach] over [dataObject.items]. *)
Definition validate_item (index : nat) (item : JsValue) : Completion (list Message) :=
  price <- Js.get item "price" ;;
  quantity <- Js.get item "quantity" ;;
  Normal ((if String.eqb (Js.typeof price) "number" then [] else [MsgBadPrice index])
          ++ (if String.eqb (Js.typeof quantity) "number" then [] else [MsgBadQuantity index]))%list.

Fixpoint validate_items (index : nat) (items : list JsValue) : Completion (list Message) :=
  match items with
  | [] => Normal []
  | item :: rest =>
      e <- validate_item index item ;;
      es <- validate_items (S index) rest ;;
      Normal (e ++ es)%list
  end.

(** The [errors] array at the end of the checks. *)
Definition validate (dataObject : JsValue) : Completion (list Message) :=
  if negb (Js.truthy dataObject) || negb (String.eqb (Js.typeof dataObject) "object")
  then Normal [MsgNotObject]
  else
    pid <- Js.get dataObject "pid" ;;
    items <- Js.get dataObject "items" ;;
    let pid_errors :=
      match pid with
      | VStr s => if (String.length s =? 15)%nat then [] else [MsgBadPid]
      | _ => [MsgBadPid]
      end in
    match items with
    | VArr (first :: others) =>
        item_errors <- validate_items 0 (first :: others) ;;
        Normal (pid_errors ++ item_errors)%list
    | _ => Normal (pid_errors ++ [MsgBadItems])%list
    end.

(** *** Phase 2: the click identifier *)

Definition option_length (s : option string) : nat :=
  match s with Some v => String.length v | None => 0 end.

Definition option_truthy (s : option string) : bool :=
  match s with Some v => negb (String.eqb v "") | None => false end.

(** Returns [oneAccountValue] ([None] for [null]) and the page after the
    cookie write or the logged error. *)
Definition resolveClickId (h : Host) (cookieName rootDomain : string) (w : World)
  : option string * World :=
  let oneAccountParamFromUrl := Browser.URLSearchParams_get (location_search w) "oneAccount" in
  let w := Browser.console_log
             (MsgReceived oneAccountParamFromUrl
                (if option_truthy oneAccountParamFromUrl
                 then option_length oneAccountParamFromUrl else 0)) w in
  match oneAccountParamFromUrl with
  | Some v =>
      if negb (String.eqb v "") then
        if re_click_id v && (92 <=? String.length v)%nat && (String.length v <=? 500)%nat
        then (Some v, CookieUtil.set h cookieName v 3653 rootDomain w)
        else (None, logger.error MsgBadParam w)
      else (CookieUtil.get h cookieName w, w)
  | None => (CookieUtil.get h cookieName w, w)
  end.

(** *** Phase 3: normalization *)

Definition synthetic_order_number (h : Host) : string :=
  "null-" ++ JsString.of_Z (Date_now h) ++ "-"
  ++ JsString.substring (Math_random_toString36 h) 2 11.

Definition normalize_order_number (h : Host) (v : JsValue) : string :=
  match v with
  | VStr s =>
      if (0 <? String.length s)%nat then JsString.substring s 0 50
      else synthetic_order_number h
  | _ => synthetic_order_number h
  end.

Definition normalize_currency (v : JsValue) : string :=
  match v with
  | VStr s =>
      if Array_includes validCurrencies (Some (JsString.toUpperCase s))
      then JsString.toUpperCase s else "JPY"
  | _ => "JPY"
  end.

Definition normalize_code (v : JsValue) : string :=
  match v with
  | VStr s =>
      if (0 <? String.length s)%nat then JsString.substring s 0 50 else "oneAccount"
  | _ => "oneAccount"
  end.

(** [Number(v) || 0]. *)
Definition normalize_price (v : JsValue) : float :=
  let n := Js.ToNumber v in
  if JsNumber.truthy n then n else 0%float.

(** [(Number.isInteger(v) && v > 0 && v <= 9999) ? v : 1]. *)
Definition normalize_quantity (v : JsValue) : float :=
  match v with
  | VNum q =>
      if JsNumber.isInteger q && PrimFloat.ltb 0 q && PrimFloat.leb q 9999
      then q else 1%float
  | _ => 1%float
  end.

(** The callback of [data.items.map]. *)
Definition normalize_item (item : JsValue) : Completion Item :=
  code <- Js.get item "code" ;;
  price <- Js.get item "price" ;;
  quantity <- Js.get item "quantity" ;;
  Normal {| item_code := normalize_code code;
            item_price := normalize_price price;
            item_quantity := normalize_quantity quantity |}.

(** [items.reduce((total, item) => total + (item.price * item.quantity), 0)]. *)
Definition items_total (items : list Item) : float :=
  fold_left (fun total item => PrimFloat.add total (PrimFloat.mul (item_price item) (item_quantity item)))
            items 0%float.

Definition normalize_total_price (original : JsValue) (currency : string)
    (items : list Item) : float :=
  match original with
  | VNum x => x
  | _ =>
      let total := items_total items in
      if String.eqb currency "JPY" then JsNumber.Math_floor total else total
  end.

Definition normalize (h : Host) (dataObject : JsValue) : Completion Data :=
  let data := Js.spread dataObject in
  let order_number := normalize_order_number h (Js.lookup "order_number" data) in
  let currency := normalize_currency (Js.lookup "currency" data) in
  items <- match Js.lookup "items" data with
           | VArr elems => mapC normalize_item elems
           | _ => Throw TypeError
           end ;;
  Normal {| data_pid := Js.lookup "pid" data;
            data_order_number := order_number;
            data_currency := currency;
            data_items := items;
            data_total_price :=
              normalize_total_price (Js.lookup "total_price" data) currency items;
            data_amount_priority := Js.lookup "amount_priority" data;
            data_coupon := Js.lookup "coupon" data;
            data_repeat := Js.lookup "repeat" data |}.

(** *** Phase 4: the final amount *)

Definition finalAmount (data : Data) (original_total_price : JsValue) : JsValue :=
  if Js.strict_eq_string (data_amount_priority data) "total_price"
     && String.eqb (Js.typeof original_total_price) "number"
  then original_total_price
  else VNum (data_total_price data).

(** *** Phase 5: the tracking query *)

(** The three assignments of the [forEach] over [data.items]. *)
Definition item_query (index : nat) (item : Item) (query : list (string * JsValue))
  : list (string * JsValue) :=
  let query := Js.assign query ("i[" ++ JsString.of_nat index ++ "][sc]") (VStr (item_code item)) in
  let query := Js.assign query ("i[" ++ JsString.of_nat index ++ "][p]") (VNum (item_price item)) in
  Js.assign query ("i[" ++ JsString.of_nat index ++ "][q]") (VNum (item_quantity item)).

Fixpoint items_query (index : nat) (items : list Item) (query : list (string * JsValue))
  : list (string * JsValue) :=
  match items with
  | [] => query
  | item :: rest => items_query (S index) rest (item_query index item query)
  end.

(** The query object after the assignments of lines 215 to 234.
    [String(data.coupon)] may throw. *)
Definition buildQuery (h : Host) (data : Data) (oneAccountValue : string)
    (amount : JsValue) : Completion (list (string * JsValue)) :=
  let query :=
    [("pid", data_pid data);
     ("oneAccount", VStr oneAccountValue);
     ("o", VStr (data_order_number data));
     ("c", VStr (data_currency data));
     ("p", amount)] in
  let query := items_query 0 (data_items data) query in
  query <- (if Js.truthy (data_coupon data)
            then text <- ToString h (data_coupon data) ;;
                 Normal (Js.assign query "coupon" (VStr (JsString.substring text 0 50)))
            else Normal query) ;;
  Normal (if Js.strict_eq_true (data_repeat data)
          then Js.assign query "repeat" (VStr "1")
          else query).

(** [Object.keys(query).map(key => ...).join('&')]. *)
Definition queryString (h : Host) (query : list (string * JsValue)) : Completion string :=
  pairs <- mapC (fun key =>
                   text <- ToString h (Js.lookup key query) ;;
                   Normal (JsString.encodeURIComponent key ++ "="
                           ++ JsString.encodeURIComponent text))
                (map fst query) ;;
  Normal (JsString.join "&" pairs).

Definition trackingUrl (h : Host) (query : list (string * JsValue)) : Completion string :=
  text <- queryString h query ;;
  Normal (ONEACCOUNT_SALES_SERVER_URL ++ "?" ++ text).

(** [url.toString()] of a [URL] without query of its own after a series
    of [searchParams.append]. *)
Definition URL_toString (base : string) (searchParams : list (string * string)) : string :=
  match searchParams with
  | [] => base
  | _ =>
      base ++ "?"
      ++ JsString.join "&"
           (map (fun kv => JsString.formEncode (fst kv) ++ "=" ++ JsString.formEncode (snd kv))
                searchParams)
  end.

Definition aspPostbackUrl (h : Host) (oneAccountValue : string) (amount : JsValue)
    (order_number : string) : Completion string :=
  order_total <- ToString h amount ;;
  Normal (URL_toString ASP_POSTBACK_URL
            [("click_id", oneAccountValue);
             ("order_total", order_total);
             ("order_number", order_number)]).

(** *** Phases 6 and 7: dispatch and cleanup *)

(** The element [document.createElement('img')] returns, after the four
    attribute assignments (no [src] yet). *)
Definition hidden_pixel : Img :=
  {| img_width := 1;
     img_height := 1;
     img_alt := "";
     img_style_display := "none";
     img_src := None |}.

Definition set_src (i : Img) (url : string) : Img :=
  {| img_width := img_width i;
     img_height := img_height i;
     img_alt := img_alt i;
     img_style_display := img_style_display i;
     img_src := Some url |}.

(** The container keeps the [img] it has; an empty one receives a new
    hidden pixel.  The source then leaves the assignment
    [img.src = trackingUrl] commented out, so nothing more happens to that
    element. *)
Definition ensure_container_img (w : World) : World :=
  match container w with
  | Some [] => Browser.with_container w (Some [hidden_pixel])
  | _ => w
  end.

Definition append_to_body (i : Img) (w : World) : World :=
  Browser.with_body w (body_appended w ++ [i])%list.

Definition RELAY_COOKIE : string := "ONEACCOUNT_DELIVERY".

(** Lines 271 to 291: the partner image with its [src] goes to the
    body, then the cookies are cleaned up. *)
Definition report_and_cleanup (h : Host) (data : Data) (url : string)
    (cookieName rootDomain : string) (w : World) : World :=
  let aspImg := set_src hidden_pixel url in
  let w := append_to_body aspImg w in
  let w := logger.info (MsgAspSent url) w in
  let w :=
    if negb (Js.strict_eq_true (data_repeat data))
    then logger.info (MsgCookieDeleted cookieName)
           (CookieUtil.delete h cookieName rootDomain w)
    else w in
  let w := CookieUtil.delete h RELAY_COOKIE rootDomain w in
  logger.info MsgRelayDeleted w.

(** Phases 5 to 7.  A conversion that throws ends the call where it
    stands: before the container is touched in phase 5, after it for the
    amount of the partner URL. *)
Definition dispatch_and_cleanup (h : Host) (data : Data) (amount : JsValue)
    (oneAccountValue cookieName rootDomain : string) (w : World)
  : Completion unit * World :=
  match buildQuery h data oneAccountValue amount with
  | Throw e => (Throw e, w)
  | Normal query =>
      match trackingUrl h query with
      | Throw e => (Throw e, w)
      | Normal trackingUrl =>
          let w := ensure_container_img w in
          match aspPostbackUrl h oneAccountValue amount (data_order_number data) with
          | Throw e => (Throw e, w)
          | Normal url =>
              (Normal tt, report_and_cleanup h data url cookieName rootDomain w)
          end
      end
  end.

(** *** The conversion reporter *)

Definition oneAccountSales (h : Host) (dataObject : JsValue) (w : World)
  : Completion unit * World :=
  match container w with
  | None => (Normal tt, logger.error MsgNoContainer w)
  | Some _ =>
      match validate dataObject with
      | Throw e => (Throw e, w)
      | Normal errors =>
          if (0 <? List.length errors)%nat
          then (Normal tt, fold_left (fun w msg => logger.error msg w) errors w)
          else
            match (pid <- Js.get dataObject "pid" ;; ToString h pid) with
            | Throw e => (Throw e, w)
            | Normal pid =>
                let rootDomain := getRootDomain w in
                let cookieName := "_oneAccount_" ++ pid in
                let (oneAccountValue, w) := resolveClickId h cookieName rootDomain w in
                match oneAccountValue with
                | Some v =>
                    if String.eqb v ""
                    then (Normal tt, logger.error MsgNoClickId w)
                    else
                      match normalize h dataObject, Js.get dataObject "total_price" with
                      | Normal data, Normal original_total_price =>
                          dispatch_and_cleanup h data (finalAmount data original_total_price)
                            v cookieName rootDomain w
                      | Throw e, _ => (Throw e, w)
                      | _, Throw e => (Throw e, w)
                      end
                | None => (Normal tt, logger.error MsgNoClickId w)
                end
            end
      end
  end.

(* ================================================================== *)
(** ** OneAccountCrossDomain.js *)
(* ================================================================== *)

(** What [updateAnchorHref] reads and writes of an [a] element: [href]
    is the text [anchor.href] reads before the call, and the text the
    call assigns to it afterwards. *)
Record Anchor : Type := {
  href : string;
  hostname : string
}.

Module CROSS_DOMAIN.

Definition COOKIE_KEY : string := "ONEACCOUNT_DELIVERY".
Definition PARAM_KEY : string := "oneAccount".

(** Returns the anchor after the call and the page (its console). *)
Definition updateAnchorHref (anchor : Anchor) (oneAccountValue : string) (w : World)
  : Anchor * World :=
  let href_ := href anchor in
  if String.eqb href_ "" || String.eqb (hostname anchor) (location_hostname w)
  then (anchor, w)
  else if JsString.includes href_ (PARAM_KEY ++ "=")
  then (anchor, w)
  else
    let (newHref, hash) :=
      match JsString.indexOf href_ "#" with
      | Some hashIndex =>
          (JsString.substring href_ 0 hashIndex, JsString.substring_from href_ hashIndex)
      | None => (href_, "")
      end in
    let newHref :=
      newHref ++ (if JsString.includes newHref "?" then "&" else "?")
      ++ PARAM_KEY ++ "=" ++ oneAccountValue in
    let anchor := {| href := newHref ++ hash; hostname := hostname anchor |} in
    (anchor, logger.info MsgLinkUpdated w).

End CROSS_DOMAIN.

(* ================================================================== *)
(** ** The rules the properties are stated against *)
(* ================================================================== *)

Module Rules.

(** The last [n] labels of a host name (all of them when it has fewer). *)
Definition last_labels (n : nat) (labels : list string) : list string :=
  rev (firstn n (rev labels)).

(** The label before the last one, when there are at least two. *)
Definition second_to_last (labels : list string) : option string :=
  nth_error (rev labels) 1.

(** Root-domain resolution as the documentation words it: [localhost]
    and dotted quads are returned unchanged; otherwise the last three
    labels are joined when the second-to-last label is a known
    second-level label, and the last two are joined when it is not. *)
Definition resolveRootDomain (hostname : string) : string :=
  if re_localhost_or_ip hostname then hostname
  else
    let labels := JsString.split "."%char hostname in
    match second_to_last labels with
    | Some label =>
        if existsb (String.eqb label) slds
        then JsString.join "." (last_labels 3 labels)
        else JsString.join "." (last_labels 2 labels)
    | None => JsString.join "." (last_labels 2 labels)
    end.

(** A [pid] of fifteen characters and a non-empty array of items, each
    an object whose [price] and [quantity] are numbers (of any value,
    NaN included). *)
Definition numeric_item (item : JsValue) : bool :=
  match item with
  | VObj props =>
      Js.is_number (Js.lookup "price" props)
      && Js.is_number (Js.lookup "quantity" props)
  | _ => false
  end.

(** [undefined] or [null]. *)
Definition nullish (v : JsValue) : bool :=
  match v with
  | VUndefined | VNull => true
  | _ => false
  end.

(** The normalized form of an item that is an object. *)
Definition item_of (item : JsValue) : Item :=
  {| item_code := normalize_code (Js.lookup "code" (Js.spread item));
     item_price := normalize_price (Js.lookup "price" (Js.spread item));
     item_quantity := normalize_quantity (Js.lookup "quantity" (Js.spread item)) |}.

(** The items of a payload whose [items] is an array. *)
Definition items_of (dataObject : JsValue) : list JsValue :=
  match Js.lookup "items" (Js.spread dataObject) with
  | VArr items => items
  | _ => []
  end.

(** The normalized copy of a payload that passed phase 1. *)
Definition normalized (h : Host) (dataObject : JsValue) : Data :=
  let props := Js.spread dataObject in
  let items := map item_of (items_of dataObject) in
  {| data_pid := Js.lookup "pid" props;
     data_order_number := normalize_order_number h (Js.lookup "order_number" props);
     data_currency := normalize_currency (Js.lookup "currency" props);
     data_items := items;
     data_total_price :=
       normalize_total_price (Js.lookup "total_price" props)
         (normalize_currency (Js.lookup "currency" props)) items;
     data_amount_priority := Js.lookup "amount_priority" props;
     data_coupon := Js.lookup "coupon" props;
     data_repeat := Js.lookup "repeat" props |}.

(** The text of a conversion that returns. *)
Definition returned (c : Completion string) : string :=
  match c with
  | Normal s => s
  | Throw _ => ""
  end.

(** The name of the per-program cookie, [_oneAccount_<pid>]. *)
Definition cookie_name (h : Host) (dataObject : JsValue) : string :=
  "_oneAccount_" ++ returned (ToString h (Js.lookup "pid" (Js.spread dataObject))).

(** [String(v)] returns. *)
Definition converts (h : Host) (v : JsValue) : bool :=
  match ToString h v with
  | Normal _ => true
  | Throw _ => false
  end.

(** The payload has no coupon, or one that [String] converts: the call
    gets through phase 5. *)
Definition coupon_converts (h : Host) (dataObject : JsValue) : bool :=
  let coupon := Js.lookup "coupon" (Js.spread dataObject) in
  negb (Js.truthy coupon) || converts h coupon.

(** The amount the call reports. *)
Definition reported_amount (h : Host) (dataObject : JsValue) : JsValue :=
  finalAmount (normalized h dataObject) (Js.lookup "total_price" (Js.spread dataObject)).

(** The click identifier of the URL parameter is within the documented
    bounds. *)
Definition acceptable_click_id (v : string) : bool :=
  re_click_id v && (92 <=? String.length v)%nat && (String.length v <=? 500)%nat.

(** The [domain] attribute the cookie utilities write for a root domain:
    none on [localhost] or an IP address. *)
Definition scope (rootDomain : string) : option string :=
  if re_localhost_or_ip rootDomain then None else Some rootDomain.


(** The text of a deletion at a root domain. *)
Definition deletion (name rootDomain : string) : CookieString :=
  {| cs_name := name;
     cs_value := "";
     cs_life := MaxAge (-99999999);
     cs_path := "/";
     cs_domain := scope rootDomain |}.



(** No cookie written or deleted, no element created or changed: the
    cookie store, the texts assigned to [document.cookie], the images of
    the container and the images appended to the body are the same. *)
Definition untouched (w w' : World) : Prop :=
  cookie_jar w' = cookie_jar w
  /\ cookie_assignments w' = cookie_assignments w
  /\ container w' = container w
  /\ body_appended w' = body_appended w.

(** The address of the partner postback for [v]. *)
Definition postback_url (h : Host) (dataObject : JsValue) (v : string) : string :=
  returned (aspPostbackUrl h v (reported_amount h dataObject)
              (data_order_number (normalized h dataObject))).

(** The image that reports [v] to the partner. *)
Definition postback (h : Host) (dataObject : JsValue) (v : string) : Img :=
  set_src hidden_pixel (postback_url h dataObject v).


End Rules.

(* ================================================================== *)
(** ** Sample pages and payloads *)
(* ================================================================== *)

Module Sample.

(** Number::toString on the values the samples print: integers. *)
Definition integer_text (x : float) : string :=
  match Prim2SF x with
  | S754_zero _ => "0"
  | S754_infinity false => "Infinity"
  | S754_infinity true => "-Infinity"
  | S754_nan => "NaN"
  | S754_finite s m e =>
      let sign := if s then "-" else "" in
      if (0 <=? e)%Z then sign ++ JsString.of_Z (Zpos m * 2 ^ e)
      else if (Zpos m mod 2 ^ (- e) =? 0)%Z
           then sign ++ JsString.of_Z (Zpos m / 2 ^ (- e))
           else ""
  end.

(** ... and 999.9, which Number::toString prints as [999.9]. *)
Definition number_text (x : float) : string :=
  if PrimFloat.eqb x 999.9%float then "999.9" else integer_text x.

(** Some entries of the public suffix list. *)
Definition suffixes : list string :=
  ["com"; "net"; "org"; "jp"; "co.jp"; "uk"; "co.uk"; "me.uk"; "local"].

Definition host : Host :=
  {| NumberToString := number_text;
     Date_now := 1700000000000;
     Math_random_toString36 := "0.4fzyo82mvyr";
     public_suffix := fun d => existsb (String.eqb d) suffixes;
     cookie_reparse := fun _ => None;
     cookie_lifetime_limit := 34560000000 |}.

(** The same browser at another time. *)
Definition host_at (now : Z) : Host :=
  {| NumberToString := number_text;
     Date_now := now;
     Math_random_toString36 := "0.4fzyo82mvyr";
     public_suffix := fun d => existsb (String.eqb d) suffixes;
     cookie_reparse := fun _ => None;
     cookie_lifetime_limit := 34560000000 |}.

Definition pid : string := "s00000000000001".

(** A click identifier of 95 characters. *)
Definition click_id : string :=
  "click-1700000000000-abcdefghijklmnopqrstuvwxyz0123456789_ABCDEFGHIJKLMNOPQRSTUVWXYZ.0123456789a".

Definition two_items : JsValue :=
  VArr [VObj [("code", VStr "item-001"); ("price", VNum 1000); ("quantity", VNum 2)];
        VObj [("code", VStr "item-002"); ("price", VNum 500); ("quantity", VNum 1)]].

(** The call of the test page [cv.html]. *)
Definition cv_payload : JsValue :=
  VObj [("pid", VStr pid);
        ("items", two_items);
        ("order_number", VStr "ORDER-12345");
        ("total_price", VNum 2500);
        ("currency", VStr "JPY")].

Definition payload_without_total : JsValue :=
  VObj [("pid", VStr pid); ("items", two_items); ("currency", VStr "JPY")].



(** A payload whose coupon is an object with an own [toString] that is
    not a function, as [JSON.parse] gives for [{"toString": 1}]. *)
Definition payload_coupon_object : JsValue :=
  VObj [("pid", VStr pid);
        ("items", two_items);
        ("order_number", VStr "ORDER-12345");
        ("coupon", VObj [("toString", VNum 1)])].

Definition nan_item : JsValue :=
  VObj [("code", VStr "item-001");
        ("price", VNum JsNumber.NaN);
        ("quantity", VNum JsNumber.NaN)].

Definition nan_props : list (string * JsValue) :=
  [("pid", VStr pid); ("items", VArr [nan_item]); ("order_number", VStr "ORDER-12345")].

Definition payload_nan : JsValue := VObj nan_props.

Definition payload_null_item : JsValue :=
  VObj [("pid", VStr pid); ("items", VArr [VNull])].

Definition cookie (name value : string) : Cookie :=
  {| ck_name := name;
     ck_value := value;
     ck_domain := Some "another-site.local";
     ck_path := "/";
     ck_expires := Some 2015619200000%Z |}.

(** The conversion page [another-site.local/cv.html] with an empty
    [<span id="oneAccountSales">]. *)
Definition cv_page (search : list (string * string)) (jar : list Cookie) : World :=
  {| location_hostname := "another-site.local";
     location_search := search;
     stopLog := false;
     cookie_jar := jar;
     cookie_assignments := [];
     container := Some [];
     body_appended := [];
     console := [] |}.

Definition both_cookies : list Cookie :=
  [cookie ("_oneAccount_" ++ pid) click_id; cookie "ONEACCOUNT_DELIVERY" click_id].

Definition page_at (hostname : string) : World :=
  {| location_hostname := hostname;
     location_search := [];
     stopLog := false;
     cookie_jar := [];
     cookie_assignments := [];
     container := None;
     body_appended := [];
     console := [] |}.

End Sample.

(* ================================================================== *)
(** ** OneAccountCrossDomain.js: forms and the page-load pass *)
(* ================================================================== *)

(** What [addHiddenInputToForm] reads and writes of an [input] and of a
    [form]: the [input] descendants of the form in document order. *)
Record Input : Type := {
  input_type : string;
  input_name : string;
  input_value : string
}.

Record Form : Type := {
  form_action : string;
  form_inputs : list Input
}.

(** The two other texts the cross-domain script prints through its
    [logger.info]: the relay cookie was saved, a form received the
    parameter.  They are kept in a list of their own, beside the console
    of the page that [updateAnchorHref] writes to. *)
Inductive Info : Type :=
| InfoRelaySaved (key : string)
| InfoFormUpdated (target : string).

Inductive Node : Type :=
| NodeA (anchor : Anchor)
| NodeForm (form : Form)
| NodeOther.

(** An element of the document: what it is, and whether its class list
    holds [oneAccountCrossDomain]. *)
Record Element : Type := {
  el_node : Node;
  el_marked : bool
}.

(** The page the cross-domain script runs on: the elements are those of
    the document, in document order. *)
Record Page : Type := {
  page_world : World;
  page_elements : list Element;
  page_info : list Info
}.

Module CrossDomainPage.

Definition TARGET_CLASS : string := "oneAccountCrossDomain".

(** [form.querySelector('input[name="oneAccount"]')] finds something. *)
Definition has_param_input (form : Form) : bool :=
  existsb (fun i => String.eqb (input_name i) CROSS_DOMAIN.PARAM_KEY) (form_inputs form).

(** Returns the form after the call and the texts printed ([stop] is the
    logger's [stopLog]). *)
Definition addHiddenInputToForm (form : Form) (oneAccountValue : string) (stop : bool)
  : Form * list Info :=
  if has_param_input form then (form, [])
  else
    let input :=
      {| input_type := "hidden";
         input_name := CROSS_DOMAIN.PARAM_KEY;
         input_value := oneAccountValue |} in
    ({| form_action := form_action form;
        form_inputs := (form_inputs form ++ [input])%list |},
     if stop then []
     else [InfoFormUpdated
             (if String.eqb (form_action form) "" then "current page"
              else form_action form)]).

(** [tagName] is [a] or [form]. *)
Definition is_link_or_form (e : Element) : bool :=
  match el_node e with
  | NodeA _ | NodeForm _ => true
  | NodeOther => false
  end.

(** The elements [init] works on: those of class [oneAccountCrossDomain]
    when there are any, all [a] and [form] elements otherwise. *)
Definition is_target (elements : list Element) : Element -> bool :=
  if existsb el_marked elements then el_marked else is_link_or_form.

(** The body of the [forEach] over the target elements. *)
Definition rewrite_element (oneAccountValue : string) (e : Element)
    (st : World * list Info) : Element * (World * list Info) :=
  match el_node e with
  | NodeA anchor =>
      let (anchor', w') := CROSS_DOMAIN.updateAnchorHref anchor oneAccountValue (fst st) in
      ({| el_node := NodeA anchor'; el_marked := el_marked e |}, (w', snd st))
  | NodeForm form =>
      let (form', printed) :=
        addHiddenInputToForm form oneAccountValue (stopLog (fst st)) in
      ({| el_node := NodeForm form'; el_marked := el_marked e |},
       (fst st, (snd st ++ printed)%list))
  | NodeOther => (e, st)
  end.

Fixpoint rewrite_targets (oneAccountValue : string) (target : Element -> bool)
    (elements : list Element) (st : World * list Info)
  : list Element * (World * list Info) :=
  match elements with
  | [] => ([], st)
  | e :: rest =>
      let (e', st') :=
        if target e then rewrite_element oneAccountValue e st else (e, st) in
      let (rest', st'') := rewrite_targets oneAccountValue target rest st' in
      (e' :: rest', st'')
  end.

(** [CROSS_DOMAIN.init], the handler of the page's [load] event. *)
Definition init (h : Host) (p : Page) : Page :=
  let w := page_world p in
  let oneAccountParamFromUrl :=
    Browser.URLSearchParams_get (location_search w) CROSS_DOMAIN.PARAM_KEY in
  let rootDomain := getRootDomain w in
  let (w, info) :=
    match oneAccountParamFromUrl with
    | Some v =>
        if negb (String.eqb v "") && re_click_id v
        then (CookieUtil.set h CROSS_DOMAIN.COOKIE_KEY v 1 rootDomain w,
              (page_info p
               ++ if stopLog w then [] else [InfoRelaySaved CROSS_DOMAIN.COOKIE_KEY])%list)
        else (w, page_info p)
    | None => (w, page_info p)
    end in
  match CookieUtil.get h CROSS_DOMAIN.COOKIE_KEY w with
  | Some oneAccountValueFromCookie =>
      if String.eqb oneAccountValueFromCookie ""
      then {| page_world := w; page_elements := page_elements p; page_info := info |}
      else
        let (elements, st) :=
          rewrite_targets oneAccountValueFromCookie (is_target (page_elements p))
            (page_elements p) (w, info) in
        {| page_world := fst st; page_elements := elements; page_info := snd st |}
  | None => {| page_world := w; page_elements := page_elements p; page_info := info |}
  end.

End CrossDomainPage.

(* ================================================================== *)
(** ** Vocabulary of the further properties *)
(* ================================================================== *)

Module Tidy.

(** Cookie names without white space, semicolon or equals sign, and
    values without white space or semicolon: the cookies whose text in
    [document.cookie] splits back into the same pairs. *)
Definition name_char (c : ascii) : bool :=
  negb (JsString.is_space c) && negb (Ascii.eqb c ";"%char) && negb (Ascii.eqb c "="%char).

Definition value_char (c : ascii) : bool :=
  negb (JsString.is_space c) && negb (Ascii.eqb c ";"%char).

Definition no_semicolon (s : string) : bool :=
  JsString.forall_chars (fun c => negb (Ascii.eqb c ";"%char)) s.

Definition name (s : string) : bool := JsString.forall_chars name_char s.

Definition value (s : string) : bool := JsString.forall_chars value_char s.

Definition cookie (c : Cookie) : bool := name (ck_name c) && value (ck_value c).

Definition jar (w : World) : bool := forallb cookie (cookie_jar w).

(** The value of the first cookie of that name in the store. *)
Definition first_named (n : string) (cookies : list Cookie) : option string :=
  option_map ck_value (find (fun c => String.eqb n (ck_name c)) cookies).

(** Every cookie of that name in the store has this domain attribute and
    the path [/]. *)
Definition only_at (n : string) (domain : option string) (cookies : list Cookie) : bool :=
  forallb (fun c =>
             negb (String.eqb n (ck_name c))
             || (Browser.option_string_eqb domain (ck_domain c)
                 && String.eqb "/" (ck_path c)))
          cookies.



End Tidy.

Module More.

(** Successive calls of the reporter, each with its own payload and its
    own clock and random number. *)
Fixpoint calls (l : list (Host * JsValue)) (w : World) : World :=
  match l with
  | [] => w
  | (h, dataObject) :: rest => calls rest (snd (oneAccountSales h dataObject w))
  end.

(** The cookie text that [CookieUtil.set] and [CookieUtil.delete] write
    under a name for a root domain. *)
Definition cookie_text (n domain value : string) (life : Lifetime) : CookieString :=
  {| cs_name := n; cs_value := value; cs_life := life; cs_path := "/";
     cs_domain := Rules.scope domain |}.



(** The text does not contain the character. *)
Definition free_of (sep : ascii) (s : string) : bool :=
  JsString.forall_chars (fun c => negb (Ascii.eqb c sep)) s.

(** The bounds of a normalized item: a code of 1 to 50 characters, a
    price that is not NaN, a quantity that is an integer above 0 and at
    most 9999. *)
Definition item_in_bounds (item : Item) : bool :=
  ((1 <=? String.length (item_code item)) && (String.length (item_code item) <=? 50))%nat
  && negb (PrimFloat.is_nan (item_price item))
  && JsNumber.isInteger (item_quantity item)
  && PrimFloat.ltb 0 (item_quantity item)
  && PrimFloat.leb (item_quantity item) 9999.


(** The key of a field of the item at [index] in the tracking query. *)
Definition item_key (index : nat) (field : string) : string :=
  "i[" ++ JsString.of_nat index ++ "][" ++ field ++ "]".

(** The host name ends with this text, at a label boundary. *)
Definition domain_suffix (suffix hostname : string) : Prop :=
  hostname = suffix \/ exists front, hostname = front ++ "." ++ suffix.

(** A page like [w] under another host name. *)
Definition at_host (hostname : string) (w : World) : World :=
  {| location_hostname := hostname;
     location_search := location_search w;
     stopLog := stopLog w;
     cookie_jar := cookie_jar w;
     cookie_assignments := cookie_assignments w;
     container := container w;
     body_appended := body_appended w;
     console := console w |}.

(** A page like [w] reached with these URL parameters. *)
Definition with_search (search : list (string * string)) (w : World) : World :=
  {| location_hostname := location_hostname w;
     location_search := search;
     stopLog := stopLog w;
     cookie_jar := cookie_jar w;
     cookie_assignments := cookie_assignments w;
     container := container w;
     body_appended := body_appended w;
     console := console w |}.

(** A value that is neither an array nor an object. *)
Definition primitive (v : JsValue) : bool :=
  match v with
  | VArr _ | VObj _ => false
  | _ => true
  end.

(** The pages differ at most in what the console holds. *)
Definition same_but_console (w w' : World) : Prop :=
  location_hostname w' = location_hostname w
  /\ location_search w' = location_search w
  /\ stopLog w' = stopLog w
  /\ cookie_jar w' = cookie_jar w
  /\ cookie_assignments w' = cookie_assignments w
  /\ container w' = container w
  /\ body_appended w' = body_appended w.

(** The element needs no rewriting on a page of that host: a link
    without [href], inside the site or already carrying [oneAccount=], a
    form with a field of that name, or any other element. *)
Definition carries (host : string) (e : Element) : bool :=
  match el_node e with
  | NodeA a =>
      String.eqb (href a) "" || String.eqb (hostname a) host
      || JsString.includes (href a) "oneAccount="
  | NodeForm f => CrossDomainPage.has_param_input f
  | NodeOther => true
  end.

(** What the pass makes of one element on page [w]: a target is
    rewritten with the value, any other element is left as it is. *)
Definition rewritten (v : string) (w : World) (target : Element -> bool) (e : Element)
  : Element :=
  if target e then fst (CrossDomainPage.rewrite_element v e (w, [])) else e.

(** The URL parameter that [init] stores in the relay cookie, if any. *)
Definition relayed (w : World) : option string :=
  match Browser.URLSearchParams_get (location_search w) CROSS_DOMAIN.PARAM_KEY with
  | Some v => if negb (String.eqb v "") && re_click_id v then Some v else None
  | None => None
  end.

(** The page after the first step of [init], the write of the relay
    cookie when the URL carries a usable parameter. *)
Definition after_relay (h : Host) (w : World) : World :=
  match relayed w with
  | Some v => CookieUtil.set h CROSS_DOMAIN.COOKIE_KEY v 1 (getRootDomain w) w
  | None => w
  end.


Definition forms (elements : list Element) : list Form :=
  flat_map (fun e => match el_node e with NodeForm f => [f] | _ => [] end) elements.

(** The landing page of the test site: a link to the conversion page on
    another host, a link inside the site, a form. *)
Definition landing_elements : list Element :=
  [{| el_node := NodeA {| href := "http://another-site.local:8080/cv.html";
                          hostname := "another-site.local" |};
      el_marked := false |};
   {| el_node := NodeA {| href := "http://test-site.local:8080/about.html";
                          hostname := "test-site.local" |};
      el_marked := false |};
   {| el_node := NodeForm {| form_action := "http://another-site.local:8080/cart";
                             form_inputs := [{| input_type := "text";
                                                input_name := "q";
                                                input_value := "" |}] |};
      el_marked := false |};
   {| el_node := NodeOther; el_marked := false |}].

Definition landing_page (search : list (string * string)) (cookies : list Cookie) : Page :=
  {| page_world :=
       {| location_hostname := "test-site.local";
          location_search := search;
          stopLog := false;
          cookie_jar := cookies;
          cookie_assignments := [];
          container := None;
          body_appended := [];
          console := [] |};
     page_elements := landing_elements;
     page_info := [] |}.

(** The short click identifier that the test redirect page makes up. *)
Definition short_click_id : string := "click-1700000000000-k3j9x0w2aq".

(** A cookie of the landing site. *)
Definition landing_cookie (name value : string) : Cookie :=
  {| ck_name := name;
     ck_value := value;
     ck_domain := Some "test-site.local";
     ck_path := "/";
     ck_expires := Some 2015619200000%Z |}.

End More.

(* ================================================================== *)
(** * Properties *)
(* ================================================================== *)

(** ** The built-ins on sample values *)

Example split_on_dots :
  JsString.split "."%char "shop.example.co.jp" = ["shop"; "example"; "co"; "jp"]
  /\ JsString.split "."%char "" = [""]
  /\ JsString.split ";"%char "a=1; b=2" = ["a=1"; " b=2"].
Proof. repeat split; reflexivity. Qed.

Example trim_both_ends : JsString.trim "  a b  " = "a b".
Proof. reflexivity. Qed.

Example substring_swaps_and_clips :
  JsString.substring "0.4fzyo82mvyr" 2 11 = "4fzyo82mv"
  /\ JsString.substring "abc" 0 50 = "abc"
  /\ JsString.substring "abcdef" 4 2 = "cd".
Proof. repeat split; reflexivity. Qed.

Example percent_encoding :
  JsString.encodeURIComponent "i[0][sc]" = "i%5B0%5D%5Bsc%5D"
  /\ JsString.encodeURIComponent "a b&c=d" = "a%20b%26c%3Dd"
  /\ JsString.formEncode "a b&c=d" = "a+b%26c%3Dd".
Proof. repeat split; reflexivity. Qed.

Example floor_of_samples :
  map JsNumber.Math_floor [999.9; 2500; -0.5; 0.5; -3; 1e300]%float
  = [999; 2500; -1; 0; -3; 1e300]%float.
Proof. reflexivity. Qed.

Example local_names_and_addresses :
  map re_localhost_or_ip ["localhost"; "127.0.0.1"; "10.0.0.256"; "1.2.3"; "a.b.c.d"; "1234.1.1.1"]
  = [true; true; true; false; false; false].
Proof. reflexivity. Qed.

Example cookie_is_found_by_name :
  let w := Sample.cv_page [] Sample.both_cookies in
  Browser.document_cookie Sample.host w
  = "_oneAccount_s00000000000001=" ++ Sample.click_id
    ++ "; ONEACCOUNT_DELIVERY=" ++ Sample.click_id
  /\ CookieUtil.get Sample.host "ONEACCOUNT_DELIVERY" w = Some Sample.click_id
  /\ CookieUtil.get Sample.host "_oneAccount_s00000000000002" w = None.
Proof. repeat split; reflexivity. Qed.

(** ** Strings: splitting, joining, searching *)

Section StringFacts.

Variable sep : ascii.

Lemma split_not_nil (s : string) : JsString.split sep s <> [].
Proof.
  destruct s as [|c rest]; simpl; [discriminate|].
  destruct (Ascii.eqb c sep); [discriminate|].
  destruct (JsString.split sep rest); discriminate.
Qed.

(** Joining the pieces of a split with the separator gives the text back. *)
Lemma join_split (s : string) :
  JsString.join (String sep EmptyString) (JsString.split sep s) = s.
Proof.
  unfold JsString.join.
  induction s as [|c rest IH]; simpl; [reflexivity|].
  pose proof (split_not_nil rest) as Hne.
  destruct (Ascii.eqb_spec c sep) as [->|Hc].
  - destruct (JsString.split sep rest) as [|p ps]; [contradiction|].
    simpl in *. now rewrite IH.
  - destruct (JsString.split sep rest) as [|p ps]; [contradiction|].
    destruct ps as [|p' ps']; simpl in *; now rewrite <- IH.
Qed.

End StringFacts.

Lemma prefix_one_char (c a : ascii) (s : string) :
  String.prefix (String c EmptyString) (String a s) = Ascii.eqb c a.
Proof.
  simpl. destruct (ascii_dec c a) as [->|Hne].
  - rewrite Ascii.eqb_refl. now destruct s.
  - symmetry. now apply Ascii.eqb_neq.
Qed.

(** Looking for one character in [base ++ c :: rest] when [base] has none:
    it is found right after [base]. *)
Lemma indexOf_char_after (c : ascii) (base rest : string) :
  JsString.includes base (String c EmptyString) = false ->
  JsString.indexOf (base ++ String c rest) (String c EmptyString)
  = Some (String.length base).
Proof.
  unfold JsString.includes, JsString.indexOf.
  induction base as [|a base IH]; intros Hno.
  - cbn [append String.length String.index]. rewrite prefix_one_char.
    now rewrite Ascii.eqb_refl.
  - cbn [append String.length String.index] in *.
    rewrite prefix_one_char in *.
    destruct (Ascii.eqb c a); [discriminate|].
    destruct (String.index 0 (String c EmptyString) base) eqn:E; [discriminate|].
    now rewrite IH.
Qed.

Lemma indexOf_char_none (c : ascii) (s : string) :
  JsString.includes s (String c EmptyString) = false ->
  JsString.indexOf s (String c EmptyString) = None.
Proof.
  unfold JsString.includes.
  destruct (JsString.indexOf s (String c EmptyString)); [discriminate|reflexivity].
Qed.

Lemma substring_prefix (base rest : string) :
  JsString.substring (base ++ rest) 0 (String.length base) = base.
Proof.
  unfold JsString.substring. rewrite Nat.min_0_l, Nat.max_0_l, Nat.sub_0_r.
  induction base as [|a base IH]; simpl.
  - destruct rest; reflexivity.
  - now rewrite IH.
Qed.

Lemma substring_all (n : nat) (s : string) :
  String.length s <= n -> String.substring 0 n s = s.
Proof.
  revert n. induction s as [|a s IH]; intros [|n] Hn; simpl in *;
    try reflexivity; try lia.
  rewrite IH; [reflexivity|lia].
Qed.

Lemma substring_suffix (base rest : string) :
  JsString.substring_from (base ++ rest) (String.length base) = rest.
Proof.
  unfold JsString.substring_from, JsString.substring.
  assert (Hlen : String.length (base ++ rest) = String.length base + String.length rest).
  { induction base as [|a base IH]; simpl; [reflexivity|now rewrite IH]. }
  rewrite Hlen.
  rewrite Nat.min_l, Nat.max_r by lia.
  replace (String.length base + String.length rest - String.length base)
    with (String.length rest) by lia.
  clear Hlen. induction base as [|a base IH]; simpl.
  - apply substring_all. lia.
  - exact IH.
Qed.

(** ** Root-domain resolution *)

Lemma slice_last_is_last_labels (n : nat) (labels : list string) :
  Array_slice_last n labels = Rules.last_labels n labels.
Proof.
  unfold Array_slice_last, Rules.last_labels.
  now rewrite firstn_rev, rev_involutive.
Qed.

Lemma at_minus_two_is_second_to_last (labels : list string) :
  2 <= List.length labels ->
  Array_at labels (Z.of_nat (List.length labels) - 2) = Rules.second_to_last labels.
Proof.
  intros Hlen. unfold Array_at, Rules.second_to_last.
  rewrite nth_error_rev.
  destruct (Z.ltb_spec (Z.of_nat (List.length labels) - 2) 0) as [Hneg|_]; [lia|].
  destruct (Nat.ltb_spec 1 (List.length labels)) as [_|Hsmall]; [|lia].
  f_equal. lia.
Qed.

Lemma slice_last_short (n : nat) (labels : list string) :
  List.length labels <= n -> Array_slice_last n labels = labels.
Proof.
  intros Hlen. unfold Array_slice_last.
  now replace (List.length labels - n) with 0 by lia.
Qed.

(** C6. [getRootDomain] follows the documented rule on every host name:
    [localhost] and IPv4 dotted quads come back unchanged; any other name
    is split on dots and its last three labels are joined when the
    second-to-last label is one of [slds], its last two otherwise.  In
    particular [shop.example.co.jp] gives [example.co.jp] and
    [www.example.com] gives [example.com], while [localhost] and
    [192.168.10.1] are returned as they are. *)
Theorem C6_getRootDomain_follows_rule :
  (forall w : World, getRootDomain w = Rules.resolveRootDomain (location_hostname w))
  /\ getRootDomain (Sample.page_at "shop.example.co.jp") = "example.co.jp"
  /\ getRootDomain (Sample.page_at "www.example.com") = "example.com"
  /\ getRootDomain (Sample.page_at "localhost") = "localhost"
  /\ getRootDomain (Sample.page_at "192.168.10.1") = "192.168.10.1".
Proof.
  split; [|repeat split; reflexivity].
  intros w. unfold getRootDomain, Rules.resolveRootDomain.
  set (hostname := location_hostname w).
  destruct (re_localhost_or_ip hostname); [reflexivity|].
  set (parts := JsString.split "."%char hostname).
  destruct (Nat.leb_spec (List.length parts) 2) as [Hshort|Hlong].
  - rewrite <- !slice_last_is_last_labels.
    rewrite !slice_last_short by lia.
    pose proof (join_split "."%char hostname) as Hjoin. fold parts in Hjoin.
    destruct (Rules.second_to_last parts) as [label|]; [|now rewrite Hjoin].
    destruct (existsb (String.eqb label) slds); now rewrite Hjoin.
  - rewrite at_minus_two_is_second_to_last by lia.
    rewrite <- !slice_last_is_last_labels.
    destruct (Nat.ltb_spec 2 (List.length parts)) as [_|Hsmall]; [|lia].
    unfold Array_includes.
    destruct (Rules.second_to_last parts) as [label|]; [|reflexivity].
    rewrite andb_true_r. reflexivity.
Qed.


(** ** The cross-domain anchor rewrite *)

Lemma append_empty_r (s : string) : s ++ "" = s.
Proof. induction s as [|a s IH]; simpl; [reflexivity|now rewrite IH]. Qed.

Lemma append_associative (a b c : string) : (a ++ b) ++ c = a ++ (b ++ c).
Proof. induction a as [|x a IH]; simpl; [reflexivity|now rewrite IH]. Qed.

(** The fragment is cut at the first [#]: for [href = base ++ fragment]
    with no [#] in [base] and a [fragment] that is empty or starts with
    [#], the cut gives [base] and [fragment] back. *)
Lemma cut_at_hash (base fragment : string) :
  JsString.includes base "#" = false ->
  fragment = "" \/ (exists rest, fragment = String "#"%char rest) ->
  match JsString.indexOf (base ++ fragment) "#" with
  | Some hashIndex =>
      (JsString.substring (base ++ fragment) 0 hashIndex,
       JsString.substring_from (base ++ fragment) hashIndex)
  | None => (base ++ fragment, "")
  end = (base, fragment).
Proof.
  intros Hbase [->|[rest ->]].
  - rewrite append_empty_r, (indexOf_char_none "#"%char base Hbase). reflexivity.
  - rewrite (indexOf_char_after "#"%char base rest Hbase).
    now rewrite substring_prefix, substring_suffix.
Qed.

(** C8, the claim as worded, fails on an anchor without [href]: its host
    name (the empty text) differs from the page's and its link carries no
    parameter, yet the link is left as it is. *)
Lemma C8_anchor_without_href_is_left_alone :
  let anchor := {| href := ""; hostname := "" |} in
  let w := Sample.page_at "test-site.local" in
  hostname anchor <> location_hostname w
  /\ JsString.includes (href anchor) "oneAccount=" = false
  /\ href (fst (CROSS_DOMAIN.updateAnchorHref anchor "v" w)) = ""
  /\ href (fst (CROSS_DOMAIN.updateAnchorHref anchor "v" w)) <> "?oneAccount=v".
Proof.
  cbv zeta. repeat split; try reflexivity; discriminate.
Qed.

(** C8, amended.  For an anchor with a non-empty link whose host name
    differs from the page's and whose link does not contain
    [oneAccount=]: writing the link as [base ++ fragment], where [base]
    has no [#] and [fragment] is empty or starts with [#], the new link is
    [base], then [?] (or [&] when [base] contains a [?]), then
    [oneAccount=<value>], then [fragment]. *)
Theorem C8_anchor_href_gets_parameter
    (anchor : Anchor) (v : string) (w : World) (base fragment : string) :
  href anchor <> "" ->
  hostname anchor <> location_hostname w ->
  JsString.includes (href anchor) "oneAccount=" = false ->
  href anchor = base ++ fragment ->
  JsString.includes base "#" = false ->
  fragment = "" \/ (exists rest, fragment = String "#"%char rest) ->
  href (fst (CROSS_DOMAIN.updateAnchorHref anchor v w))
  = base ++ (if JsString.includes base "?" then "&" else "?")
         ++ "oneAccount=" ++ v ++ fragment.
Proof.
  intros Hhref Hhost Hparam Hsplit Hbase Hfragment.
  unfold CROSS_DOMAIN.updateAnchorHref.
  apply String.eqb_neq in Hhref, Hhost. rewrite Hhref, Hhost.
  change (CROSS_DOMAIN.PARAM_KEY ++ "=") with "oneAccount=".
  rewrite Hparam. cbn [orb].
  rewrite Hsplit, (cut_at_hash base fragment Hbase Hfragment).
  cbn [fst href].
  rewrite append_associative.
  destruct (JsString.includes base "?"); reflexivity.
Qed.

Lemma C8_anchor_href_gets_parameter_witness :
  href (fst (CROSS_DOMAIN.updateAnchorHref
               {| href := "http://another-site.local:8080/cv.html?a=1#top";
                  hostname := "another-site.local" |}
               "v" (Sample.page_at "test-site.local")))
  = "http://another-site.local:8080/cv.html?a=1&oneAccount=v#top".
Proof.
  apply (C8_anchor_href_gets_parameter
           {| href := "http://another-site.local:8080/cv.html?a=1#top";
              hostname := "another-site.local" |}
           "v" (Sample.page_at "test-site.local")
           "http://another-site.local:8080/cv.html?a=1" "#top").
  - discriminate.
  - discriminate.
  - reflexivity.
  - reflexivity.
  - reflexivity.
  - right. exists "top". reflexivity.
Defined.


(** ** Validation and normalization of a payload *)

Lemma typeof_number (v : JsValue) :
  String.eqb (Js.typeof v) "number" = Js.is_number v.
Proof. destruct v; reflexivity. Qed.

Lemma validate_item_object (index : nat) (props : list (string * JsValue)) :
  validate_item index (VObj props)
  = Normal ((if Js.is_number (Js.lookup "price" props) then [] else [MsgBadPrice index])
            ++ (if Js.is_number (Js.lookup "quantity" props) then [] else [MsgBadQuantity index]))%list.
Proof.
  unfold validate_item. cbn [Js.get bindC]. now rewrite !typeof_number.
Qed.

(** Items that pass the per-item checks: objects with a numeric [price]
    and a numeric [quantity]. *)
Lemma validate_items_ok (items : list JsValue) :
  forall index,
    validate_items index items = Normal [] <-> forallb Rules.numeric_item items = true.
Proof.
  induction items as [|item rest IH]; intros index; cbn [validate_items forallb].
  - split; reflexivity.
  - destruct item as [| |b|x|s|elems|props];
      try (cbn; split; intros H; discriminate H).
    + cbn [validate_item Js.get bindC Js.typeof String.eqb Ascii.eqb Bool.eqb app Rules.numeric_item andb].
      destruct (validate_items (S index) rest); cbn; split; intros H; discriminate H.
    + cbn [validate_item Js.get bindC Js.typeof String.eqb Ascii.eqb Bool.eqb app Rules.numeric_item andb].
      destruct (validate_items (S index) rest); cbn; split; intros H; discriminate H.
    + cbn [validate_item Js.get bindC Js.typeof String.eqb Ascii.eqb Bool.eqb app Rules.numeric_item andb].
      destruct (validate_items (S index) rest); cbn; split; intros H; discriminate H.
    + cbn [validate_item Js.get bindC Js.typeof String.eqb Ascii.eqb Bool.eqb app Rules.numeric_item andb].
      destruct (validate_items (S index) rest); cbn; split; intros H; discriminate H.
    + rewrite validate_item_object. cbn [bindC Rules.numeric_item].
      specialize (IH (S index)).
      destruct (Js.is_number (Js.lookup "price" props)),
               (Js.is_number (Js.lookup "quantity" props));
        cbn [app andb];
        destruct (validate_items (S index) rest) as [es|e]; cbn [bindC app];
        try (split; intros H; discriminate H).
      * rewrite <- IH. split; intros H.
        -- now injection H as ->.
        -- now injection H as ->.
      * rewrite <- IH. split; intros H; discriminate H.
Qed.

(** What a payload that passes phase 1 looks like. *)
Lemma validate_ok_inv (dataObject : JsValue) :
  validate dataObject = Normal [] ->
  exists props pid items,
    dataObject = VObj props
    /\ Js.lookup "pid" props = VStr pid
    /\ String.length pid = 15
    /\ Js.lookup "items" props = VArr items
    /\ items <> []
    /\ forallb Rules.numeric_item items = true.
Proof.
  destruct dataObject as [| |b|x|s|elems|props]; unfold validate;
    cbn [Js.truthy Js.typeof negb orb String.eqb Ascii.eqb Bool.eqb Js.get bindC];
    try discriminate.
  - destruct b; discriminate.
  - rewrite orb_true_r. discriminate.
  - rewrite orb_true_r. discriminate.
  - intros H. exists props.
    destruct (Js.lookup "pid" props) as [| |b|x|s|elems|props'] eqn:Hpid;
      try (destruct (Js.lookup "items" props) as [| | | | |[|first others]|];
           try discriminate H;
           destruct (validate_items 0 (first :: others)); discriminate H).
    destruct (Nat.eqb_spec (String.length s) 15) as [Hlen|Hlen]; cycle 1.
    { destruct (Js.lookup "items" props) as [| | | | |[|first others]|];
        try discriminate H;
        destruct (validate_items 0 (first :: others)); discriminate H. }
    destruct (Js.lookup "items" props) as [| | | | |[|first others]|] eqn:Hitems;
      try discriminate H.
    exists s, (first :: others). repeat split; try assumption; try discriminate.
    apply (validate_items_ok (first :: others) 0).
    destruct (validate_items 0 (first :: others)) as [es|e]; [|discriminate H].
    cbn [bindC app] in H. exact H.
Qed.

Lemma validate_ok_intro (props : list (string * JsValue)) (pid : string)
    (items : list JsValue) :
  Js.lookup "pid" props = VStr pid ->
  String.length pid = 15 ->
  Js.lookup "items" props = VArr items ->
  items <> [] ->
  forallb Rules.numeric_item items = true ->
  validate (VObj props) = Normal [].
Proof.
  intros Hpid Hlen Hitems Hne Hnum. unfold validate.
  cbn [Js.truthy Js.typeof negb orb String.eqb Ascii.eqb Bool.eqb Js.get bindC].
  rewrite Hpid, Hitems, Hlen. cbn [Nat.eqb].
  destruct items as [|first others]; [contradiction|].
  apply (validate_items_ok _ 0) in Hnum. rewrite Hnum. reflexivity.
Qed.

Lemma normalize_items_ok (items : list JsValue) :
  forallb Rules.numeric_item items = true ->
  mapC normalize_item items = Normal (map Rules.item_of items).
Proof.
  induction items as [|item rest IH]; cbn [forallb mapC map]; [reflexivity|].
  intros H. apply andb_prop in H as [Hitem Hrest].
  destruct item; try discriminate Hitem.
  rewrite (IH Hrest). reflexivity.
Qed.

Lemma normalize_ok (h : Host) (dataObject : JsValue) :
  validate dataObject = Normal [] ->
  normalize h dataObject = Normal (Rules.normalized h dataObject).
Proof.
  intros Hvalid.
  destruct (validate_ok_inv dataObject Hvalid)
    as (props & pid & items & -> & Hpid & Hlen & Hitems & Hne & Hnum).
  unfold normalize, Rules.normalized, Rules.items_of. cbn [Js.spread].
  rewrite Hitems, (normalize_items_ok items Hnum). reflexivity.
Qed.


(** ** The phases of [oneAccountSales] *)

(** Reduces the page transformers applied to an explicit page. *)
Ltac page_compute :=
  lazy beta iota zeta delta
    [report_and_cleanup ensure_container_img append_to_body
     CookieUtil.set CookieUtil.delete Browser.document_cookie_set
     Browser.console_log logger.info logger.error resolveClickId
     Browser.with_console Browser.with_cookies Browser.with_container Browser.with_body
     location_hostname location_search stopLog cookie_jar cookie_assignments
     container body_appended console cs_life fst snd].

Lemma acceptable_not_empty (v : string) :
  Rules.acceptable_click_id v = true -> String.eqb v "" = false.
Proof.
  unfold Rules.acceptable_click_id, re_click_id.
  destruct (String.eqb v ""); [discriminate|reflexivity].
Qed.

(** Phase 2 when the URL carries an acceptable parameter. *)
Lemma resolveClickId_accepts (h : Host) (cookieName rootDomain : string) (w : World)
    (v : string) :
  Browser.URLSearchParams_get (location_search w) "oneAccount" = Some v ->
  Rules.acceptable_click_id v = true ->
  resolveClickId h cookieName rootDomain w
  = (Some v,
     CookieUtil.set h cookieName v 3653 rootDomain
       (Browser.console_log (MsgReceived (Some v) (String.length v)) w)).
Proof.
  intros Hurl Hok. unfold resolveClickId. rewrite Hurl.
  cbn [option_truthy option_length].
  rewrite (acceptable_not_empty v Hok). cbn [negb].
  unfold Rules.acceptable_click_id in Hok. rewrite Hok. reflexivity.
Qed.

(** Phase 2 when the URL carries a parameter that is not acceptable. *)
Lemma resolveClickId_rejects (h : Host) (cookieName rootDomain : string) (w : World)
    (v : string) :
  Browser.URLSearchParams_get (location_search w) "oneAccount" = Some v ->
  v <> "" ->
  Rules.acceptable_click_id v = false ->
  resolveClickId h cookieName rootDomain w
  = (None,
     logger.error MsgBadParam
       (Browser.console_log (MsgReceived (Some v) (String.length v)) w)).
Proof.
  intros Hurl Hne Hbad. unfold resolveClickId. rewrite Hurl.
  cbn [option_truthy option_length].
  apply String.eqb_neq in Hne. rewrite Hne. cbn [negb].
  unfold Rules.acceptable_click_id in Hbad. rewrite Hbad. reflexivity.
Qed.

(** Phase 2 when the URL carries no parameter, or an empty one. *)
Lemma resolveClickId_reads_cookie (h : Host) (cookieName rootDomain : string) (w : World) :
  option_truthy (Browser.URLSearchParams_get (location_search w) "oneAccount") = false ->
  resolveClickId h cookieName rootDomain w
  = (CookieUtil.get h cookieName w,
     Browser.console_log
       (MsgReceived (Browser.URLSearchParams_get (location_search w) "oneAccount") 0) w).
Proof.
  intros Hurl. unfold resolveClickId. rewrite Hurl.
  destruct (Browser.URLSearchParams_get (location_search w) "oneAccount") as [v|];
    [|reflexivity].
  cbn [option_truthy] in Hurl. rewrite Hurl. reflexivity.
Qed.

(** The console is no part of what [CookieUtil.get] reads. *)
Lemma get_after_console_log (h : Host) (n : string) (m : Message) (w : World) :
  CookieUtil.get h n (Browser.console_log m w) = CookieUtil.get h n w.
Proof. reflexivity. Qed.

(** *** Conversions to text *)

Lemma only_TypeError (e : JsError) : e = TypeError.
Proof. now destruct e. Qed.

Lemma ToString_primitive (h : Host) (v : JsValue) :
  More.primitive v = true ->
  ToString h v = Normal (Rules.returned (ToString h v)).
Proof. destruct v as [| |[|]| | | |]; try discriminate; reflexivity. Qed.

Lemma converts_iff (h : Host) (v : JsValue) :
  Rules.converts h v = true <-> ToString h v = Normal (Rules.returned (ToString h v)).
Proof.
  unfold Rules.converts. destruct (ToString h v) as [s|e]; cbn [Rules.returned].
  - tauto.
  - split; discriminate.
Qed.

Lemma not_converts (h : Host) (v : JsValue) :
  Rules.converts h v = false -> ToString h v = Throw TypeError.
Proof.
  unfold Rules.converts. destruct (ToString h v) as [s|e]; [discriminate|].
  now rewrite (only_TypeError e).
Qed.

Lemma mapC_normal {A B} (f : A -> Completion B) (g : A -> B) (l : list A) :
  (forall a, In a l -> f a = Normal (g a)) -> mapC f l = Normal (map g l).
Proof.
  induction l as [|a l IH]; intros Hf; cbn [mapC map]; [reflexivity|].
  rewrite (Hf a (or_introl eq_refl)). cbn [bindC].
  rewrite IH by (intros b Hb; apply Hf; now right). reflexivity.
Qed.

Lemma lookup_primitive (k : string) (query : list (string * JsValue)) :
  forallb (fun kv => More.primitive (snd kv)) query = true ->
  More.primitive (Js.lookup k query) = true.
Proof.
  induction query as [|[k' v] query IH]; cbn [forallb Js.lookup snd]; [reflexivity|].
  rewrite andb_true_iff. intros [Hv Hrest].
  destruct (String.eqb k k'); [exact Hv|now apply IH].
Qed.

Lemma assign_primitive (k : string) (v : JsValue) (query : list (string * JsValue)) :
  More.primitive v = true ->
  forallb (fun kv => More.primitive (snd kv)) query = true ->
  forallb (fun kv => More.primitive (snd kv)) (Js.assign query k v) = true.
Proof.
  intros Hv. induction query as [|[k' v'] query IH]; cbn [forallb Js.assign snd].
  - now rewrite Hv.
  - rewrite andb_true_iff. intros [Hv' Hrest].
    destruct (String.eqb k k'); cbn [forallb snd]; rewrite ?Hv, ?Hv'; cbn [andb];
      [exact Hrest|now apply IH].
Qed.

Lemma items_query_primitive (items : list Item) :
  forall (index : nat) (query : list (string * JsValue)),
    forallb (fun kv => More.primitive (snd kv)) query = true ->
    forallb (fun kv => More.primitive (snd kv)) (items_query index items query) = true.
Proof.
  induction items as [|item items IH]; intros index query Hq; cbn [items_query];
    [exact Hq|].
  apply IH. unfold item_query. now repeat apply assign_primitive.
Qed.

(** The query of a payload whose [pid] and amount are primitive values
    holds primitive values only. *)
Lemma buildQuery_primitive (h : Host) (data : Data) (v : string) (amount : JsValue)
    (query : list (string * JsValue)) :
  More.primitive (data_pid data) = true ->
  More.primitive amount = true ->
  buildQuery h data v amount = Normal query ->
  forallb (fun kv => More.primitive (snd kv)) query = true.
Proof.
  intros Hpid Hamount. unfold buildQuery.
  assert (Hitems : forallb (fun kv => More.primitive (snd kv))
                     (items_query 0 (data_items data)
                        [("pid", data_pid data); ("oneAccount", VStr v);
                         ("o", VStr (data_order_number data));
                         ("c", VStr (data_currency data)); ("p", amount)]) = true).
  { apply items_query_primitive. cbn [forallb snd More.primitive].
    now rewrite Hpid, Hamount. }
  destruct (Js.truthy (data_coupon data)).
  - destruct (ToString h (data_coupon data)) as [text|e]; cbn [bindC]; [|discriminate].
    intros [= <-].
    destruct (Js.strict_eq_true (data_repeat data)); now repeat apply assign_primitive.
  - cbn [bindC]. intros [= <-].
    destruct (Js.strict_eq_true (data_repeat data)); now repeat apply assign_primitive.
Qed.

(** The query of primitive values always serializes. *)
Lemma queryString_primitive (h : Host) (query : list (string * JsValue)) :
  forallb (fun kv => More.primitive (snd kv)) query = true ->
  queryString h query
  = Normal (JsString.join "&"
              (map (fun key =>
                      JsString.encodeURIComponent key ++ "="
                      ++ JsString.encodeURIComponent
                           (Rules.returned (ToString h (Js.lookup key query))))
                   (map fst query))).
Proof.
  intros Hq. unfold queryString.
  rewrite (mapC_normal _
             (fun key =>
                JsString.encodeURIComponent key ++ "="
                ++ JsString.encodeURIComponent
                     (Rules.returned (ToString h (Js.lookup key query))))).
  - reflexivity.
  - intros key _. now rewrite (ToString_primitive h _ (lookup_primitive key query Hq)).
Qed.

(** Phase 5 either builds the query or throws on the coupon. *)
Lemma buildQuery_cases (h : Host) (data : Data) (v : string) (amount : JsValue) :
  (Js.truthy (data_coupon data) = true
   /\ Rules.converts h (data_coupon data) = false
   /\ buildQuery h data v amount = Throw TypeError)
  \/ ((Js.truthy (data_coupon data) = false \/ Rules.converts h (data_coupon data) = true)
      /\ exists query, buildQuery h data v amount = Normal query).
Proof.
  unfold buildQuery. destruct (Js.truthy (data_coupon data)).
  - destruct (Rules.converts h (data_coupon data)) eqn:Hconv.
    + right. split; [now right|].
      apply converts_iff in Hconv. rewrite Hconv. cbn [bindC]. eauto.
    + left. repeat split. now rewrite (not_converts h _ Hconv).
  - right. split; [now left|]. cbn [bindC]. eauto.
Qed.

(** Phases 5 to 7 for a payload with a primitive [pid] and amount: the
    call throws on a coupon that does not convert and leaves the page as
    it is; otherwise it goes through. *)
Lemma dispatch_cases (h : Host) (data : Data) (amount : JsValue)
    (v cookieName rootDomain : string) (w : World) :
  More.primitive (data_pid data) = true ->
  More.primitive amount = true ->
  dispatch_and_cleanup h data amount v cookieName rootDomain w
  = if negb (Js.truthy (data_coupon data)) || Rules.converts h (data_coupon data)
    then (Normal tt,
          report_and_cleanup h data
            (Rules.returned (aspPostbackUrl h v amount (data_order_number data)))
            cookieName rootDomain (ensure_container_img w))
    else (Throw TypeError, w).
Proof.
  intros Hpid Hamount. unfold dispatch_and_cleanup.
  destruct (buildQuery_cases h data v amount)
    as [(Htruthy & Hconv & ->)|(Hok & query & Hquery)].
  - now rewrite Htruthy, Hconv.
  - rewrite Hquery.
    assert (Hcond : negb (Js.truthy (data_coupon data))
                    || Rules.converts h (data_coupon data) = true).
    { destruct Hok as [-> | ->]; [reflexivity|apply orb_true_r]. }
    rewrite Hcond. unfold trackingUrl.
    rewrite (queryString_primitive h query
               (buildQuery_primitive h data v amount query Hpid Hamount Hquery)).
    cbn [bindC]. unfold aspPostbackUrl.
    rewrite (ToString_primitive h amount Hamount). reflexivity.
Qed.

Lemma reported_amount_primitive (h : Host) (dataObject : JsValue) :
  More.primitive (Rules.reported_amount h dataObject) = true.
Proof.
  unfold Rules.reported_amount, finalAmount.
  destruct (Js.strict_eq_string _ "total_price"); [|reflexivity].
  destruct (Js.lookup "total_price" (Js.spread dataObject)) as [| |b| | | |];
    reflexivity.
Qed.

(** The call on a payload that passed phase 1, on a page with the
    container: identifier resolution, then either the abort or phases 3
    to 7 on the normalized data. *)
Lemma oneAccountSales_valid (h : Host) (dataObject : JsValue) (w : World)
    (imgs : list Img) :
  container w = Some imgs ->
  validate dataObject = Normal [] ->
  oneAccountSales h dataObject w
  = match resolveClickId h (Rules.cookie_name h dataObject) (getRootDomain w) w with
    | (Some v, w1) =>
        if String.eqb v "" then (Normal tt, logger.error MsgNoClickId w1)
        else dispatch_and_cleanup h (Rules.normalized h dataObject)
               (Rules.reported_amount h dataObject)
               v (Rules.cookie_name h dataObject) (getRootDomain w) w1
    | (None, w1) => (Normal tt, logger.error MsgNoClickId w1)
    end.
Proof.
  intros Hc Hvalid. unfold oneAccountSales.
  rewrite Hc, Hvalid, (normalize_ok h dataObject Hvalid).
  destruct (validate_ok_inv dataObject Hvalid)
    as (props & pid & items & -> & Hpid & Hlen & Hitems & Hne & Hnum).
  cbn [List.length Nat.ltb Nat.leb Js.get bindC].
  unfold Rules.cookie_name, Rules.reported_amount. cbn [Js.spread].
  rewrite Hpid. cbn [ToString Rules.returned].
  destruct (resolveClickId h ("_oneAccount_" ++ pid) (getRootDomain w) w)
    as [[v|] w1]; reflexivity.
Qed.

Lemma normalized_pid_primitive (h : Host) (dataObject : JsValue) :
  validate dataObject = Normal [] ->
  More.primitive (data_pid (Rules.normalized h dataObject)) = true.
Proof.
  intros Hvalid.
  destruct (validate_ok_inv dataObject Hvalid)
    as (props & pid & items & -> & Hpid & _).
  cbn [Rules.normalized data_pid Js.spread]. now rewrite Hpid.
Qed.

(** The call that gets to phase 3: a valid payload, the container, and
    a click identifier.  It goes through to the cleanup when the coupon
    converts, and throws out of phase 5 when it does not. *)
Lemma oneAccountSales_reports (h : Host) (dataObject : JsValue) (w : World)
    (imgs : list Img) (v : string) (w1 : World) :
  container w = Some imgs ->
  validate dataObject = Normal [] ->
  resolveClickId h (Rules.cookie_name h dataObject) (getRootDomain w) w = (Some v, w1) ->
  v <> "" ->
  oneAccountSales h dataObject w
  = if Rules.coupon_converts h dataObject
    then (Normal tt,
          report_and_cleanup h (Rules.normalized h dataObject)
            (Rules.postback_url h dataObject v)
            (Rules.cookie_name h dataObject) (getRootDomain w)
            (ensure_container_img w1))
    else (Throw TypeError, w1).
Proof.
  intros Hc Hvalid Hid Hne.
  rewrite (oneAccountSales_valid h dataObject w imgs Hc Hvalid), Hid.
  apply String.eqb_neq in Hne. rewrite Hne.
  rewrite dispatch_cases;
    [reflexivity|now apply normalized_pid_primitive|apply reported_amount_primitive].
Qed.

Section ReportEffects.

Variables (h : Host) (data : Data) (url : string).
Variables (cookieName rootDomain : string) (w : World).

Ltac report_cases :=
  unfold report_and_cleanup, Rules.deletion, Rules.scope;
  destruct w as [hn se [|] jar asg ct bd cs];
  destruct (Js.strict_eq_true (data_repeat data));
  cbn [negb]; page_compute.

(** One image goes to the body, with the partner address as its [src]. *)
Lemma report_body :
  body_appended (report_and_cleanup h data url cookieName rootDomain w)
  = (body_appended w ++ [set_src hidden_pixel url])%list.
Proof. report_cases; reflexivity. Qed.

Lemma report_container :
  container (report_and_cleanup h data url cookieName rootDomain w) = container w.
Proof. report_cases; reflexivity. Qed.




End ReportEffects.

Lemma ensure_container_img_keeps (w : World) :
  location_hostname (ensure_container_img w) = location_hostname w
  /\ location_search (ensure_container_img w) = location_search w
  /\ stopLog (ensure_container_img w) = stopLog w
  /\ cookie_jar (ensure_container_img w) = cookie_jar w
  /\ cookie_assignments (ensure_container_img w) = cookie_assignments w
  /\ body_appended (ensure_container_img w) = body_appended w
  /\ console (ensure_container_img w) = console w.
Proof.
  unfold ensure_container_img. destruct (container w) as [[|i imgs]|]; repeat split.
Qed.

Lemma ensure_container_img_container (w : World) :
  container (ensure_container_img w)
  = match container w with
    | Some [] => Some [hidden_pixel]
    | c => c
    end.
Proof.
  unfold ensure_container_img.
  destruct (container w) as [[|i imgs]|] eqn:E; [reflexivity|exact E|exact E].
Qed.


(** ** What an aborted call leaves alone *)

Lemma untouched_refl (w : World) : Rules.untouched w w.
Proof. repeat split. Qed.

Lemma untouched_trans (w1 w2 w3 : World) :
  Rules.untouched w1 w2 -> Rules.untouched w2 w3 -> Rules.untouched w1 w3.
Proof.
  unfold Rules.untouched. intros (a1 & a2 & a3 & a4) (b1 & b2 & b3 & b4).
  repeat split; congruence.
Qed.

Lemma logger_error_untouched (m : Message) (w : World) :
  Rules.untouched w (logger.error m w).
Proof. unfold logger.error. destruct (stopLog w); repeat split. Qed.

Lemma logger_info_untouched (m : Message) (w : World) :
  Rules.untouched w (logger.info m w).
Proof. unfold logger.info. destruct (stopLog w); repeat split. Qed.

Lemma console_log_untouched (m : Message) (w : World) :
  Rules.untouched w (Browser.console_log m w).
Proof. repeat split. Qed.

Lemma log_errors_untouched (errors : list Message) (w : World) :
  Rules.untouched w (fold_left (fun w msg => logger.error msg w) errors w).
Proof.
  revert w. induction errors as [|m errors IH]; intros w; cbn [fold_left].
  - apply untouched_refl.
  - eapply untouched_trans; [apply logger_error_untouched|apply IH].
Qed.

(** A call that finds no container, or whose payload fails a check,
    returns normally and only writes to the console. *)
Lemma oneAccountSales_invalid_untouched (h : Host) (dataObject : JsValue) (w : World)
    (errors : list Message) :
  container w = None \/ (validate dataObject = Normal errors /\ errors <> []) ->
  fst (oneAccountSales h dataObject w) = Normal tt
  /\ Rules.untouched w (snd (oneAccountSales h dataObject w)).
Proof.
  unfold oneAccountSales. intros [Hc|[Hv Hne]].
  - rewrite Hc. split; [reflexivity|apply logger_error_untouched].
  - destruct (container w) as [imgs|].
    + rewrite Hv. destruct errors as [|m errors]; [contradiction|].
      cbn [List.length Nat.ltb Nat.leb fst snd].
      split; [reflexivity|apply (log_errors_untouched (m :: errors))].
    + split; [reflexivity|apply logger_error_untouched].
Qed.


(** ** The tracking parameter of the URL *)

(** C2, the claim as worded, fails: with [oneAccount=bad] in the URL and
    a click identifier in the per-program cookie, the cookie is not
    consulted and nothing is reported. *)
Lemma C2_rejected_parameter_does_not_fall_back_to_cookie :
  let w := Sample.cv_page [("oneAccount", "bad")] Sample.both_cookies in
  let name := Rules.cookie_name Sample.host Sample.cv_payload in
  let w' := snd (oneAccountSales Sample.host Sample.cv_payload w) in
  validate Sample.cv_payload = Normal []
  /\ Browser.URLSearchParams_get (location_search w) "oneAccount" = Some "bad"
  /\ Rules.acceptable_click_id "bad" = false
  /\ CookieUtil.get Sample.host name w = Some Sample.click_id
  /\ fst (resolveClickId Sample.host name (getRootDomain w) w) = None
  /\ body_appended w' = []
  /\ console w' = [ConsoleLog (MsgReceived (Some "bad") 3);
                   ConsoleError MsgBadParam;
                   ConsoleError MsgNoClickId].
Proof.
  cbv zeta. repeat split; vm_compute; reflexivity.
Qed.

(** C2, amended.  On a page with the container and for a valid payload: a
    non-empty URL parameter that fails the pattern or the length bounds is
    rejected with a logged error, the cookie is not read, and the call
    ends with the "no click identifier" error, leaving cookies and
    elements as they were. *)
Theorem C2_rejected_parameter_aborts
    (h : Host) (dataObject : JsValue) (w : World) (imgs : list Img) (v : string) :
  container w = Some imgs ->
  validate dataObject = Normal [] ->
  Browser.URLSearchParams_get (location_search w) "oneAccount" = Some v ->
  v <> "" ->
  Rules.acceptable_click_id v = false ->
  oneAccountSales h dataObject w
  = (Normal tt,
     logger.error MsgNoClickId
       (logger.error MsgBadParam
          (Browser.console_log (MsgReceived (Some v) (String.length v)) w)))
  /\ Rules.untouched w (snd (oneAccountSales h dataObject w)).
Proof.
  intros Hc Hvalid Hurl Hne Hbad.
  rewrite (oneAccountSales_valid h dataObject w imgs Hc Hvalid).
  rewrite (resolveClickId_rejects h _ _ w v Hurl Hne Hbad).
  split; [reflexivity|]. cbn [snd].
  eapply untouched_trans; [apply console_log_untouched|].
  eapply untouched_trans; apply logger_error_untouched.
Qed.

Lemma C2_rejected_parameter_aborts_witness :
  let w := Sample.cv_page [("oneAccount", "bad")] Sample.both_cookies in
  oneAccountSales Sample.host Sample.cv_payload w
  = (Normal tt,
     logger.error MsgNoClickId
       (logger.error MsgBadParam (Browser.console_log (MsgReceived (Some "bad") 3) w)))
  /\ Rules.untouched w (snd (oneAccountSales Sample.host Sample.cv_payload w)).
Proof.
  apply (C2_rejected_parameter_aborts Sample.host Sample.cv_payload
           (Sample.cv_page [("oneAccount", "bad")] Sample.both_cookies) [] "bad").
  - reflexivity.
  - reflexivity.
  - reflexivity.
  - discriminate.
  - reflexivity.
Defined.


(** ** Reading cookies back *)

Lemma forall_chars_cons (p : ascii -> bool) (c : ascii) (s : string) :
  JsString.forall_chars p (String c s) = p c && JsString.forall_chars p s.
Proof. reflexivity. Qed.

Lemma forall_chars_app (p : ascii -> bool) (a b : string) :
  JsString.forall_chars p (a ++ b)
  = JsString.forall_chars p a && JsString.forall_chars p b.
Proof.
  induction a as [|c a IH]; [reflexivity|].
  cbn [append]. rewrite !forall_chars_cons, IH. now rewrite andb_assoc.
Qed.

Lemma forall_chars_weaken (p q : ascii -> bool) (s : string) :
  (forall c, p c = true -> q c = true) ->
  JsString.forall_chars p s = true -> JsString.forall_chars q s = true.
Proof.
  intros Hpq. induction s as [|c s IH]; [reflexivity|].
  rewrite !forall_chars_cons, !andb_true_iff. intros [Hc Hs]. auto.
Qed.

Lemma name_char_is_value_char (c : ascii) :
  Tidy.name_char c = true -> Tidy.value_char c = true.
Proof.
  unfold Tidy.name_char, Tidy.value_char. rewrite !andb_true_iff. tauto.
Qed.

Lemma value_char_inv (c : ascii) :
  Tidy.value_char c = true ->
  JsString.is_space c = false /\ Ascii.eqb c ";"%char = false.
Proof.
  unfold Tidy.value_char. rewrite andb_true_iff, !negb_true_iff. tauto.
Qed.

Lemma name_char_inv (c : ascii) :
  Tidy.name_char c = true -> Ascii.eqb c "="%char = false.
Proof.
  unfold Tidy.name_char. rewrite !andb_true_iff, !negb_true_iff. tauto.
Qed.

(** The text of a tidy cookie in [document.cookie] is free of white space
    and semicolons. *)
Lemma serialized_is_tidy (c : Cookie) :
  Tidy.cookie c = true -> Tidy.value (ck_name c ++ "=" ++ ck_value c) = true.
Proof.
  unfold Tidy.cookie, Tidy.name, Tidy.value. rewrite andb_true_iff. intros [Hn Hv].
  rewrite !forall_chars_app, Hv.
  rewrite (forall_chars_weaken _ _ _ name_char_is_value_char Hn). reflexivity.
Qed.

Lemma value_has_no_semicolon (s : string) :
  Tidy.value s = true -> Tidy.no_semicolon s = true.
Proof.
  apply forall_chars_weaken. intros c Hc.
  apply value_char_inv in Hc as [_ Hc]. now rewrite Hc.
Qed.

Lemma split_without_separator (s : string) :
  Tidy.no_semicolon s = true -> JsString.split ";"%char s = [s].
Proof.
  unfold Tidy.no_semicolon. induction s as [|c s IH]; [reflexivity|].
  rewrite forall_chars_cons, andb_true_iff, negb_true_iff. intros [Hc Hs].
  cbn [JsString.split]. now rewrite (IH Hs), Hc.
Qed.

Lemma split_at_separator (a b : string) :
  Tidy.no_semicolon a = true ->
  JsString.split ";"%char (a ++ String ";"%char b) = a :: JsString.split ";"%char b.
Proof.
  unfold Tidy.no_semicolon. induction a as [|c a IH]; [reflexivity|].
  rewrite forall_chars_cons, andb_true_iff, negb_true_iff. intros [Hc Ha].
  cbn [append JsString.split]. now rewrite (IH Ha), Hc.
Qed.

Lemma trimEnd_without_space (s : string) :
  Tidy.value s = true -> JsString.trimEnd s = s.
Proof.
  unfold Tidy.value. induction s as [|c s IH]; [reflexivity|].
  rewrite forall_chars_cons, andb_true_iff. intros [Hc Hs].
  cbn [JsString.trimEnd]. rewrite (IH Hs).
  apply value_char_inv in Hc as [Hc _]. destruct s; [now rewrite Hc|reflexivity].
Qed.

Lemma trim_without_space (s : string) :
  Tidy.value s = true ->
  JsString.trim s = s /\ JsString.trim (String " "%char s) = s.
Proof.
  intros Hs. unfold JsString.trim.
  assert (Hstart : JsString.trimStart s = s).
  { destruct s as [|c s]; [reflexivity|].
    unfold Tidy.value in Hs. rewrite forall_chars_cons, andb_true_iff in Hs.
    destruct Hs as [Hc _]. apply value_char_inv in Hc as [Hc _].
    cbn [JsString.trimStart]. now rewrite Hc. }
  split.
  - rewrite Hstart. now apply trimEnd_without_space.
  - change (JsString.trimStart (String " "%char s)) with (JsString.trimStart s).
    rewrite Hstart. now apply trimEnd_without_space.
Qed.

Lemma index_zero_iff_prefix (p s : string) :
  String.index 0 p s = Some 0 <-> String.prefix p s = true.
Proof.
  destruct s as [|b s]; cbn [String.index].
  - destruct p; cbn; split; intros H; try reflexivity; discriminate H.
  - destruct (String.prefix p (String b s)); [split; reflexivity|].
    destruct (String.index 0 p s); split; intros H; discriminate H.
Qed.

Lemma prefix_cons (a b : ascii) (p s : string) :
  String.prefix (String a p) (String b s) = Ascii.eqb a b && String.prefix p s.
Proof.
  cbn [String.prefix]. destruct (ascii_dec a b) as [->|Hne].
  - now rewrite Ascii.eqb_refl.
  - apply Ascii.eqb_neq in Hne. now rewrite Hne.
Qed.

Lemma prefix_empty (s : string) : String.prefix "" s = true.
Proof. now destruct s. Qed.

(** Between tidy names, [name=] starts the text [name'=value] exactly when
    the names are equal. *)
Lemma prefix_of_serialized (n n' v : string) :
  Tidy.name n = true -> Tidy.name n' = true ->
  String.prefix (n ++ "=") (n' ++ "=" ++ v) = String.eqb n n'.
Proof.
  unfold Tidy.name. change ("=" ++ v) with (String "="%char v). revert n'.
  induction n as [|a n IH]; intros [|b n'] Hn Hn';
    cbn [append String.eqb]; rewrite ?prefix_cons, ?prefix_empty.
  - reflexivity.
  - rewrite forall_chars_cons, andb_true_iff in Hn'. destruct Hn' as [Hb _].
    apply name_char_inv in Hb. rewrite Ascii.eqb_sym, Hb. reflexivity.
  - rewrite forall_chars_cons, andb_true_iff in Hn. destruct Hn as [Ha _].
    apply name_char_inv in Ha. rewrite Ha. reflexivity.
  - rewrite forall_chars_cons, andb_true_iff in Hn, Hn'.
    destruct Hn as [_ Hn], Hn' as [_ Hn'].
    rewrite (IH n' Hn Hn'). reflexivity.
Qed.

Lemma scan_step (nameEQ x : string) (rest : list string) :
  CookieUtil.scan nameEQ (x :: rest)
  = if String.prefix nameEQ (JsString.trim x)
    then Some (JsString.substring_from (JsString.trim x) (String.length nameEQ))
    else CookieUtil.scan nameEQ rest.
Proof.
  cbn [CookieUtil.scan]. unfold JsString.indexOf.
  pose proof (index_zero_iff_prefix nameEQ (JsString.trim x)) as Hiff.
  destruct (String.prefix nameEQ (JsString.trim x)).
  - rewrite (proj2 Hiff eq_refl). reflexivity.
  - destruct (String.index 0 nameEQ (JsString.trim x)) as [[|k]|]; try reflexivity.
    discriminate (proj1 Hiff eq_refl).
Qed.

Lemma length_append (a b : string) :
  String.length (a ++ b) = String.length a + String.length b.
Proof. induction a as [|c a IH]; cbn; [reflexivity|now rewrite IH]. Qed.

Lemma scan_serialized_jar (n : string) (cookies : list Cookie) :
  Tidy.name n = true ->
  forallb Tidy.cookie cookies = true ->
  cookies <> [] ->
  forall lead,
    lead = "" \/ lead = " " ->
    CookieUtil.scan (n ++ "=")
      (JsString.split ";"%char
         (lead ++ JsString.join "; "
                    (map (fun c => ck_name c ++ "=" ++ ck_value c) cookies)))
    = Tidy.first_named n cookies.
Proof.
  intros Hn. induction cookies as [|c rest IH]; [contradiction|].
  cbn [forallb]. rewrite andb_true_iff. intros [Hc Hrest] _ lead Hlead.
  pose proof (serialized_is_tidy c Hc) as Hser.
  destruct (trim_without_space _ Hser) as [Htrim Htrim'].
  assert (Hhead : JsString.trim (lead ++ (ck_name c ++ "=" ++ ck_value c))
                  = ck_name c ++ "=" ++ ck_value c).
  { destruct Hlead as [->| ->]; [exact Htrim|exact Htrim']. }
  assert (Hlead_tidy : Tidy.no_semicolon (lead ++ (ck_name c ++ "=" ++ ck_value c)) = true).
  { pose proof (value_has_no_semicolon _ Hser) as Hno.
    unfold Tidy.no_semicolon in *. rewrite forall_chars_app, Hno.
    destruct Hlead as [->| ->]; reflexivity. }
  assert (Hstep : forall tail,
             CookieUtil.scan (n ++ "=") ((lead ++ (ck_name c ++ "=" ++ ck_value c)) :: tail)
             = if String.eqb n (ck_name c) then Some (ck_value c)
               else CookieUtil.scan (n ++ "=") tail).
  { intros tail. rewrite scan_step, Hhead.
    unfold Tidy.cookie in Hc. apply andb_prop in Hc as [Hcn _].
    rewrite (prefix_of_serialized n (ck_name c) (ck_value c) Hn Hcn).
    destruct (String.eqb_spec n (ck_name c)) as [->|_]; [|reflexivity].
    f_equal. rewrite <- append_associative.
    apply substring_suffix. }
  assert (Hfirst : Tidy.first_named n (c :: rest)
                   = if String.eqb n (ck_name c) then Some (ck_value c)
                     else Tidy.first_named n rest).
  { unfold Tidy.first_named. cbn [find].
    destruct (String.eqb n (ck_name c)); reflexivity. }
  rewrite Hfirst.
  destruct rest as [|c2 rest'].
  - cbn [JsString.join String.concat map].
    rewrite (split_without_separator _ Hlead_tidy), Hstep.
    destruct (String.eqb n (ck_name c)); reflexivity.
  - assert (Hjoin : lead ++ JsString.join "; "
                              (map (fun c => ck_name c ++ "=" ++ ck_value c) (c :: c2 :: rest'))
                    = (lead ++ (ck_name c ++ "=" ++ ck_value c))
                      ++ String ";"%char
                           (" " ++ JsString.join "; "
                                     (map (fun c => ck_name c ++ "=" ++ ck_value c)
                                        (c2 :: rest')))).
    { unfold JsString.join. cbn [map String.concat].
      rewrite !append_associative. reflexivity. }
    rewrite Hjoin, (split_at_separator _ _ Hlead_tidy), Hstep.
    destruct (String.eqb n (ck_name c)); [reflexivity|].
    apply (IH Hrest); [discriminate|now right].
Qed.

Lemma visible_is_tidy (h : Host) (w : World) :
  Tidy.jar w = true -> forallb Tidy.cookie (Browser.visible h w) = true.
Proof.
  unfold Tidy.jar, Browser.visible. rewrite !forallb_forall. intros Hjar c Hin.
  apply filter_In in Hin as [Hin _]. now apply Hjar.
Qed.

(** In a store of tidy cookies, [get] is a look-up by name among the
    cookies the browser shows. *)
Lemma get_is_first_named (h : Host) (n : string) (w : World) :
  Tidy.jar w = true ->
  Tidy.name n = true ->
  CookieUtil.get h n w = Tidy.first_named n (Browser.visible h w).
Proof.
  intros Hjar Hn. pose proof (visible_is_tidy h w Hjar) as Htidy.
  unfold CookieUtil.get, Browser.document_cookie.
  destruct (Browser.visible h w) as [|c rest] eqn:Hcookies.
  - cbn [map JsString.join String.concat JsString.split]. rewrite scan_step.
    cbn [JsString.trim JsString.trimStart JsString.trimEnd].
    destruct n; reflexivity.
  - apply (scan_serialized_jar n (c :: rest) Hn Htidy) with (lead := "");
      [discriminate|now left].
Qed.



(** ** The cookie store *)


Lemma option_string_eqb_eq (a b : option string) :
  Browser.option_string_eqb a b = true -> a = b.
Proof.
  destruct a as [x|], b as [y|]; cbn; try discriminate; [|reflexivity].
  intros H. apply String.eqb_eq in H. now subst.
Qed.

Lemma same_key_inv (c x : Cookie) :
  Browser.same_key c x = true ->
  ck_name x = ck_name c /\ ck_domain x = ck_domain c /\ ck_path x = ck_path c.
Proof.
  unfold Browser.same_key. rewrite !andb_true_iff. intros [[Hn Hd] Hp].
  apply String.eqb_eq in Hn, Hp. apply option_string_eqb_eq in Hd. now repeat split.
Qed.


Section Store.

Variables (f keep : Cookie -> bool) (c : Cookie).

(** Removing a cookie does not change which cookie of another kind is
    found first. *)
Lemma find_remove_other (jar : list Cookie) :
  (forall x, Browser.same_key c x = true -> f x = false) ->
  find f (filter keep (Browser.remove c jar)) = find f (filter keep jar).
Proof.
  intros Hother. unfold Browser.remove.
  induction jar as [|x jar IH]; cbn [filter]; [reflexivity|].
  destruct (Browser.same_key c x) eqn:Hsame; cbn [negb filter].
  - rewrite IH. destruct (keep x); cbn [find]; [|reflexivity].
    now rewrite (Hother x Hsame).
  - destruct (keep x); cbn [find]; [|exact IH]. now rewrite IH.
Qed.

Lemma find_put_other (jar : list Cookie) :
  f c = false ->
  (forall x, Browser.same_key c x = true -> f x = false) ->
  find f (filter keep (Browser.put c jar)) = find f (filter keep jar).
Proof.
  intros Hc Hother.
  induction jar as [|x jar IH]; cbn [Browser.put filter].
  - destruct (keep c); cbn [find]; [now rewrite Hc|reflexivity].
  - destruct (Browser.same_key c x) eqn:Hsame; cbn [filter].
    + assert (Hfront : forall l, find f (if keep c then c :: l else l) = find f l).
      { intros l. destruct (keep c); cbn [find]; [now rewrite Hc|reflexivity]. }
      rewrite Hfront, (find_remove_other jar Hother).
      destruct (keep x); cbn [find]; [|reflexivity]. now rewrite (Hother x Hsame).
    + destruct (keep x); cbn [find]; [|exact IH]. now rewrite IH.
Qed.




End Store.


Lemma in_remove_inv (c x : Cookie) (jar : list Cookie) :
  In x (Browser.remove c jar) -> In x jar.
Proof. unfold Browser.remove. intros H. now apply filter_In in H as [H _]. Qed.

Lemma in_put_inv (c x : Cookie) (jar : list Cookie) :
  In x (Browser.put c jar) -> x = c \/ In x jar.
Proof.
  induction jar as [|y jar IH]; cbn [Browser.put].
  - intros [<-|[]]. now left.
  - destruct (Browser.same_key c y).
    + intros [<-|Hin]; [now left|]. right. right. now apply (in_remove_inv c).
    + intros [<-|Hin]; [right; now left|].
      destruct (IH Hin) as [->|Hjar]; [now left|right; now right].
Qed.

Lemma forallb_put (P : Cookie -> bool) (c : Cookie) (jar : list Cookie) :
  P c = true -> forallb P jar = true -> forallb P (Browser.put c jar) = true.
Proof.
  intros Hc Hjar. rewrite forallb_forall in *. intros x Hin.
  destruct (in_put_inv c x jar Hin) as [->|Hx]; [exact Hc|now apply Hjar].
Qed.

Lemma forallb_remove (P : Cookie -> bool) (c : Cookie) (jar : list Cookie) :
  forallb P jar = true -> forallb P (Browser.remove c jar) = true.
Proof.
  intros Hjar. rewrite forallb_forall in *. intros x Hin.
  apply Hjar. now apply (in_remove_inv c).
Qed.

(** *** Domains *)



(** *** What the browser makes of the texts the utilities write *)

Lemma plain_name_is_tidy (n : string) : Browser.plain_name n = Tidy.name n.
Proof. reflexivity. Qed.

Lemma plain_value_is_tidy (v : string) : Browser.plain_value v = Tidy.value v.
Proof. reflexivity. Qed.

(** A text with a tidy name and value is taken as written when the
    browser can hold it. *)
Lemma parsed_tidy (h : Host) (n domain v : string) (life : Lifetime) :
  Tidy.name n = true ->
  Tidy.value v = true ->
  Browser.parsed h (More.cookie_text n domain v life)
  = if Browser.text_no_control (More.cookie_text n domain v life) && Browser.fits n v
       && negb (Browser.reserved n)
    then Some (More.cookie_text n domain v life)
    else None.
Proof.
  intros Hn Hv. unfold Browser.parsed.
  cbn [More.cookie_text cs_name cs_value].
  rewrite plain_name_is_tidy, plain_value_is_tidy, Hn, Hv. cbn [andb].
  destruct (Browser.text_no_control (More.cookie_text n domain v life));
    reflexivity.
Qed.

(** A text with a tidy name and value is stored under that name, with
    that value, or ignored. *)
Lemma cookie_of_tidy (h : Host) (host n domain v : string) (life : Lifetime) (c : Cookie) :
  Tidy.name n = true ->
  Tidy.value v = true ->
  Browser.cookie_of h host (More.cookie_text n domain v life) = Some c ->
  ck_name c = n /\ ck_value c = v /\ ck_path c = "/"
  /\ ck_expires c = Some (Browser.expiry h life)
  /\ Browser.effective_domain h (JsString.toLowerCase host) (Rules.scope domain)
     = Some (ck_domain c).
Proof.
  intros Hn Hv. unfold Browser.cookie_of. rewrite (parsed_tidy h n domain v life Hn Hv).
  destruct (Browser.text_no_control (More.cookie_text n domain v life)
            && Browser.fits n v && negb (Browser.reserved n)); [|discriminate].
  cbn [More.cookie_text cs_name cs_value cs_life cs_path cs_domain].
  destruct (Browser.effective_domain h (JsString.toLowerCase host) (Rules.scope domain))
    as [d|]; [|discriminate].
  intros [= <-]. repeat split.
Qed.




(** *** Writing and deleting *)



Section CookieWrites.

Variables (h : Host) (n : string) (domain : string) (w : World).

Lemma set_is_assignment (v : string) (days : Z) :
  CookieUtil.set h n v days domain w
  = Browser.document_cookie_set h
      (More.cookie_text n domain v (Expires (Date_now h + days * 24 * 60 * 60 * 1000)%Z)) w.
Proof. reflexivity. Qed.

Lemma delete_is_assignment :
  CookieUtil.delete h n domain w
  = Browser.document_cookie_set h (More.cookie_text n domain "" (MaxAge (-99999999))) w.
Proof. reflexivity. Qed.

Lemma visible_after_assignment (a : CookieString) :
  Browser.visible h (Browser.document_cookie_set h a w)
  = filter (Browser.shown h (location_hostname w))
      (match Browser.cookie_of h (location_hostname w) a with
       | Some c => if Browser.unexpired (Date_now h) c
                   then Browser.put c (cookie_jar w)
                   else Browser.remove c (cookie_jar w)
       | None => cookie_jar w
       end).
Proof. reflexivity. Qed.

Lemma assignment_keeps_tidy (v : string) (life : Lifetime) :
  Tidy.jar w = true -> Tidy.name n = true -> Tidy.value v = true ->
  Tidy.jar (Browser.document_cookie_set h (More.cookie_text n domain v life) w) = true.
Proof.
  intros Hjar Hn Hv. unfold Tidy.jar, Browser.document_cookie_set.
  cbn [Browser.with_cookies cookie_jar].
  destruct (Browser.cookie_of h (location_hostname w) (More.cookie_text n domain v life))
    as [c|] eqn:Hmade; [|exact Hjar].
  destruct (cookie_of_tidy h _ n domain v life c Hn Hv Hmade) as (Hcn & Hcv & _).
  destruct (Browser.unexpired (Date_now h) c).
  - apply forallb_put; [|exact Hjar]. unfold Tidy.cookie. now rewrite Hcn, Hcv, Hn, Hv.
  - now apply forallb_remove.
Qed.



(** Reading another name after an assignment under the name [n]. *)
Lemma get_other_after_assignment (n' v : string) (life : Lifetime) :
  Tidy.jar w = true ->
  Tidy.name n = true ->
  Tidy.value v = true ->
  Tidy.name n' = true ->
  n <> n' ->
  CookieUtil.get h n' (Browser.document_cookie_set h (More.cookie_text n domain v life) w)
  = CookieUtil.get h n' w.
Proof.
  intros Hjar Hn Hv Hn' Hne.
  rewrite !get_is_first_named;
    try exact Hn'; try exact Hjar; [|now apply assignment_keeps_tidy].
  rewrite visible_after_assignment. unfold Tidy.first_named, Browser.visible.
  destruct (Browser.cookie_of h (location_hostname w) (More.cookie_text n domain v life))
    as [c|] eqn:Hmade; [|reflexivity].
  destruct (cookie_of_tidy h _ n domain v life c Hn Hv Hmade) as (Hcn & _).
  assert (Hother : forall x, Browser.same_key c x = true -> String.eqb n' (ck_name x) = false).
  { intros x Hsame. apply same_key_inv in Hsame as (Hxn & _).
    rewrite Hxn, Hcn. apply String.eqb_neq. congruence. }
  f_equal. destruct (Browser.unexpired (Date_now h) c).
  - apply find_put_other; [|exact Hother].
    rewrite Hcn. apply String.eqb_neq. congruence.
  - now apply find_remove_other.
Qed.



End CookieWrites.




(** A cookie whose name has the prefix [__Secure-] stays: the browser
    ignores a deletion that does not carry the [Secure] attribute, and
    [CookieUtil.delete] writes none. *)
Example reserved_name_is_not_deleted :
  let w := Sample.cv_page [] [Sample.cookie "__Secure-id" "v"] in
  Tidy.jar w = true
  /\ Tidy.name "__Secure-id" = true
  /\ Tidy.only_at "__Secure-id" (Rules.scope "another-site.local") (cookie_jar w) = true
  /\ CookieUtil.get Sample.host "__Secure-id"
       (CookieUtil.delete Sample.host "__Secure-id" "another-site.local" w)
     = Some "v".
Proof. cbv zeta. repeat split; vm_compute; reflexivity. Qed.



(** Writes under one name do not show under another. *)
Lemma writes_keep_other_names
    (h : Host) (n n' v : string) (days : Z) (domain : string) (w : World) :
  Tidy.jar w = true ->
  Tidy.name n = true ->
  Tidy.value v = true ->
  Tidy.name n' = true ->
  n <> n' ->
  CookieUtil.get h n' (CookieUtil.set h n v days domain w) = CookieUtil.get h n' w
  /\ CookieUtil.get h n' (CookieUtil.delete h n domain w) = CookieUtil.get h n' w.
Proof.
  intros Hjar Hn Hv Hn' Hne. rewrite set_is_assignment, delete_is_assignment.
  split; now apply get_other_after_assignment.
Qed.



(** *** What the browser refuses, drops and keeps in place *)

(** On [shop.example.me.uk] the root domain that is computed is the
    public suffix [me.uk]: the cookie text is assigned, the browser stores
    nothing, and the name reads [null]. *)
Example public_suffix_is_refused :
  let w := Sample.page_at "shop.example.me.uk" in
  let w' := CookieUtil.set Sample.host "ONEACCOUNT_DELIVERY" Sample.click_id 1
              (getRootDomain w) w in
  getRootDomain w = "me.uk"
  /\ List.length (cookie_assignments w') = 1
  /\ cookie_jar w' = []
  /\ CookieUtil.get Sample.host "ONEACCOUNT_DELIVERY" w' = None.
Proof. cbv zeta. repeat split; vm_compute; reflexivity. Qed.

(** A domain that is not the host's own or a parent of it is refused. *)
Example foreign_domain_is_refused :
  let w := Sample.cv_page [] [] in
  CookieUtil.get Sample.host "ONEACCOUNT_DELIVERY"
    (CookieUtil.set Sample.host "ONEACCOUNT_DELIVERY" Sample.click_id 1 "evil.example" w)
  = None.
Proof. vm_compute. reflexivity. Qed.

(** A cookie is read until it expires, and no longer. *)
Example expired_cookie_is_not_read :
  let w := CookieUtil.set Sample.host "ONEACCOUNT_DELIVERY" Sample.click_id 1
             "another-site.local" (Sample.cv_page [] []) in
  CookieUtil.get (Sample.host_at (1700000000000 + 86399999)) "ONEACCOUNT_DELIVERY" w
  = Some Sample.click_id
  /\ CookieUtil.get (Sample.host_at (1700000000000 + 86400000)) "ONEACCOUNT_DELIVERY" w
     = None.
Proof. cbv zeta. split; vm_compute; reflexivity. Qed.

(** A cookie that is written again keeps its place in the store. *)
Example replaced_cookie_keeps_its_place :
  let w := CookieUtil.set Sample.host "_oneAccount_s00000000000001" "again" 1
             "another-site.local" (Sample.cv_page [] Sample.both_cookies) in
  map (fun c => (ck_name c, ck_value c)) (Browser.visible Sample.host w)
  = [("_oneAccount_s00000000000001", "again"); ("ONEACCOUNT_DELIVERY", Sample.click_id)].
Proof. vm_compute. reflexivity. Qed.

(** A coupon that [String] does not convert: the call on the test page
    throws out of phase 5, after phase 2 has stored the identifier of the
    URL, and neither reports nor cleans up. *)
Example coupon_object_throws :
  let w := Sample.cv_page [("oneAccount", Sample.click_id)] [] in
  let r := oneAccountSales Sample.host Sample.payload_coupon_object w in
  validate Sample.payload_coupon_object = Normal []
  /\ fst r = Throw TypeError
  /\ map cs_name (cookie_assignments (snd r)) = ["_oneAccount_s00000000000001"]
  /\ body_appended (snd r) = []
  /\ container (snd r) = Some [].
Proof. cbv zeta. repeat split; vm_compute; reflexivity. Qed.

(** ** Cleanup of the cookies *)

Lemma visible_by_jar (h : Host) (w w' : World) :
  location_hostname w' = location_hostname w ->
  cookie_jar w' = cookie_jar w ->
  Browser.visible h w' = Browser.visible h w.
Proof. intros Hhost Hjar. unfold Browser.visible. now rewrite Hhost, Hjar. Qed.




Section Deletion.

Variables (h : Host) (n domain : string) (w : World).
Hypothesis Hn : Tidy.name n = true.
Hypothesis Hfree : Browser.reserved n = false.





End Deletion.








(** ** The tracking parameter of the URL, accepted *)


Lemma acceptable_iff (v : string) :
  Rules.acceptable_click_id v = true
  <-> re_click_id v = true /\ 92 <= String.length v <= 500.
Proof.
  unfold Rules.acceptable_click_id. rewrite !andb_true_iff, !Nat.leb_le. tauto.
Qed.


Lemma click_id_char_is_value_char (c : ascii) :
  click_id_char c = true -> Tidy.value_char c = true.
Proof.
  destruct c as [[|] [|] [|] [|] [|] [|] [|] [|]]; vm_compute; intros H;
    first [reflexivity | discriminate H].
Qed.

Lemma click_id_is_tidy (v : string) : re_click_id v = true -> Tidy.value v = true.
Proof.
  unfold re_click_id, Tidy.value. intros H. apply andb_true_iff in H as [_ H].
  revert H. apply forall_chars_weaken, click_id_char_is_value_char.
Qed.






(** ** The primary tracking image *)

Lemma resolveClickId_container (h : Host) (cookieName rootDomain : string) (w : World) :
  container (snd (resolveClickId h cookieName rootDomain w)) = container w.
Proof.
  unfold resolveClickId.
  destruct (Browser.URLSearchParams_get (location_search w) "oneAccount") as [v|];
    [|reflexivity].
  destruct (negb (String.eqb v "")); [|reflexivity].
  destruct (re_click_id v && (92 <=? String.length v)%nat && (String.length v <=? 500)%nat);
    [reflexivity|].
  cbn [snd]. unfold logger.error. cbn [stopLog Browser.console_log Browser.with_console].
  destruct (stopLog w); reflexivity.
Qed.

(** Phases 5 to 7 leave the images of the container as they are, or put
    one hidden pixel without [src] into an empty container. *)
Lemma dispatch_container (h : Host) (data : Data) (amount : JsValue)
    (v cookieName rootDomain : string) (w : World) :
  let w' := snd (dispatch_and_cleanup h data amount v cookieName rootDomain w) in
  container w' = container w
  \/ (container w = Some [] /\ container w' = Some [hidden_pixel]).
Proof.
  cbv zeta. unfold dispatch_and_cleanup.
  destruct (buildQuery h data v amount) as [query|e]; [|now left].
  destruct (trackingUrl h query) as [url|e]; [|now left].
  cbv zeta.
  assert (Hpixel : container (ensure_container_img w) = container w
                   \/ (container w = Some []
                       /\ container (ensure_container_img w) = Some [hidden_pixel])).
  { rewrite ensure_container_img_container.
    destruct (container w) as [[|i imgs]|]; [right; split; reflexivity|now left|now left]. }
  destruct (aspPostbackUrl h v amount (data_order_number data)) as [postback|e];
    cbn [snd]; rewrite ?report_container; exact Hpixel.
Qed.

(** Whatever the input, the call never assigns a [src] in the container:
    its images stay as they are, and an empty container receives one
    hidden pixel without [src]. *)
Lemma oneAccountSales_container (h : Host) (dataObject : JsValue) (w : World) :
  container (snd (oneAccountSales h dataObject w)) = container w
  \/ (container w = Some []
      /\ container (snd (oneAccountSales h dataObject w)) = Some [hidden_pixel]).
Proof.
  unfold oneAccountSales.
  destruct (container w) as [imgs|] eqn:Hc; cycle 1.
  { left. cbn [snd]. destruct (logger_error_untouched MsgNoContainer w) as (_ & _ & -> & _).
    exact Hc. }
  destruct (validate dataObject) as [errors|e]; [|now left].
  destruct (0 <? List.length errors)%nat.
  { left. cbn [snd]. destruct (log_errors_untouched errors w) as (_ & _ & -> & _).
    exact Hc. }
  destruct (bindC _ _) as [pid|e]; [|now left].
  pose proof (resolveClickId_container h ("_oneAccount_" ++ pid) (getRootDomain w) w) as Hr.
  destruct (resolveClickId h ("_oneAccount_" ++ pid) (getRootDomain w) w)
    as [[v|] w1]; cbn [snd] in Hr |- *; rewrite Hc in Hr.
  - destruct (String.eqb v "").
    + left. cbn [snd].
      now destruct (logger_error_untouched MsgNoClickId w1) as (_ & _ & -> & _).
    + destruct (normalize h dataObject) as [data|e]; [|now left].
      destruct (Js.get dataObject "total_price") as [original|e]; [|now left].
      rewrite <- Hr. apply dispatch_container.
  - left. cbn [snd].
    now destruct (logger_error_untouched MsgNoClickId w1) as (_ & _ & -> & _).
Qed.

(** C1.  The call of the test page, with the click identifier in the
    per-program cookie, returns normally and computes the primary
    tracking URL from the fixed base and the percent-encoded query; the
    image it puts into the container has no [src], while the partner
    postback image is sent. *)
Theorem C1_primary_url_is_computed_but_not_attached :
  let w := Sample.cv_page [] Sample.both_cookies in
  let w' := snd (oneAccountSales Sample.host Sample.cv_payload w) in
  fst (oneAccountSales Sample.host Sample.cv_payload w) = Normal tt
  /\ fst (resolveClickId Sample.host (Rules.cookie_name Sample.host Sample.cv_payload)
            (getRootDomain w) w) = Some Sample.click_id
  /\ (query <- buildQuery Sample.host (Rules.normalized Sample.host Sample.cv_payload)
                 Sample.click_id (Rules.reported_amount Sample.host Sample.cv_payload) ;;
      trackingUrl Sample.host query)
     = Normal (ONEACCOUNT_SALES_SERVER_URL
               ++ "?pid=s00000000000001&oneAccount=" ++ Sample.click_id
               ++ "&o=ORDER-12345&c=JPY&p=2500"
               ++ "&i%5B0%5D%5Bsc%5D=item-001&i%5B0%5D%5Bp%5D=1000&i%5B0%5D%5Bq%5D=2"
               ++ "&i%5B1%5D%5Bsc%5D=item-002&i%5B1%5D%5Bp%5D=500&i%5B1%5D%5Bq%5D=1")
  /\ container w' = Some [hidden_pixel]
  /\ option_map (map img_src) (container w') = Some [None]
  /\ map img_src (body_appended w')
     = [Some (ASP_POSTBACK_URL ++ "?click_id=" ++ Sample.click_id
              ++ "&order_total=2500&order_number=ORDER-12345")].
Proof.
  cbv zeta. repeat split; vm_compute; reflexivity.
Qed.

(** ** Amounts *)

Lemma lookup_assign (k k' : string) (v : JsValue) (query : list (string * JsValue)) :
  Js.lookup k (Js.assign query k' v)
  = if String.eqb k k' then v else Js.lookup k query.
Proof.
  induction query as [|[k0 v0] rest IH]; cbn [Js.assign Js.lookup]; [reflexivity|].
  destruct (String.eqb_spec k' k0) as [->|Hk0]; cbn [Js.lookup].
  - destruct (String.eqb k k0); reflexivity.
  - rewrite IH.
    destruct (String.eqb_spec k k0) as [->|Hk]; [|reflexivity].
    apply String.eqb_neq in Hk0. rewrite String.eqb_sym in Hk0. now rewrite Hk0.
Qed.







(** C5. For a valid payload whose [total_price] is not a number, the
    normalized total price is the sum, accumulated from 0 in item order,
    of price times quantity over the normalized items, passed through
    [Math.floor] when the normalized currency is JPY.  For the items
    [{price: 1000, quantity: 2}, {price: 500, quantity: 1}], currency JPY
    and no [total_price], the total is the integer 2500. *)
Theorem C5_total_price_is_computed :
  (forall (h : Host) (dataObject : JsValue),
      validate dataObject = Normal [] ->
      Js.is_number (Js.lookup "total_price" (Js.spread dataObject)) = false ->
      exists data,
        normalize h dataObject = Normal data
        /\ data_total_price data
           = let sum :=
               fold_left
                 (fun total item =>
                    PrimFloat.add total (PrimFloat.mul (item_price item) (item_quantity item)))
                 (data_items data) 0%float in
             if String.eqb (data_currency data) "JPY" then JsNumber.Math_floor sum else sum)
  /\ (exists data,
        normalize Sample.host Sample.payload_without_total = Normal data
        /\ data_currency data = "JPY"
        /\ map (fun item => (item_price item, item_quantity item)) (data_items data)
           = [(1000%float, 2%float); (500%float, 1%float)]
        /\ data_total_price data = 2500%float
        /\ JsNumber.isInteger (data_total_price data) = true).
Proof.
  split.
  - intros h dataObject Hvalid Hnot.
    exists (Rules.normalized h dataObject).
    split; [exact (normalize_ok h dataObject Hvalid)|].
    unfold Rules.normalized. cbn [data_total_price data_items data_currency].
    unfold normalize_total_price, items_total.
    destruct (Js.lookup "total_price" (Js.spread dataObject));
      try reflexivity; discriminate Hnot.
  - exists (Rules.normalized Sample.host Sample.payload_without_total).
    repeat split; vm_compute; reflexivity.
Qed.

Lemma C5_total_price_is_computed_witness :
  exists data,
    normalize Sample.host Sample.payload_without_total = Normal data
    /\ data_total_price data
       = let sum :=
           fold_left
             (fun total item =>
                PrimFloat.add total (PrimFloat.mul (item_price item) (item_quantity item)))
             (data_items data) 0%float in
         if String.eqb (data_currency data) "JPY" then JsNumber.Math_floor sum else sum.
Proof.
  apply (proj1 C5_total_price_is_computed Sample.host Sample.payload_without_total).
  - reflexivity.
  - reflexivity.
Defined.

(** ** Inputs that phase 1 does not stop *)

Lemma validate_item_throws_iff (index : nat) (item : JsValue) :
  validate_item index item = Throw TypeError <-> Rules.nullish item = true.
Proof.
  destruct item; cbn; split; intros H; try reflexivity; discriminate H.
Qed.

(** The per-item checks throw exactly when some item is [undefined] or
    [null]. *)
Lemma validate_items_throws_iff (items : list JsValue) :
  forall index,
    validate_items index items = Throw TypeError <-> existsb Rules.nullish items = true.
Proof.
  induction items as [|item rest IH]; intros index; cbn [validate_items existsb].
  - split; intros H; discriminate H.
  - specialize (IH (S index)).
    destruct (Rules.nullish item) eqn:Hnull; cbn [orb].
    + apply validate_item_throws_iff with (index := index) in Hnull.
      rewrite Hnull. cbn [bindC]. split; reflexivity.
    + destruct (validate_item index item) as [es|[]] eqn:Hitem.
      * cbn [bindC]. rewrite <- IH.
        destruct (validate_items (S index) rest) as [es'|[]]; cbn [bindC];
          split; intros H; try reflexivity; discriminate H.
      * apply validate_item_throws_iff in Hitem. rewrite Hitem in Hnull. discriminate.
Qed.

(** Phase 1 throws only on a payload object whose [items] array holds
    [undefined] or [null]. *)
Lemma validate_throws_inv (dataObject : JsValue) (e : JsError) :
  validate dataObject = Throw e ->
  existsb Rules.nullish (Rules.items_of dataObject) = true.
Proof.
  destruct e. unfold validate, Rules.items_of.
  destruct dataObject as [| |b|x|s|elems|props];
    cbn [Js.truthy Js.typeof negb orb String.eqb Ascii.eqb Bool.eqb Js.get bindC Js.spread];
    rewrite ?orb_true_r; try discriminate; try (destruct b; discriminate).
  destruct (Js.lookup "items" props) as [| | | | |[|first others]|];
    try discriminate.
  intros H. apply (validate_items_throws_iff (first :: others) 0).
  destruct (validate_items 0 (first :: others)) as [es|[]]; [discriminate H|reflexivity].
Qed.

(** Without such an item, a call that finds no container or a payload
    that fails a check returns normally, writes or deletes no cookie and
    creates or changes no element. *)
Lemma validation_failure_is_quiet (h : Host) (dataObject : JsValue) (w : World) :
  existsb Rules.nullish (Rules.items_of dataObject) = false ->
  container w = None \/ validate dataObject <> Normal [] ->
  fst (oneAccountSales h dataObject w) = Normal tt
  /\ Rules.untouched w (snd (oneAccountSales h dataObject w)).
Proof.
  intros Hnull Hfail.
  destruct (validate dataObject) as [errors|e] eqn:Hv.
  - apply (oneAccountSales_invalid_untouched h dataObject w errors).
    destruct Hfail as [Hc|Hne]; [now left|right].
    split; [exact Hv|]. intros ->. now apply Hne.
  - rewrite (validate_throws_inv dataObject e Hv) in Hnull. discriminate.
Qed.

(** C9.  A payload whose [items] holds [null] on the test page: reading
    [item.price] throws a TypeError out of the call (the page is left as
    it was). *)
Theorem C9_null_item_throws :
  let w := Sample.cv_page [] Sample.both_cookies in
  validate Sample.payload_null_item = Throw TypeError
  /\ oneAccountSales Sample.host Sample.payload_null_item w = (Throw TypeError, w).
Proof.
  split; reflexivity.
Qed.







(** ** The root domain of a host name *)

Section Labels.

Variable sep : ascii.

Lemma split_free (s : string) :
  More.free_of sep s = true -> JsString.split sep s = [s].
Proof.
  unfold More.free_of. induction s as [|c s IH]; [reflexivity|].
  rewrite forall_chars_cons, andb_true_iff, negb_true_iff. intros [Hc Hs].
  cbn [JsString.split]. now rewrite (IH Hs), Hc.
Qed.

Lemma split_at_sep (a b : string) :
  More.free_of sep a = true ->
  JsString.split sep (a ++ String sep b) = a :: JsString.split sep b.
Proof.
  unfold More.free_of. induction a as [|c a IH].
  - intros _. cbn [append JsString.split]. now rewrite Ascii.eqb_refl.
  - rewrite forall_chars_cons, andb_true_iff, negb_true_iff. intros [Hc Ha].
    cbn [append JsString.split]. now rewrite (IH Ha), Hc.
Qed.

(** The pieces of a split do not contain the separator. *)
Lemma split_pieces_free (s : string) :
  forallb (More.free_of sep) (JsString.split sep s) = true.
Proof.
  induction s as [|c s IH]; [reflexivity|]. cbn [JsString.split].
  destruct (Ascii.eqb c sep) eqn:Hc; [exact IH|].
  pose proof (split_not_nil sep s) as Hne.
  destruct (JsString.split sep s) as [|p ps]; [contradiction|].
  cbn [forallb] in *. apply andb_prop in IH as [Hp Hps].
  unfold More.free_of in *. now rewrite forall_chars_cons, Hc, Hp, Hps.
Qed.

(** Splitting the join of separator-free pieces gives the pieces back. *)
Lemma split_join (pieces : list string) :
  pieces <> [] ->
  forallb (More.free_of sep) pieces = true ->
  JsString.split sep (JsString.join (String sep EmptyString) pieces) = pieces.
Proof.
  unfold JsString.join.
  induction pieces as [|x rest IH]; [contradiction|]. intros _.
  cbn [forallb]. rewrite andb_true_iff. intros [Hx Hrest].
  destruct rest as [|y rest'].
  - cbn [String.concat]. now apply split_free.
  - change (String.concat (String sep "") (x :: y :: rest'))
      with (x ++ String sep (String.concat (String sep "") (y :: rest'))).
    rewrite (split_at_sep _ _ Hx). f_equal. apply IH; [discriminate|exact Hrest].
Qed.

Lemma join_app (front back : list string) :
  front <> [] -> back <> [] ->
  JsString.join (String sep EmptyString) (front ++ back)
  = JsString.join (String sep EmptyString) front
    ++ String sep EmptyString ++ JsString.join (String sep EmptyString) back.
Proof.
  unfold JsString.join. intros Hf Hb.
  induction front as [|x front IH]; [contradiction|].
  destruct front as [|y front'].
  - destruct back as [|b back']; [contradiction|]. reflexivity.
  - change (String.concat (String sep "") ((x :: y :: front') ++ back))
      with (x ++ String sep "" ++ String.concat (String sep "") ((y :: front') ++ back)).
    rewrite IH by discriminate.
    change (String.concat (String sep "") (x :: y :: front'))
      with (x ++ String sep "" ++ String.concat (String sep "") (y :: front')).
    now rewrite !append_associative.
Qed.

End Labels.

(** A list of more than two elements ends with three of them. *)
Lemma last_three {A} (l : list A) :
  2 < List.length l -> exists front a s t, l = (front ++ [a; s; t])%list.
Proof.
  intros Hlen. exists (firstn (List.length l - 3) l).
  pose proof (firstn_skipn (List.length l - 3) l) as Hsplit.
  pose proof (length_skipn (List.length l - 3) l) as Hskip.
  destruct (skipn (List.length l - 3) l) as [|a [|s [|t [|u rest]]]];
    cbn [List.length] in Hskip; try lia.
  exists a, s, t. now symmetry.
Qed.

(** The three outcomes of [getRootDomain]: the host name itself for
    [localhost], an IP address and names of one or two labels; otherwise
    the last three labels or the last two. *)
Lemma getRootDomain_cases (w : World) :
  getRootDomain w = location_hostname w
  \/ exists front a s t,
       re_localhost_or_ip (location_hostname w) = false
       /\ JsString.split "."%char (location_hostname w) = (front ++ [a; s; t])%list
       /\ getRootDomain w
          = JsString.join "." (if existsb (String.eqb s) slds then [a; s; t] else [s; t]).
Proof.
  unfold getRootDomain.
  destruct (re_localhost_or_ip (location_hostname w)) eqn:Hlocal; [now left|].
  destruct (Nat.leb_spec (List.length (JsString.split "."%char (location_hostname w))) 2)
    as [Hshort|Hlong]; [now left|].
  right. destruct (last_three _ Hlong) as (front & a & s & t & Hparts).
  exists front, a, s, t. split; [reflexivity|]. split; [exact Hparts|].
  rewrite Hparts. unfold Array_at, Array_slice_last, Array_includes.
  rewrite !length_app. cbn [List.length].
  destruct (Z.ltb_spec (Z.of_nat (List.length front + 3) - 2) 0) as [Hneg|_]; [lia|].
  replace (Z.to_nat (Z.of_nat (List.length front + 3) - 2)) with (List.length front + 1) by lia.
  rewrite nth_error_app2 by lia.
  replace (List.length front + 1 - List.length front) with 1 by lia.
  cbn [nth_error].
  destruct (Nat.ltb_spec 2 (List.length front + 3)) as [_|Hbad]; [|lia].
  rewrite andb_true_r.
  replace (List.length front + 3 - 3) with (List.length front + 0) by lia.
  replace (List.length front + 3 - 2) with (List.length front + 1) by lia.
  rewrite !skipn_app.
  rewrite (skipn_all2 front (n := List.length front + 0)) by lia.
  rewrite (skipn_all2 front (n := List.length front + 1)) by lia.
  replace (List.length front + 0 - List.length front) with 0 by lia.
  replace (List.length front + 1 - List.length front) with 1 by lia.
  cbn [skipn app]. destruct (existsb (String.eqb s) slds); reflexivity.
Qed.

(** X5. The root domain is always the end of the host name, cut at a
    label boundary: the host name is the root domain itself or some
    labels, a dot and the root domain.  (So the [domain] attribute the
    cookie utilities write always covers the page's own host.) *)
Theorem X5_root_domain_ends_host_name (w : World) :
  More.domain_suffix (getRootDomain w) (location_hostname w).
Proof.
  unfold More.domain_suffix.
  destruct (getRootDomain_cases w) as [->|(front & a & s & t & _ & Hparts & ->)];
    [now left|].
  pose proof (join_split "."%char (location_hostname w)) as Hjoin.
  rewrite Hparts in Hjoin. rewrite <- Hjoin.
  destruct (existsb (String.eqb s) slds).
  - destruct front as [|f front']; [now left|]. right.
    exists (JsString.join "." (f :: front')).
    apply (join_app "."%char (f :: front') [a; s; t]); discriminate.
  - right. exists (JsString.join "." (front ++ [a])%list).
    change (front ++ [a; s; t])%list with (front ++ [a] ++ [s; t])%list.
    rewrite app_assoc.
    apply (join_app "."%char (front ++ [a])%list [s; t]); [|discriminate].
    destruct front; discriminate.
Qed.

Lemma not_local_with_dots (pieces : list string) :
  forallb (More.free_of "."%char) pieces = true ->
  List.length pieces = 2 \/ List.length pieces = 3 ->
  re_localhost_or_ip (JsString.join "." pieces) = false.
Proof.
  intros Hfree Hlen. unfold re_localhost_or_ip.
  assert (Hne : pieces <> []) by (destruct pieces; [cbn in Hlen; lia|discriminate]).
  pose proof (split_join "."%char pieces Hne Hfree) as Hsplit.
  change (String "."%char "") with "." in Hsplit. rewrite Hsplit.
  destruct (String.eqb_spec (JsString.join "." pieces) "localhost") as [Heq|_].
  - rewrite Heq in Hsplit. cbn in Hsplit. rewrite <- Hsplit in Hlen.
    cbn in Hlen. lia.
  - destruct pieces as [|p1 [|p2 [|p3 [|p4 rest]]]]; cbn in Hlen; try lia; reflexivity.
Qed.

(** X6. Resolving the root domain is idempotent: on a page whose host
    name is the root domain of another page, [getRootDomain] returns that
    same root domain. *)
Theorem X6_root_domain_is_idempotent (w : World) :
  getRootDomain (More.at_host (getRootDomain w) w) = getRootDomain w.
Proof.
  destruct (getRootDomain_cases w) as [Hsame|(front & a & s & t & Hlocal & Hparts & Hroot)].
  - unfold getRootDomain at 1. cbn [More.at_host location_hostname].
    rewrite Hsame. exact Hsame.
  - pose proof (split_pieces_free "."%char (location_hostname w)) as Hfree.
    rewrite Hparts, forallb_app in Hfree. apply andb_prop in Hfree as [_ Hfree].
    cbn [forallb] in Hfree.
    apply andb_prop in Hfree as [Ha Hfree]. apply andb_prop in Hfree as [Hs Hfree].
    apply andb_prop in Hfree as [Ht _].
    rewrite Hroot. unfold getRootDomain. cbn [More.at_host location_hostname].
    destruct (existsb (String.eqb s) slds) eqn:Hsld.
    + assert (Hpieces : forallb (More.free_of "."%char) [a; s; t] = true)
        by (cbn [forallb]; now rewrite Ha, Hs, Ht).
      rewrite (not_local_with_dots [a; s; t] Hpieces) by now right.
      pose proof (split_join "."%char [a; s; t]) as Hsplit.
      change (String "."%char "") with "." in Hsplit.
      rewrite Hsplit by (try discriminate; exact Hpieces).
      cbn [List.length Nat.leb Nat.ltb].
      change (Array_at [a; s; t] (Z.of_nat 3 - 2)) with (Some s).
      change (Array_slice_last 3 [a; s; t]) with [a; s; t].
      cbn [Array_includes]. now rewrite Hsld.
    + assert (Hpieces : forallb (More.free_of "."%char) [s; t] = true)
        by (cbn [forallb]; now rewrite Hs, Ht).
      rewrite (not_local_with_dots [s; t] Hpieces) by now left.
      pose proof (split_join "."%char [s; t]) as Hsplit.
      change (String "."%char "") with "." in Hsplit.
      rewrite Hsplit by (try discriminate; exact Hpieces).
      reflexivity.
Qed.


(** ** The ways a call of the reporter can go *)

(** Phase 2 goes one of three ways. *)
Lemma resolveClickId_outcomes (h : Host) (cookieName rootDomain : string) (w : World) :
  let param := Browser.URLSearchParams_get (location_search w) "oneAccount" in
  (exists v, param = Some v /\ Rules.acceptable_click_id v = true
             /\ resolveClickId h cookieName rootDomain w
                = (Some v,
                   CookieUtil.set h cookieName v 3653 rootDomain
                     (Browser.console_log (MsgReceived (Some v) (String.length v)) w)))
  \/ (exists v, param = Some v /\ v <> "" /\ Rules.acceptable_click_id v = false
                /\ resolveClickId h cookieName rootDomain w
                   = (None,
                      logger.error MsgBadParam
                        (Browser.console_log (MsgReceived (Some v) (String.length v)) w)))
  \/ (option_truthy param = false
      /\ resolveClickId h cookieName rootDomain w
         = (CookieUtil.get h cookieName w,
            Browser.console_log (MsgReceived param 0) w)).
Proof.
  intros param. subst param.
  destruct (Browser.URLSearchParams_get (location_search w) "oneAccount") as [v|] eqn:Hurl.
  - destruct (Rules.acceptable_click_id v) eqn:Hok.
    + left. exists v. repeat split; try assumption.
      now apply resolveClickId_accepts.
    + destruct (String.eqb_spec v "") as [->|Hne].
      * right. right. split; [reflexivity|].
        rewrite (resolveClickId_reads_cookie h cookieName rootDomain w) by now rewrite Hurl.
        now rewrite Hurl.
      * right. left. exists v. repeat split; try assumption.
        now apply resolveClickId_rejects.
  - right. right. split; [reflexivity|].
    rewrite (resolveClickId_reads_cookie h cookieName rootDomain w) by now rewrite Hurl.
    now rewrite Hurl.
Qed.

(** The call on a valid payload, phase by phase: no identifier, the
    exception of phase 5, or the report and the cleanup. *)
Lemma oneAccountSales_phases (h : Host) (dataObject : JsValue) (w : World)
    (imgs : list Img) :
  container w = Some imgs ->
  validate dataObject = Normal [] ->
  oneAccountSales h dataObject w
  = match resolveClickId h (Rules.cookie_name h dataObject) (getRootDomain w) w with
    | (Some v, w1) =>
        if String.eqb v "" then (Normal tt, logger.error MsgNoClickId w1)
        else if Rules.coupon_converts h dataObject
             then (Normal tt,
                   report_and_cleanup h (Rules.normalized h dataObject)
                     (Rules.postback_url h dataObject v)
                     (Rules.cookie_name h dataObject) (getRootDomain w)
                     (ensure_container_img w1))
             else (Throw TypeError, w1)
    | (None, w1) => (Normal tt, logger.error MsgNoClickId w1)
    end.
Proof.
  intros Hc Hvalid.
  destruct (resolveClickId h (Rules.cookie_name h dataObject) (getRootDomain w) w)
    as [[v|] w1] eqn:Hid.
  - destruct (String.eqb_spec v "") as [->|Hne].
    + now rewrite (oneAccountSales_valid h dataObject w imgs Hc Hvalid), Hid.
    + exact (oneAccountSales_reports h dataObject w imgs v w1 Hc Hvalid Hid Hne).
  - now rewrite (oneAccountSales_valid h dataObject w imgs Hc Hvalid), Hid.
Qed.

(** A call goes one of four ways: no container; an exception out of
    phase 1; logged validation errors; or, for a valid payload, the
    outcome of identifier resolution and of phase 5. *)
Lemma oneAccountSales_outcomes (h : Host) (dataObject : JsValue) (w : World) :
  (container w = None
   /\ oneAccountSales h dataObject w = (Normal tt, logger.error MsgNoContainer w))
  \/ (exists e, container w <> None /\ validate dataObject = Throw e
                /\ oneAccountSales h dataObject w = (Throw e, w))
  \/ (exists errors, container w <> None /\ validate dataObject = Normal errors
                     /\ errors <> []
                     /\ oneAccountSales h dataObject w
                        = (Normal tt, fold_left (fun w msg => logger.error msg w) errors w))
  \/ (exists imgs, container w = Some imgs /\ validate dataObject = Normal []
                   /\ oneAccountSales h dataObject w
                      = match resolveClickId h (Rules.cookie_name h dataObject)
                                (getRootDomain w) w with
                        | (Some v, w1) =>
                            if String.eqb v "" then (Normal tt, logger.error MsgNoClickId w1)
                            else if Rules.coupon_converts h dataObject
                                 then (Normal tt,
                                       report_and_cleanup h (Rules.normalized h dataObject)
                                         (Rules.postback_url h dataObject v)
                                         (Rules.cookie_name h dataObject) (getRootDomain w)
                                         (ensure_container_img w1))
                                 else (Throw TypeError, w1)
                        | (None, w1) => (Normal tt, logger.error MsgNoClickId w1)
                        end).
Proof.
  destruct (container w) as [imgs|] eqn:Hc.
  - destruct (validate dataObject) as [[|m errors]|e] eqn:Hv.
    + right. right. right. exists imgs. repeat split.
      exact (oneAccountSales_phases h dataObject w imgs Hc Hv).
    + right. right. left. exists (m :: errors).
      repeat split; try discriminate.
      unfold oneAccountSales. now rewrite Hc, Hv.
    + right. left. exists e. repeat split; try discriminate.
      unfold oneAccountSales. now rewrite Hc, Hv.
  - left. split; [reflexivity|]. unfold oneAccountSales. now rewrite Hc.
Qed.

(** X7. Phase 1 lets a payload through exactly when it is an object
    whose [pid] is a string of fifteen characters and whose [items] is a
    non-empty array of objects with numeric [price] and [quantity]. *)
Theorem X7_validation_accepts_exactly (dataObject : JsValue) :
  validate dataObject = Normal []
  <-> exists props pid items,
        dataObject = VObj props
        /\ Js.lookup "pid" props = VStr pid
        /\ String.length pid = 15
        /\ Js.lookup "items" props = VArr items
        /\ items <> []
        /\ forallb Rules.numeric_item items = true.
Proof.
  split.
  - apply validate_ok_inv.
  - intros (props & pid & items & -> & Hpid & Hlen & Hitems & Hne & Hnum).
    exact (validate_ok_intro props pid items Hpid Hlen Hitems Hne Hnum).
Qed.

Lemma X7_validation_accepts_exactly_witness :
  validate Sample.cv_payload = Normal [].
Proof.
  apply (proj2 (X7_validation_accepts_exactly Sample.cv_payload)).
  exists [("pid", VStr Sample.pid);
          ("items", Sample.two_items);
          ("order_number", VStr "ORDER-12345");
          ("total_price", VNum 2500%float);
          ("currency", VStr "JPY")], Sample.pid,
         [VObj [("code", VStr "item-001"); ("price", VNum 1000%float); ("quantity", VNum 2%float)];
          VObj [("code", VStr "item-002"); ("price", VNum 500%float); ("quantity", VNum 1%float)]].
  repeat split; try reflexivity. discriminate.
Defined.



(** The call that resolves no click identifier. *)
Lemma oneAccountSales_without_identifier
    (h : Host) (dataObject : JsValue) (w : World) (imgs : list Img) :
  container w = Some imgs ->
  validate dataObject = Normal [] ->
  option_truthy (Browser.URLSearchParams_get (location_search w) "oneAccount") = false ->
  option_truthy (CookieUtil.get h (Rules.cookie_name h dataObject) w) = false ->
  oneAccountSales h dataObject w
  = (Normal tt,
     logger.error MsgNoClickId
       (Browser.console_log
          (MsgReceived (Browser.URLSearchParams_get (location_search w) "oneAccount") 0) w))
  /\ Rules.untouched w (snd (oneAccountSales h dataObject w)).
Proof.
  intros Hc Hvalid Hurl Hcookie.
  rewrite (oneAccountSales_valid h dataObject w imgs Hc Hvalid).
  rewrite (resolveClickId_reads_cookie h _ _ w Hurl).
  assert (Hout : match CookieUtil.get h (Rules.cookie_name h dataObject) w with
                 | Some v => String.eqb v "" = true
                 | None => True
                 end).
  { destruct (CookieUtil.get h (Rules.cookie_name h dataObject) w) as [v|]; [|exact I].
    cbn [option_truthy] in Hcookie. now apply negb_false_iff in Hcookie. }
  destruct (CookieUtil.get h (Rules.cookie_name h dataObject) w) as [v|];
    [rewrite Hout|];
    (split; [reflexivity|]; cbn [snd];
     eapply untouched_trans; [apply console_log_untouched|apply logger_error_untouched]).
Qed.

(** X9. With the container and a valid payload, a call that finds no
    (non-empty) [oneAccount] parameter in the URL and no (non-empty)
    value in the per-program cookie logs the "no click identifier" error
    and stops: no cookie is written or deleted, no element is created
    or changed. *)
Theorem X9_no_identifier_aborts
    (h : Host) (dataObject : JsValue) (w : World) (imgs : list Img) :
  container w = Some imgs ->
  validate dataObject = Normal [] ->
  option_truthy (Browser.URLSearchParams_get (location_search w) "oneAccount") = false ->
  option_truthy (CookieUtil.get h (Rules.cookie_name h dataObject) w) = false ->
  oneAccountSales h dataObject w
  = (Normal tt,
     logger.error MsgNoClickId
       (Browser.console_log
          (MsgReceived (Browser.URLSearchParams_get (location_search w) "oneAccount") 0) w))
  /\ Rules.untouched w (snd (oneAccountSales h dataObject w)).
Proof.
  exact (oneAccountSales_without_identifier h dataObject w imgs).
Qed.

Lemma X9_no_identifier_aborts_witness :
  let w := Sample.cv_page [] [Sample.cookie "ONEACCOUNT_DELIVERY" Sample.click_id] in
  Rules.untouched w (snd (oneAccountSales Sample.host Sample.cv_payload w)).
Proof.
  intros w.
  apply (X9_no_identifier_aborts Sample.host Sample.cv_payload w []); reflexivity.
Defined.

(** ** The click identifier of the cookie *)


(** [CookieUtil.get] reads the cookies the page sees, nothing else. *)
Lemma get_by_visible (h : Host) (n : string) (w w' : World) :
  Browser.visible h w' = Browser.visible h w ->
  CookieUtil.get h n w' = CookieUtil.get h n w.
Proof.
  intros Hsame. unfold CookieUtil.get, Browser.document_cookie. now rewrite Hsame.
Qed.



Section Report.

Variables (h : Host) (data : Data) (url : string).
Variables (cookieName rootDomain : string) (w : World).
Hypothesis Hjar : Tidy.jar w = true.
Hypothesis Hname : Tidy.name cookieName = true.



End Report.








(** ** What any sequence of calls does to the page *)

(** X12. However often the reporter is called and with whatever
    arguments, the images of the container stay as they are, except that
    an empty container may receive one hidden pixel (without [src]):
    repeated calls never pile up tracking images. *)
Theorem X12_container_gets_at_most_one_image
    (l : list (Host * JsValue)) (w : World) :
  container (More.calls l w) = container w
  \/ (container w = Some [] /\ container (More.calls l w) = Some [hidden_pixel]).
Proof.
  revert w. induction l as [|[h dataObject] rest IH]; intros w; cbn [More.calls].
  - now left.
  - destruct (oneAccountSales_container h dataObject w) as [Hsame|[Hempty Hone]];
      destruct (IH (snd (oneAccountSales h dataObject w))) as [Hrest|[Hempty' Hone']].
    + left. congruence.
    + right. split; congruence.
    + right. split; congruence.
    + rewrite Hone in Hempty'. discriminate.
Qed.

Lemma resolveClickId_body (h : Host) (cookieName rootDomain : string) (w : World) :
  body_appended (snd (resolveClickId h cookieName rootDomain w)) = body_appended w.
Proof.
  destruct (resolveClickId_outcomes h cookieName rootDomain w)
    as [(v & _ & _ & ->)|[(v & _ & _ & _ & ->)|(_ & ->)]]; cbn [snd];
    try reflexivity.
  now destruct (logger_error_untouched MsgBadParam
                  (Browser.console_log (MsgReceived (Some v) (String.length v)) w))
    as (_ & _ & _ & ->).
Qed.

(** X13. A call appends at most one image to the body, and only the
    partner postback: the body's appended images are the same after the
    call, or one hidden pixel more whose [src] is the postback URL. *)
Theorem X13_at_most_one_postback_per_call
    (h : Host) (dataObject : JsValue) (w : World) :
  let w' := snd (oneAccountSales h dataObject w) in
  body_appended w' = body_appended w
  \/ exists v,
       v <> ""
       /\ body_appended w' = (body_appended w ++ [Rules.postback h dataObject v])%list.
Proof.
  intros w'. subst w'.
  destruct (oneAccountSales_outcomes h dataObject w)
    as [[_ ->]|[(e & _ & _ & ->)|[(errors & _ & _ & _ & ->)|(imgs & _ & _ & ->)]]];
    cbn [snd].
  - left. now destruct (logger_error_untouched MsgNoContainer w) as (_ & _ & _ & ->).
  - now left.
  - left. now destruct (log_errors_untouched errors w) as (_ & _ & _ & ->).
  - pose proof (resolveClickId_body h (Rules.cookie_name h dataObject) (getRootDomain w) w)
      as Hbody.
    destruct (resolveClickId h (Rules.cookie_name h dataObject) (getRootDomain w) w)
      as [[v|] w1]; cbn [snd] in Hbody.
    + destruct (String.eqb_spec v "") as [->|Hne]; cbn [snd].
      * left. destruct (logger_error_untouched MsgNoClickId w1) as (_ & _ & _ & ->).
        exact Hbody.
      * destruct (Rules.coupon_converts h dataObject); cbn [snd]; [|now left].
        right. exists v. split; [exact Hne|].
        rewrite report_body.
        destruct (ensure_container_img_keeps w1) as (_ & _ & _ & _ & _ & -> & _).
        rewrite Hbody. reflexivity.
    + left. cbn [snd].
      destruct (logger_error_untouched MsgNoClickId w1) as (_ & _ & _ & ->).
      exact Hbody.
Qed.

Lemma silent_logger (m : Message) (w : World) :
  stopLog w = true -> logger.error m w = w /\ logger.info m w = w.
Proof. intros Hstop. unfold logger.error, logger.info. now rewrite Hstop. Qed.

Lemma silent_errors (errors : list Message) (w : World) :
  stopLog w = true -> fold_left (fun w msg => logger.error msg w) errors w = w.
Proof.
  intros Hstop. induction errors as [|m errors IH]; cbn [fold_left]; [reflexivity|].
  now rewrite (proj1 (silent_logger m w Hstop)).
Qed.

Lemma silent_report (h : Host) (data : Data) (url cookieName rootDomain : string)
    (w : World) :
  stopLog w = true ->
  console (report_and_cleanup h data url cookieName rootDomain (ensure_container_img w))
  = console w.
Proof.
  intros Hstop. unfold report_and_cleanup, ensure_container_img.
  destruct w as [hn se sl jar asg ct bd cs]. cbn [stopLog] in Hstop. subst sl.
  destruct (Js.strict_eq_true (data_repeat data)), ct as [[|i imgs]|];
    cbn [negb]; page_compute; reflexivity.
Qed.

(** X14. The stop-log switch silences the logger but not the line that
    phase 2 prints with [console.log]: with [data-oneaccountstoplog="1"]
    a call leaves the console as it was when it stops in phase 1, and
    otherwise adds exactly one entry, the received-parameter line, which
    shows the value of the URL parameter. *)
Theorem X14_stop_log_leaves_one_line
    (h : Host) (dataObject : JsValue) (w : World) :
  stopLog w = true ->
  let w' := snd (oneAccountSales h dataObject w) in
  let param := Browser.URLSearchParams_get (location_search w) "oneAccount" in
  (container w = None \/ validate dataObject <> Normal [] -> console w' = console w)
  /\ (container w <> None -> validate dataObject = Normal [] ->
      console w'
      = (console w ++ [ConsoleLog (MsgReceived param (if option_truthy param
                                                       then option_length param
                                                       else 0))])%list).
Proof.
  intros Hstop w' param. subst w' param.
  destruct (oneAccountSales_outcomes h dataObject w)
    as [[Hc ->]|[(e & Hc & Hv & ->)|[(errors & Hc & Hv & Hne & ->)|(imgs & Hc & Hv & ->)]]];
    cbn [snd].
  - rewrite (proj1 (silent_logger MsgNoContainer w Hstop)).
    split; [reflexivity|]. intros Hsome. contradiction.
  - split; [reflexivity|]. intros _ Hvalid. rewrite Hvalid in Hv. discriminate.
  - rewrite (silent_errors errors w Hstop).
    split; [reflexivity|]. intros _ Hvalid. rewrite Hvalid in Hv.
    injection Hv as <-. contradiction.
  - split.
    { intros [Hnone|Hbad]; [rewrite Hnone in Hc; discriminate|contradiction]. }
    intros _ _.
    assert (Hstop1 : forall m, stopLog (Browser.console_log m w) = true)
      by (intros m; exact Hstop).
    destruct (resolveClickId_outcomes h (Rules.cookie_name h dataObject) (getRootDomain w) w)
      as [(v & Hurl & Hok & ->)|[(v & Hurl & Hne & Hbad & ->)|(Hurl & ->)]].
    + rewrite (acceptable_not_empty v Hok).
      rewrite Hurl. cbn [option_truthy option_length].
      rewrite (acceptable_not_empty v Hok).
      destruct (Rules.coupon_converts h dataObject); cbn [snd negb]; [|reflexivity].
      rewrite silent_report by exact Hstop. reflexivity.
    + cbn [snd].
      rewrite (proj1 (silent_logger MsgBadParam _ (Hstop1 _))).
      rewrite (proj1 (silent_logger MsgNoClickId _ (Hstop1 _))).
      rewrite Hurl. cbn [option_truthy option_length].
      apply String.eqb_neq in Hne. rewrite Hne. reflexivity.
    + rewrite Hurl.
      destruct (CookieUtil.get h (Rules.cookie_name h dataObject) w) as [v|];
        [destruct (String.eqb v ""); [|destruct (Rules.coupon_converts h dataObject)]|];
        cbn [snd];
        rewrite ?silent_report by (apply Hstop1);
        rewrite ?(proj1 (silent_logger MsgNoClickId _ (Hstop1 _)));
        reflexivity.
Qed.

Lemma X14_stop_log_leaves_one_line_witness :
  let w := More.at_host "another-site.local"
             {| location_hostname := "";
                location_search := [("oneAccount", Sample.click_id)];
                stopLog := true;
                cookie_jar := [];
                cookie_assignments := [];
                container := Some [];
                body_appended := [];
                console := [] |} in
  console (snd (oneAccountSales Sample.host Sample.cv_payload w))
  = [ConsoleLog (MsgReceived (Some Sample.click_id) 95)].
Proof.
  intros w.
  destruct (X14_stop_log_leaves_one_line Sample.host Sample.cv_payload w eq_refl)
    as [_ Hline].
  rewrite Hline; [reflexivity|discriminate|reflexivity].
Defined.

(** ** The normalized payload *)

Lemma length_substring_from_start (s : string) (n : nat) :
  String.length (JsString.substring s 0 n) = Nat.min n (String.length s).
Proof.
  unfold JsString.substring. rewrite Nat.min_0_l, Nat.max_0_l, Nat.sub_0_r.
  revert n. induction s as [|c s IH]; intros [|n]; cbn; try reflexivity.
  now rewrite IH.
Qed.

Lemma normalize_code_bounds (v : JsValue) :
  1 <= String.length (normalize_code v) <= 50.
Proof.
  unfold normalize_code.
  destruct v as [| | | |s| |]; try (cbn; lia).
  destruct (Nat.ltb_spec 0 (String.length s)) as [Hpos|_]; [|cbn; lia].
  rewrite length_substring_from_start. lia.
Qed.

Lemma normalize_price_not_nan (v : JsValue) :
  PrimFloat.is_nan (normalize_price v) = false.
Proof.
  unfold normalize_price, JsNumber.truthy.
  destruct (PrimFloat.is_nan (Js.ToNumber v)) eqn:Hnan; [reflexivity|].
  cbn [negb andb]. destruct (negb _); [exact Hnan|reflexivity].
Qed.

Lemma normalize_quantity_bounds (v : JsValue) :
  JsNumber.isInteger (normalize_quantity v) = true
  /\ PrimFloat.ltb 0 (normalize_quantity v) = true
  /\ PrimFloat.leb (normalize_quantity v) 9999 = true.
Proof.
  unfold normalize_quantity.
  destruct v as [| | |q| | |]; try (repeat split; reflexivity).
  destruct (JsNumber.isInteger q && PrimFloat.ltb 0 q && PrimFloat.leb q 9999) eqn:Hq;
    [|repeat split; reflexivity].
  apply andb_prop in Hq as [Hq Hle]. apply andb_prop in Hq as [Hint Hlt].
  now repeat split.
Qed.

Lemma item_of_in_bounds (item : JsValue) : More.item_in_bounds (Rules.item_of item) = true.
Proof.
  unfold More.item_in_bounds, Rules.item_of. cbn [item_code item_price item_quantity].
  pose proof (normalize_code_bounds (Js.lookup "code" (Js.spread item))) as [Hlo Hhi].
  destruct (normalize_quantity_bounds (Js.lookup "quantity" (Js.spread item)))
    as (Hint & Hlt & Hle).
  rewrite normalize_price_not_nan, Hint, Hlt, Hle.
  apply Nat.leb_le in Hlo, Hhi. now rewrite Hlo, Hhi.
Qed.

Lemma normalize_currency_valid (v : JsValue) : In (normalize_currency v) validCurrencies.
Proof.
  unfold normalize_currency.
  destruct v as [| | | |s| |]; try (now left).
  cbn [Array_includes].
  destruct (existsb (String.eqb (JsString.toUpperCase s)) validCurrencies) eqn:Hin;
    [|now left].
  apply existsb_exists in Hin as (x & Hx & Heq).
  apply String.eqb_eq in Heq. now rewrite Heq.
Qed.

Lemma normalize_order_number_not_empty (h : Host) (v : JsValue) :
  normalize_order_number h v <> "".
Proof.
  unfold normalize_order_number, synthetic_order_number.
  destruct v as [| | | |s| |]; try discriminate.
  destruct (Nat.ltb_spec 0 (String.length s)) as [Hpos|_]; [|discriminate].
  intros Hempty.
  pose proof (length_substring_from_start s 50) as Hlen.
  rewrite Hempty in Hlen. cbn [String.length] in Hlen. lia.
Qed.

(** X15. Normalization always lands inside the documented bounds.  For
    every valid payload the normalized copy has a currency among JPY, AUD
    and CHF, a non-empty order number (the caller's, cut to 50
    characters, when the caller gave a non-empty string), one item per
    item of the payload, and every item has a code of 1 to 50
    characters, a price that is not NaN and an integer quantity above 0
    and at most 9999. *)
Theorem X15_normalized_payload_is_in_bounds (h : Host) (dataObject : JsValue) :
  validate dataObject = Normal [] ->
  exists data,
    normalize h dataObject = Normal data
    /\ In (data_currency data) validCurrencies
    /\ data_order_number data <> ""
    /\ (forall s, Js.lookup "order_number" (Js.spread dataObject) = VStr s -> s <> "" ->
                  data_order_number data = JsString.substring s 0 50
                  /\ String.length (data_order_number data) <= 50)
    /\ List.length (data_items data) = List.length (Rules.items_of dataObject)
    /\ forallb More.item_in_bounds (data_items data) = true.
Proof.
  intros Hvalid. exists (Rules.normalized h dataObject).
  split; [exact (normalize_ok h dataObject Hvalid)|].
  unfold Rules.normalized. cbn [data_currency data_order_number data_items].
  split; [apply normalize_currency_valid|].
  split; [apply normalize_order_number_not_empty|].
  split.
  { intros s Hs Hne. rewrite Hs. unfold normalize_order_number.
    destruct s as [|c s]; [contradiction|].
    cbn [String.length Nat.ltb Nat.leb]. split; [reflexivity|].
    rewrite length_substring_from_start. lia. }
  split; [apply length_map|].
  rewrite forallb_forall. intros it Hin.
  apply in_map_iff in Hin as (item & <- & _). apply item_of_in_bounds.
Qed.

Lemma X15_normalized_payload_is_in_bounds_witness :
  exists data,
    normalize Sample.host Sample.payload_nan = Normal data
    /\ forallb More.item_in_bounds (data_items data) = true.
Proof.
  destruct (X15_normalized_payload_is_in_bounds Sample.host Sample.payload_nan eq_refl)
    as (data & Hdata & _ & _ & _ & _ & Hbounds).
  exists data. now split.
Defined.


(** ** The tracking query *)

Lemma digits_of_uint (d : Decimal.uint) :
  More.free_of "]"%char (NilEmpty.string_of_uint d) = true.
Proof. induction d; cbn; try reflexivity; exact IHd. Qed.

Lemma of_nat_injective (i j : nat) : JsString.of_nat i = JsString.of_nat j -> i = j.
Proof.
  unfold JsString.of_nat. intros Heq.
  apply DecimalNat.Unsigned.to_uint_inj.
  pose proof (NilEmpty.usu (Nat.to_uint i)) as Hi.
  rewrite Heq, NilEmpty.usu in Hi. now injection Hi.
Qed.

(** Two texts free of [sep], each followed by [sep] and a rest, are
    equal only piece by piece. *)
Lemma cut_at_first (sep : ascii) (a b x y : string) :
  More.free_of sep a = true -> More.free_of sep b = true ->
  a ++ String sep x = b ++ String sep y -> a = b /\ x = y.
Proof.
  unfold More.free_of. revert b.
  induction a as [|c a IH]; intros [|d b] Ha Hb Heq; cbn [append] in Heq.
  - now injection Heq.
  - injection Heq as Hd _. rewrite forall_chars_cons, <- Hd, Ascii.eqb_refl in Hb.
    discriminate.
  - injection Heq as Hc _. rewrite forall_chars_cons, Hc, Ascii.eqb_refl in Ha.
    discriminate.
  - injection Heq as -> Heq.
    rewrite forall_chars_cons, andb_true_iff in Ha, Hb.
    destruct (IH b (proj2 Ha) (proj2 Hb) Heq) as [-> ->]. now split.
Qed.

Lemma append_cancel_r (a b : string) (c : ascii) :
  a ++ String c "" = b ++ String c "" -> a = b.
Proof.
  revert b. induction a as [|x a IH]; intros [|y b] Heq; cbn [append] in Heq.
  - reflexivity.
  - injection Heq as _ Heq. destruct b; discriminate.
  - injection Heq as _ Heq. destruct a; discriminate.
  - injection Heq as -> Heq. now rewrite (IH b Heq).
Qed.

(** The keys of item fields are distinct for distinct items or fields. *)
Lemma item_key_injective (i j : nat) (f g : string) :
  More.item_key i f = More.item_key j g -> i = j /\ f = g.
Proof.
  unfold More.item_key. intros Heq.
  cbn [append] in Heq. injection Heq as Heq.
  change ("][" ++ f ++ "]") with (String "]"%char (String "["%char (f ++ "]"))) in Heq.
  change ("][" ++ g ++ "]") with (String "]"%char (String "["%char (g ++ "]"))) in Heq.
  apply cut_at_first in Heq as [Hij Hfg]; try apply digits_of_uint.
  split; [now apply of_nat_injective|].
  injection Hfg as Hfg. now apply append_cancel_r in Hfg.
Qed.

Lemma item_key_eqb (i j : nat) (f g : string) :
  String.eqb (More.item_key i f) (More.item_key j g) = (i =? j)%nat && String.eqb f g.
Proof.
  destruct (String.eqb_spec (More.item_key i f) (More.item_key j g)) as [Heq|Hne].
  - apply item_key_injective in Heq as [-> ->].
    now rewrite Nat.eqb_refl, String.eqb_refl.
  - destruct (Nat.eqb_spec i j) as [->|_]; [|reflexivity].
    destruct (String.eqb_spec f g) as [->|_]; [contradiction|reflexivity].
Qed.

(** The value of a field of an item, as the query holds it. *)
Lemma item_query_is_by_key (index : nat) (item : Item) (query : list (string * JsValue)) :
  item_query index item query
  = Js.assign
      (Js.assign
         (Js.assign query (More.item_key index "sc") (VStr (item_code item)))
         (More.item_key index "p") (VNum (item_price item)))
      (More.item_key index "q") (VNum (item_quantity item)).
Proof. reflexivity. Qed.

Lemma lookup_item_query_other (k index : nat) (f : string) (item : Item)
    (query : list (string * JsValue)) :
  k <> index ->
  Js.lookup (More.item_key k f) (item_query index item query)
  = Js.lookup (More.item_key k f) query.
Proof.
  intros Hne. rewrite item_query_is_by_key, !lookup_assign, !item_key_eqb.
  apply Nat.eqb_neq in Hne. now rewrite Hne.
Qed.

(** Items further down the list do not overwrite the fields of an
    earlier one. *)
Lemma lookup_items_query_earlier (items : list Item) :
  forall index k f query,
    k < index ->
    Js.lookup (More.item_key k f) (items_query index items query)
    = Js.lookup (More.item_key k f) query.
Proof.
  induction items as [|item rest IH]; intros index k f query Hlt; cbn [items_query];
    [reflexivity|].
  rewrite IH by lia. apply lookup_item_query_other. lia.
Qed.

Lemma lookup_items_query_at (items : list Item) :
  forall index j item query,
    nth_error items j = Some item ->
    Js.lookup (More.item_key (index + j) "sc") (items_query index items query)
    = VStr (item_code item)
    /\ Js.lookup (More.item_key (index + j) "p") (items_query index items query)
       = VNum (item_price item)
    /\ Js.lookup (More.item_key (index + j) "q") (items_query index items query)
       = VNum (item_quantity item).
Proof.
  induction items as [|first rest IH]; intros index j item query Hnth.
  - destruct j; discriminate Hnth.
  - cbn [items_query]. destruct j as [|j].
    + injection Hnth as ->. rewrite Nat.add_0_r.
      rewrite !lookup_items_query_earlier by lia.
      rewrite item_query_is_by_key, !lookup_assign, !item_key_eqb, Nat.eqb_refl.
      repeat split; reflexivity.
    + cbn [nth_error] in Hnth.
      replace (index + S j) with (S index + j) by lia.
      now apply IH.
Qed.

Lemma lookup_items_query_fixed (k : string) (items : list Item) :
  (forall s, String.eqb k ("i[" ++ s) = false) ->
  forall index query,
    Js.lookup k (items_query index items query) = Js.lookup k query.
Proof.
  intros Hk. induction items as [|item rest IH]; intros index query; cbn [items_query];
    [reflexivity|].
  rewrite IH. unfold item_query. now rewrite !lookup_assign, !Hk.
Qed.

Lemma lookup_buildQuery (h : Host) (data : Data) (v : string) (amount : JsValue)
    (query : list (string * JsValue)) (k : string) :
  buildQuery h data v amount = Normal query ->
  String.eqb k "coupon" = false -> String.eqb k "repeat" = false ->
  Js.lookup k query
  = Js.lookup k
      (items_query 0 (data_items data)
         [("pid", data_pid data); ("oneAccount", VStr v);
          ("o", VStr (data_order_number data)); ("c", VStr (data_currency data));
          ("p", amount)]).
Proof.
  intros Hquery Hcoupon Hrepeat. revert Hquery. unfold buildQuery.
  destruct (Js.truthy (data_coupon data)); [destruct (ToString h (data_coupon data))|];
    cbn [bindC]; try discriminate; intros [= <-];
    destruct (Js.strict_eq_true (data_repeat data));
    rewrite ?lookup_assign, ?Hrepeat, ?lookup_assign, ?Hcoupon; reflexivity.
Qed.

(** X16. Nothing in the tracking query overwrites anything else: the
    query, which is built unless the coupon is one that [String] does not
    convert, holds the program id, the click identifier, the order
    number, the currency and the amount under [pid], [oneAccount], [o], [c]
    and [p], and for the item at every position [k] its code, price and
    quantity under [i[k][sc]], [i[k][p]] and [i[k][q]]. *)
Theorem X16_query_holds_every_field
    (h : Host) (data : Data) (v : string) (amount : JsValue) :
  match buildQuery h data v amount with
  | Normal query =>
      Js.lookup "pid" query = data_pid data
      /\ Js.lookup "oneAccount" query = VStr v
      /\ Js.lookup "o" query = VStr (data_order_number data)
      /\ Js.lookup "c" query = VStr (data_currency data)
      /\ Js.lookup "p" query = amount
      /\ (forall k item,
            nth_error (data_items data) k = Some item ->
            Js.lookup (More.item_key k "sc") query = VStr (item_code item)
            /\ Js.lookup (More.item_key k "p") query = VNum (item_price item)
            /\ Js.lookup (More.item_key k "q") query = VNum (item_quantity item))
  | Throw e =>
      e = TypeError
      /\ Js.truthy (data_coupon data) = true
      /\ Rules.converts h (data_coupon data) = false
  end.
Proof.
  destruct (buildQuery_cases h data v amount)
    as [(Htruthy & Hconv & ->)|(_ & query & Hquery)]; [now repeat split|].
  rewrite Hquery.
  repeat (split;
          [rewrite (lookup_buildQuery h data v amount query _ Hquery) by reflexivity;
           rewrite lookup_items_query_fixed by (intros s; reflexivity);
           reflexivity|]).
  intros k item Hnth.
  rewrite !(lookup_buildQuery h data v amount query _ Hquery) by reflexivity.
  exact (lookup_items_query_at (data_items data) 0 k item _ Hnth).
Qed.

Lemma X16_query_holds_every_field_witness :
  exists query,
    buildQuery Sample.host (Rules.normalized Sample.host Sample.cv_payload)
      Sample.click_id (VNum 2500%float) = Normal query
    /\ Js.lookup "i[1][p]" query = VNum 500%float.
Proof.
  pose proof (X16_query_holds_every_field Sample.host
                (Rules.normalized Sample.host Sample.cv_payload) Sample.click_id
                (VNum 2500%float)) as Hfields.
  destruct (buildQuery Sample.host (Rules.normalized Sample.host Sample.cv_payload)
              Sample.click_id (VNum 2500%float)) as [query|e] eqn:Hquery.
  - exists query. split; [reflexivity|].
    destruct Hfields as (_ & _ & _ & _ & _ & Hitems).
    destruct (Hitems 1 {| item_code := "item-002"; item_price := 500%float;
                          item_quantity := 1%float |} eq_refl) as (_ & Hp & _).
    exact Hp.
  - vm_compute in Hquery. discriminate Hquery.
Defined.

(** ** Percent-encoding *)








(** ** The cross-domain pass *)

Lemma prefix_of_append (p s : string) : String.prefix p (p ++ s) = true.
Proof.
  induction p as [|a p IH]; cbn [append]; [apply prefix_empty|].
  now rewrite prefix_cons, Ascii.eqb_refl, IH.
Qed.

(** A text contains what was put in its middle. *)
Lemma includes_middle (a p b : string) : JsString.includes (a ++ p ++ b) p = true.
Proof.
  unfold JsString.includes, JsString.indexOf.
  induction a as [|c a IH]; cbn [append].
  - pose proof (proj2 (index_zero_iff_prefix p (p ++ b)) (prefix_of_append p b)) as H0.
    now rewrite H0.
  - cbn [String.index].
    destruct (String.prefix p (String c (a ++ p ++ b))); [reflexivity|].
    destruct (String.index 0 p (a ++ p ++ b)); [reflexivity|discriminate IH].
Qed.

Lemma same_but_console_refl (w : World) : More.same_but_console w w.
Proof. repeat split. Qed.

Lemma same_but_console_trans (w1 w2 w3 : World) :
  More.same_but_console w1 w2 -> More.same_but_console w2 w3 ->
  More.same_but_console w1 w3.
Proof.
  unfold More.same_but_console.
  intros (a1 & a2 & a3 & a4 & a5 & a6 & a7) (b1 & b2 & b3 & b4 & b5 & b6 & b7).
  repeat split; congruence.
Qed.

Lemma logger_info_same_but_console (m : Message) (w : World) :
  More.same_but_console w (logger.info m w).
Proof. unfold logger.info. destruct (stopLog w); repeat split. Qed.

(** What [updateAnchorHref] does, by cases. *)
Lemma updateAnchorHref_cases (anchor : Anchor) (v : string) (w : World) :
  (More.carries (location_hostname w) {| el_node := NodeA anchor; el_marked := false |} = true
   /\ CROSS_DOMAIN.updateAnchorHref anchor v w = (anchor, w))
  \/ (More.carries (location_hostname w) {| el_node := NodeA anchor; el_marked := false |} = false
      /\ exists front back,
           fst (CROSS_DOMAIN.updateAnchorHref anchor v w)
           = {| href := front ++ "oneAccount=" ++ back; hostname := hostname anchor |}
           /\ More.same_but_console w (snd (CROSS_DOMAIN.updateAnchorHref anchor v w))).
Proof.
  unfold More.carries, CROSS_DOMAIN.updateAnchorHref. cbn [el_node].
  change (CROSS_DOMAIN.PARAM_KEY ++ "=") with "oneAccount=".
  destruct (String.eqb (href anchor) "" || String.eqb (hostname anchor) (location_hostname w))
    eqn:Hguard; [left; split; [reflexivity|reflexivity]|].
  cbn [orb].
  destruct (JsString.includes (href anchor) "oneAccount=") eqn:Hparam;
    [left; split; reflexivity|].
  right. split; [reflexivity|].
  destruct (match JsString.indexOf (href anchor) "#" with
            | Some hashIndex =>
                (JsString.substring (href anchor) 0 hashIndex,
                 JsString.substring_from (href anchor) hashIndex)
            | None => (href anchor, "")
            end) as [newHref hash].
  exists (newHref ++ (if JsString.includes newHref "?" then "&" else "?")), (v ++ hash).
  cbn [fst snd href]. split.
  - f_equal. rewrite !append_associative.
    destruct (JsString.includes newHref "?"); reflexivity.
  - apply logger_info_same_but_console.
Qed.

(** X18. Rewriting a link is idempotent: after [updateAnchorHref], a
    second call, with any value, leaves the link as it is, so the
    parameter is never appended twice. *)
Theorem X18_link_is_rewritten_once (anchor : Anchor) (v v' : string) (w : World) :
  let first := CROSS_DOMAIN.updateAnchorHref anchor v w in
  fst (CROSS_DOMAIN.updateAnchorHref (fst first) v' (snd first)) = fst first.
Proof.
  cbv zeta.
  destruct (updateAnchorHref_cases anchor v w)
    as [[Hcarries ->]|(Hnot & front & back & Hfst & Hsame)]; cbn [fst snd].
  - destruct (updateAnchorHref_cases anchor v' w) as [[_ ->]|[Hnot _]];
      [reflexivity|rewrite Hcarries in Hnot; discriminate].
  - rewrite Hfst.
    destruct (updateAnchorHref_cases
                {| href := front ++ "oneAccount=" ++ back; hostname := hostname anchor |}
                v' (snd (CROSS_DOMAIN.updateAnchorHref anchor v w)))
      as [[_ ->]|[Hagain _]]; [reflexivity|].
    unfold More.carries in Hagain. cbn [el_node href] in Hagain.
    rewrite includes_middle, orb_true_r in Hagain. discriminate.
Qed.


Lemma form_has_field_after (form : Form) (v : string) (stop : bool) :
  CrossDomainPage.has_param_input
    (fst (CrossDomainPage.addHiddenInputToForm form v stop)) = true.
Proof.
  unfold CrossDomainPage.addHiddenInputToForm.
  destruct (CrossDomainPage.has_param_input form) eqn:Hhas; cbn [fst]; [exact Hhas|].
  unfold CrossDomainPage.has_param_input. cbn [form_inputs].
  rewrite existsb_app. cbn. now rewrite orb_true_r.
Qed.

(** The link that [updateAnchorHref] leaves depends on the page only
    through its host name. *)
Lemma updateAnchorHref_by_host (anchor : Anchor) (v : string) (w w0 : World) :
  location_hostname w = location_hostname w0 ->
  fst (CROSS_DOMAIN.updateAnchorHref anchor v w)
  = fst (CROSS_DOMAIN.updateAnchorHref anchor v w0).
Proof.
  intros Hhost. unfold CROSS_DOMAIN.updateAnchorHref. rewrite Hhost.
  destruct (String.eqb (href anchor) "" || String.eqb (hostname anchor) (location_hostname w0));
    [reflexivity|].
  destruct (JsString.includes (href anchor) (CROSS_DOMAIN.PARAM_KEY ++ "="));
    [reflexivity|].
  destruct (match JsString.indexOf (href anchor) "#" with
            | Some hashIndex =>
                (JsString.substring (href anchor) 0 hashIndex,
                 JsString.substring_from (href anchor) hashIndex)
            | None => (href anchor, "")
            end) as [newHref hash].
  reflexivity.
Qed.

Lemma rewrite_element_by_host (v : string) (e : Element) (st st0 : World * list Info) :
  location_hostname (fst st) = location_hostname (fst st0) ->
  fst (CrossDomainPage.rewrite_element v e st)
  = fst (CrossDomainPage.rewrite_element v e st0).
Proof.
  intros Hhost. unfold CrossDomainPage.rewrite_element.
  destruct (el_node e) as [anchor|form|]; [| |reflexivity].
  - pose proof (updateAnchorHref_by_host anchor v _ _ Hhost) as Hsame.
    destruct (CROSS_DOMAIN.updateAnchorHref anchor v (fst st)) as [a1 w1].
    destruct (CROSS_DOMAIN.updateAnchorHref anchor v (fst st0)) as [a2 w2].
    cbn [fst] in *. now rewrite Hsame.
  - unfold CrossDomainPage.addHiddenInputToForm.
    destruct (CrossDomainPage.has_param_input form); reflexivity.
Qed.

(** One step of the pass: the element carries the parameter afterwards,
    keeps its class and its tag, and the page changes in its console at
    most. *)
Lemma rewrite_element_effect (v : string) (e : Element) (st : World * list Info) :
  let e' := fst (CrossDomainPage.rewrite_element v e st) in
  More.carries (location_hostname (fst st)) e' = true
  /\ el_marked e' = el_marked e
  /\ CrossDomainPage.is_link_or_form e' = CrossDomainPage.is_link_or_form e
  /\ More.same_but_console (fst st) (fst (snd (CrossDomainPage.rewrite_element v e st))).
Proof.
  cbv zeta. destruct e as [[anchor|form|] marked];
    unfold CrossDomainPage.rewrite_element; cbn [el_node el_marked].
  - destruct (updateAnchorHref_cases anchor v (fst st))
      as [[Hcarries ->]|(_ & front & back & Hfst & Hsame)].
    + cbn [fst snd]. repeat split; try reflexivity. exact Hcarries.
    + destruct (CROSS_DOMAIN.updateAnchorHref anchor v (fst st)) as [a1 w1].
      cbn [fst snd] in *. subst a1. repeat split; try apply Hsame.
      unfold More.carries. cbn [el_node href].
      now rewrite includes_middle, orb_true_r.
  - pose proof (form_has_field_after form v (stopLog (fst st))) as Hhas.
    destruct (CrossDomainPage.addHiddenInputToForm form v (stopLog (fst st))) as [f1 printed].
    cbn [fst snd] in *. repeat split; try reflexivity. exact Hhas.
  - cbn [fst snd]. repeat split; reflexivity.
Qed.

(** An element that carries the parameter is passed over. *)
Lemma rewrite_element_of_carrying (v : string) (e : Element) (st : World * list Info) :
  More.carries (location_hostname (fst st)) e = true ->
  CrossDomainPage.rewrite_element v e st = (e, st).
Proof.
  destruct st as [w info]. destruct e as [[anchor|form|] marked];
    unfold More.carries, CrossDomainPage.rewrite_element; cbn [el_node el_marked fst snd];
    intros Hcarries; [| |reflexivity].
  - destruct (updateAnchorHref_cases anchor v w) as [[_ ->]|[Hnot _]]; [reflexivity|].
    unfold More.carries in Hnot. cbn [el_node] in Hnot. congruence.
  - unfold CrossDomainPage.addHiddenInputToForm. rewrite Hcarries.
    now rewrite app_nil_r.
Qed.

(** The pass as a map over the elements. *)
Lemma rewrite_targets_is_map (v : string) (target : Element -> bool) (w0 : World)
    (elements : list Element) :
  forall st : World * list Info,
    location_hostname (fst st) = location_hostname w0 ->
    fst (CrossDomainPage.rewrite_targets v target elements st)
    = map (More.rewritten v w0 target) elements
    /\ More.same_but_console (fst st)
         (fst (snd (CrossDomainPage.rewrite_targets v target elements st))).
Proof.
  induction elements as [|e rest IH]; intros st Hhost; cbn [CrossDomainPage.rewrite_targets map].
  - split; [reflexivity|apply same_but_console_refl].
  - assert (Hstep :
      fst (if target e then CrossDomainPage.rewrite_element v e st else (e, st))
      = More.rewritten v w0 target e
      /\ More.same_but_console (fst st)
           (fst (snd (if target e then CrossDomainPage.rewrite_element v e st else (e, st))))).
    { unfold More.rewritten. destruct (target e); cbn [fst snd].
      - split; [now apply rewrite_element_by_host|apply rewrite_element_effect].
      - split; [reflexivity|apply same_but_console_refl]. }
    destruct (if target e then CrossDomainPage.rewrite_element v e st else (e, st))
      as [e1 st1].
    cbn [fst snd] in Hstep. destruct Hstep as [He1 Hst1].
    assert (Hhost1 : location_hostname (fst st1) = location_hostname w0).
    { destruct Hst1 as [Hh _]. congruence. }
    destruct (IH st1 Hhost1) as [Hrest Hworld].
    destruct (CrossDomainPage.rewrite_targets v target rest st1) as [rest1 st2].
    cbn [fst snd] in *. split; [now rewrite He1, Hrest|].
    now apply same_but_console_trans with (fst st1).
Qed.


Lemma get_same_but_console (h : Host) (n : string) (w w' : World) :
  More.same_but_console w w' -> CookieUtil.get h n w' = CookieUtil.get h n w.
Proof.
  intros (Hhost & _ & _ & Hjar & _). apply get_by_visible. now apply visible_by_jar.
Qed.

(** [init], step by step: the relay cookie is written when the URL
    carries a usable parameter; when the relay cookie then reads as a
    non-empty value, the targets are rewritten with it. *)
Lemma init_steps (h : Host) (p : Page) :
  let w1 := More.after_relay h (page_world p) in
  let elements := page_elements p in
  More.same_but_console w1 (page_world (CrossDomainPage.init h p))
  /\ page_elements (CrossDomainPage.init h p)
     = match CookieUtil.get h CROSS_DOMAIN.COOKIE_KEY w1 with
       | Some v =>
           if String.eqb v "" then elements
           else map (More.rewritten v (page_world p) (CrossDomainPage.is_target elements))
                  elements
       | None => elements
       end.
Proof.
  cbv zeta.
  assert (Htail : forall (w1 : World) (info : list Info),
    location_hostname w1 = location_hostname (page_world p) ->
    let p' :=
      match CookieUtil.get h CROSS_DOMAIN.COOKIE_KEY w1 with
      | Some oneAccountValueFromCookie =>
          if String.eqb oneAccountValueFromCookie ""
          then {| page_world := w1; page_elements := page_elements p; page_info := info |}
          else
            let (elements, st) :=
              CrossDomainPage.rewrite_targets oneAccountValueFromCookie
                (CrossDomainPage.is_target (page_elements p)) (page_elements p) (w1, info) in
            {| page_world := fst st; page_elements := elements; page_info := snd st |}
      | None => {| page_world := w1; page_elements := page_elements p; page_info := info |}
      end in
    More.same_but_console w1 (page_world p')
    /\ page_elements p'
       = match CookieUtil.get h CROSS_DOMAIN.COOKIE_KEY w1 with
         | Some v =>
             if String.eqb v "" then page_elements p
             else map (More.rewritten v (page_world p)
                         (CrossDomainPage.is_target (page_elements p)))
                    (page_elements p)
         | None => page_elements p
         end).
  { intros w1 info Hhost. cbv zeta.
    destruct (CookieUtil.get h CROSS_DOMAIN.COOKIE_KEY w1) as [v|];
      [|split; [apply same_but_console_refl|reflexivity]].
    destruct (String.eqb v ""); [split; [apply same_but_console_refl|reflexivity]|].
    destruct (rewrite_targets_is_map v (CrossDomainPage.is_target (page_elements p))
                (page_world p) (page_elements p) (w1, info) Hhost) as [Hmap Hworld].
    destruct (CrossDomainPage.rewrite_targets v _ (page_elements p) (w1, info))
      as [elements st].
    cbn [fst snd page_world page_elements] in *. split; assumption. }
  unfold CrossDomainPage.init, More.after_relay, More.relayed. cbv zeta.
  destruct (Browser.URLSearchParams_get (location_search (page_world p))
              CROSS_DOMAIN.PARAM_KEY) as [v0|]; [|now apply Htail].
  destruct (negb (String.eqb v0 "") && re_click_id v0); now apply Htail.
Qed.

Lemma init_reads_relay (h : Host) (p : Page) :
  CookieUtil.get h CROSS_DOMAIN.COOKIE_KEY (page_world (CrossDomainPage.init h p))
  = CookieUtil.get h CROSS_DOMAIN.COOKIE_KEY (More.after_relay h (page_world p)).
Proof. apply get_same_but_console, init_steps. Qed.

Lemma relayed_inv (w : World) (v : string) :
  More.relayed w = Some v ->
  Browser.URLSearchParams_get (location_search w) "oneAccount" = Some v
  /\ v <> "" /\ re_click_id v = true.
Proof.
  unfold More.relayed. change CROSS_DOMAIN.PARAM_KEY with "oneAccount".
  destruct (Browser.URLSearchParams_get (location_search w) "oneAccount") as [v0|];
    [|discriminate].
  destruct (negb (String.eqb v0 "") && re_click_id v0) eqn:Hok; [|discriminate].
  intros [= <-]. apply andb_true_iff in Hok as [Hne Hre].
  repeat split; [|exact Hre].
  intros ->. discriminate Hne.
Qed.

Lemma rewritten_effect (v : string) (w : World) (target : Element -> bool) (e : Element) :
  el_marked (More.rewritten v w target e) = el_marked e
  /\ CrossDomainPage.is_link_or_form (More.rewritten v w target e)
     = CrossDomainPage.is_link_or_form e
  /\ (target e = true ->
      More.carries (location_hostname w) (More.rewritten v w target e) = true)
  /\ (target e = false -> More.rewritten v w target e = e)
  /\ (CrossDomainPage.is_link_or_form e = false -> More.rewritten v w target e = e).
Proof.
  unfold More.rewritten.
  destruct (rewrite_element_effect v e (w, [])) as (Hcarries & Hmark & Hkind & _).
  cbn [fst] in Hcarries.
  destruct (target e).
  - split; [exact Hmark|]. split; [exact Hkind|]. split; [intros _; exact Hcarries|].
    split; [discriminate|].
    intros Hother. destruct e as [[anchor|form|] marked];
      unfold CrossDomainPage.is_link_or_form in Hother; cbn [el_node] in Hother;
      try discriminate Hother.
    reflexivity.
  - repeat split; discriminate.
Qed.

Lemma is_target_after (v : string) (w : World) (target : Element -> bool)
    (elements : list Element) :
  CrossDomainPage.is_target (map (More.rewritten v w target) elements)
  = CrossDomainPage.is_target elements.
Proof.
  unfold CrossDomainPage.is_target.
  assert (Hsame : existsb el_marked (map (More.rewritten v w target) elements)
                  = existsb el_marked elements).
  { induction elements as [|e rest IH]; [reflexivity|]. cbn [map existsb].
    destruct (rewritten_effect v w target e) as [-> _]. now rewrite IH. }
  now rewrite Hsame.
Qed.

Lemma is_target_of_rewritten (v : string) (w : World) (target : Element -> bool)
    (elements : list Element) (e : Element) :
  CrossDomainPage.is_target elements (More.rewritten v w target e)
  = CrossDomainPage.is_target elements e.
Proof.
  destruct (rewritten_effect v w target e) as (Hmark & Hkind & _).
  unfold CrossDomainPage.is_target. now destruct (existsb el_marked elements).
Qed.

(** A pass over the elements that a pass has left changes none. *)
Lemma rewritten_twice (v v' : string) (w w' : World) (elements : list Element) :
  location_hostname w' = location_hostname w ->
  let target := CrossDomainPage.is_target elements in
  map (More.rewritten v' w' target) (map (More.rewritten v w target) elements)
  = map (More.rewritten v w target) elements.
Proof.
  intros Hhost target. rewrite map_map. apply map_ext. intros e.
  destruct (rewritten_effect v w target e) as (_ & _ & Hcarries & _).
  unfold More.rewritten at 1.
  subst target. rewrite is_target_of_rewritten.
  destruct (CrossDomainPage.is_target elements e) eqn:Htarget; [|reflexivity].
  rewrite rewrite_element_of_carrying; [reflexivity|].
  cbn [fst]. rewrite Hhost. now apply Hcarries.
Qed.

(** X20. Without a usable [oneAccount] parameter in the URL (none, an
    empty one, or one with a character outside letters, digits, [-], [_]
    and [.]) and without a relay cookie that reads as a non-empty value,
    [init] changes nothing: no cookie, no link, no form, no line in the
    console. *)
Theorem X20_init_without_identifier_does_nothing (h : Host) (p : Page) :
  More.relayed (page_world p) = None ->
  option_truthy (CookieUtil.get h CROSS_DOMAIN.COOKIE_KEY (page_world p)) = false ->
  CrossDomainPage.init h p = p.
Proof.
  intros Hurl Hcookie. destruct p as [w elements info].
  unfold More.relayed in Hurl. unfold CrossDomainPage.init.
  cbn [page_world page_elements page_info] in *.
  assert (Htail :
    match CookieUtil.get h CROSS_DOMAIN.COOKIE_KEY w with
    | Some oneAccountValueFromCookie =>
        if String.eqb oneAccountValueFromCookie ""
        then {| page_world := w; page_elements := elements; page_info := info |}
        else
          let (elements0, st) :=
            CrossDomainPage.rewrite_targets oneAccountValueFromCookie
              (CrossDomainPage.is_target elements) elements (w, info) in
          {| page_world := fst st; page_elements := elements0; page_info := snd st |}
    | None => {| page_world := w; page_elements := elements; page_info := info |}
    end = {| page_world := w; page_elements := elements; page_info := info |}).
  { destruct (CookieUtil.get h CROSS_DOMAIN.COOKIE_KEY w) as [v|]; [|reflexivity].
    cbn [option_truthy] in Hcookie. apply negb_false_iff in Hcookie.
    now rewrite Hcookie. }
  destruct (Browser.URLSearchParams_get (location_search w) CROSS_DOMAIN.PARAM_KEY)
    as [v0|]; [|exact Htail].
  destruct (negb (String.eqb v0 "") && re_click_id v0); [discriminate Hurl|exact Htail].
Qed.

Lemma X20_init_without_identifier_does_nothing_witness :
  CrossDomainPage.init Sample.host (More.landing_page [("oneAccount", "a b")] [])
  = More.landing_page [("oneAccount", "a b")] [].
Proof.
  apply (X20_init_without_identifier_does_nothing Sample.host
           (More.landing_page [("oneAccount", "a b")] [])).
  - reflexivity.
  - reflexivity.
Defined.




(** What a run of [init] makes of the elements, by the relay value it
    reads. *)
Lemma init_elements (h : Host) (p : Page) :
  page_elements (CrossDomainPage.init h p) = page_elements p
  \/ exists v,
       page_elements (CrossDomainPage.init h p)
       = map (More.rewritten v (page_world p) (CrossDomainPage.is_target (page_elements p)))
           (page_elements p).
Proof.
  destruct (init_steps h p) as [_ Helements]. cbv zeta in Helements.
  rewrite Helements.
  destruct (CookieUtil.get h CROSS_DOMAIN.COOKIE_KEY (More.after_relay h (page_world p)))
    as [v|]; [|now left].
  destruct (String.eqb v ""); [now left|]. right. now exists v.
Qed.

(** X23. [init] is idempotent on the links and forms: once a run has read
    a non-empty relay value and rewritten the targets, a further run
    over these elements on a page of the same host name, at any time and
    whatever the cookies and the URL then are, leaves every link and form
    as the first run left it, so no parameter and no hidden field is
    added twice. *)
Theorem X23_init_twice_rewrites_once (h1 h2 : Host) (p later : Page) :
  let once := CrossDomainPage.init h1 p in
  option_truthy (CookieUtil.get h1 CROSS_DOMAIN.COOKIE_KEY (page_world once)) = true ->
  page_elements later = page_elements once ->
  location_hostname (page_world later) = location_hostname (page_world p) ->
  page_elements (CrossDomainPage.init h2 later) = page_elements once.
Proof.
  cbv zeta. intros Hread Hsame Hhost.
  destruct (init_steps h1 p) as [_ Helements1]. cbv zeta in Helements1.
  rewrite init_reads_relay in Hread.
  destruct (CookieUtil.get h1 CROSS_DOMAIN.COOKIE_KEY (More.after_relay h1 (page_world p)))
    as [v|]; [|discriminate Hread].
  cbn [option_truthy] in Hread. apply negb_true_iff in Hread. rewrite Hread in Helements1.
  destruct (init_elements h2 later) as [->|[v' ->]]; [exact Hsame|].
  rewrite Hsame, Helements1, is_target_after.
  now apply rewritten_twice.
Qed.

Lemma X23_init_twice_rewrites_once_witness :
  let once := CrossDomainPage.init Sample.host
                (More.landing_page [("oneAccount", More.short_click_id)] []) in
  page_elements (CrossDomainPage.init Sample.host once) = page_elements once.
Proof.
  intros once.
  apply (X23_init_twice_rewrites_once Sample.host Sample.host
           (More.landing_page [("oneAccount", More.short_click_id)] []) once);
    reflexivity.
Defined.

(** X24. [init] keeps the page's elements in number and order, each with
    its class and its tag, and changes targets only: an element that is
    neither link nor form is kept as it is, and when some element has the
    class [oneAccountCrossDomain], every element without the class is
    kept as it is. *)
Theorem X24_only_targets_are_rewritten (h : Host) (p : Page) :
  let p' := CrossDomainPage.init h p in
  List.length (page_elements p') = List.length (page_elements p)
  /\ forall (k : nat) (e : Element),
       nth_error (page_elements p) k = Some e ->
       exists e',
         nth_error (page_elements p') k = Some e'
         /\ el_marked e' = el_marked e
         /\ CrossDomainPage.is_link_or_form e' = CrossDomainPage.is_link_or_form e
         /\ (CrossDomainPage.is_link_or_form e = false -> e' = e)
         /\ (existsb el_marked (page_elements p) = true -> el_marked e = false -> e' = e).
Proof.
  cbv zeta. destruct (init_steps h p) as [_ Helements]. cbv zeta in Helements.
  rewrite Helements.
  assert (Hkept : List.length (page_elements p) = List.length (page_elements p)
                  /\ forall k e, nth_error (page_elements p) k = Some e ->
                       exists e', nth_error (page_elements p) k = Some e'
                         /\ el_marked e' = el_marked e
                         /\ CrossDomainPage.is_link_or_form e'
                            = CrossDomainPage.is_link_or_form e
                         /\ (CrossDomainPage.is_link_or_form e = false -> e' = e)
                         /\ (existsb el_marked (page_elements p) = true ->
                             el_marked e = false -> e' = e)).
  { split; [reflexivity|]. intros k e Hk. exists e. repeat split; assumption. }
  destruct (CookieUtil.get h CROSS_DOMAIN.COOKIE_KEY (More.after_relay h (page_world p)))
    as [v|]; [|exact Hkept].
  destruct (String.eqb v ""); [exact Hkept|].
  split; [apply length_map|].
  intros k e Hk.
  exists (More.rewritten v (page_world p) (CrossDomainPage.is_target (page_elements p)) e).
  destruct (rewritten_effect v (page_world p) (CrossDomainPage.is_target (page_elements p)) e)
    as (Hmark & Hkind & _ & Huntargeted & Hother).
  split; [now apply map_nth_error|].
  split; [exact Hmark|]. split; [exact Hkind|]. split; [exact Hother|].
  intros Hsome Hunmarked. apply Huntargeted.
  unfold CrossDomainPage.is_target. now rewrite Hsome.
Qed.

(** X25. The two scripts do not agree on the click identifier: a
    parameter that [init] accepts and relays (letters, digits, [-], [_]
    and [.], of any length) but that is shorter than 92 or longer than
    500 characters is refused by [oneAccountSales] on the page it is
    handed to, which then reports nothing and leaves cookies and page
    as they are. *)
Theorem X25_relayed_identifier_can_be_refused
    (h h' : Host) (p : Page) (dataObject : JsValue) (w : World) (imgs : list Img)
    (v : string) :
  More.relayed (page_world p) = Some v ->
  String.length v < 92 \/ 500 < String.length v ->
  Browser.URLSearchParams_get (location_search w) "oneAccount" = Some v ->
  container w = Some imgs ->
  validate dataObject = Normal [] ->
  cookie_assignments (page_world (CrossDomainPage.init h p))
  = (cookie_assignments (page_world p)
     ++ [More.cookie_text CROSS_DOMAIN.COOKIE_KEY (getRootDomain (page_world p)) v
           (Expires (Date_now h + 1 * 24 * 60 * 60 * 1000)%Z)])%list
  /\ oneAccountSales h' dataObject w
     = (Normal tt,
        logger.error MsgNoClickId
          (logger.error MsgBadParam
             (Browser.console_log (MsgReceived (Some v) (String.length v)) w)))
  /\ Rules.untouched w (snd (oneAccountSales h' dataObject w)).
Proof.
  intros Hrelayed Hlength Hurl Hcontainer Hvalid.
  destruct (relayed_inv _ _ Hrelayed) as (_ & Hne & _).
  assert (Hbad : Rules.acceptable_click_id v = false).
  { destruct (Rules.acceptable_click_id v) eqn:Hok; [|reflexivity].
    apply acceptable_iff in Hok. lia. }
  split.
  - destruct (init_steps h p) as [(_ & _ & _ & _ & Hassignments & _) _].
    rewrite Hassignments. unfold More.after_relay. now rewrite Hrelayed.
  - rewrite (oneAccountSales_valid h' dataObject w imgs Hcontainer Hvalid).
    rewrite (resolveClickId_rejects h' _ _ w v Hurl Hne Hbad).
    split; [reflexivity|]. cbn [snd].
    eapply untouched_trans; [apply console_log_untouched|].
    eapply untouched_trans; apply logger_error_untouched.
Qed.

Lemma X25_relayed_identifier_can_be_refused_witness :
  let p := More.landing_page [("oneAccount", More.short_click_id)] [] in
  let w := Sample.cv_page [("oneAccount", More.short_click_id)] [] in
  cookie_assignments (page_world (CrossDomainPage.init Sample.host p))
  = [More.cookie_text "ONEACCOUNT_DELIVERY" "test-site.local" More.short_click_id
       (Expires (Date_now Sample.host + 86400000)%Z)]
  /\ body_appended (snd (oneAccountSales Sample.host Sample.cv_payload w)) = [].
Proof.
  intros p w.
  destruct (X25_relayed_identifier_can_be_refused Sample.host Sample.host p
              Sample.cv_payload w [] More.short_click_id)
    as (Hrelay & _ & (_ & _ & _ & Hbody)).
  - reflexivity.
  - left. vm_compute. lia.
  - reflexivity.
  - reflexivity.
  - reflexivity.
  - split; [exact Hrelay|exact Hbody].
Defined.

(** X26. [init] writes the relay cookie and nothing else: the texts
    assigned to [document.cookie] grow by the relay text when the URL
    carries a usable parameter and not at all otherwise, no image is
    created, and in a store of tidy cookies every cookie of another name
    reads as before. *)
Theorem X26_init_writes_the_relay_cookie_only (h : Host) (p : Page) (n : string) :
  Tidy.jar (page_world p) = true ->
  Tidy.name n = true ->
  n <> CROSS_DOMAIN.COOKIE_KEY ->
  let w := page_world p in
  let w' := page_world (CrossDomainPage.init h p) in
  CookieUtil.get h n w' = CookieUtil.get h n w
  /\ cookie_assignments w'
     = (cookie_assignments w
        ++ match More.relayed w with
           | Some v =>
               [More.cookie_text CROSS_DOMAIN.COOKIE_KEY (getRootDomain w) v
                  (Expires (Date_now h + 1 * 24 * 60 * 60 * 1000)%Z)]
           | None => []
           end)%list
  /\ container w' = container w
  /\ body_appended w' = body_appended w.
Proof.
  intros Hjar Hn Hne. cbv zeta.
  destruct (init_steps h p) as [Hworld _]. cbv zeta in Hworld.
  rewrite (get_same_but_console h n _ _ Hworld).
  destruct Hworld as (_ & _ & _ & _ & -> & -> & ->).
  unfold More.after_relay.
  destruct (More.relayed (page_world p)) as [v|] eqn:Hrelayed.
  - destruct (relayed_inv _ _ Hrelayed) as (_ & _ & Hre).
    repeat split.
    apply (writes_keep_other_names h CROSS_DOMAIN.COOKIE_KEY n v 1
             (getRootDomain (page_world p)) (page_world p));
      [exact Hjar|reflexivity|now apply click_id_is_tidy|exact Hn|congruence].
  - repeat split. now rewrite app_nil_r.
Qed.

Lemma X26_init_writes_the_relay_cookie_only_witness :
  let p := More.landing_page [("oneAccount", More.short_click_id)]
             [More.landing_cookie "_oneAccount_s00000000000001" Sample.click_id] in
  CookieUtil.get Sample.host "_oneAccount_s00000000000001"
    (page_world (CrossDomainPage.init Sample.host p))
  = Some Sample.click_id.
Proof.
  intros p.
  destruct (X26_init_writes_the_relay_cookie_only Sample.host p "_oneAccount_s00000000000001")
    as (Hget & _).
  - reflexivity.
  - reflexivity.
  - discriminate.
  - cbv zeta in Hget. rewrite Hget. reflexivity.
Defined.

(** ** The identifier on its way to the partner *)











Lemma X24_only_targets_are_rewritten_witness :
  let link := {| el_node := NodeA {| href := "http://another-site.local:8080/cv.html";
                                     hostname := "another-site.local" |};
                 el_marked := false |} in
  let form := {| el_node := NodeForm {| form_action := "/cart"; form_inputs := [] |};
                 el_marked := true |} in
  let p := {| page_world := page_world (More.landing_page
                                          [("oneAccount", More.short_click_id)] []);
              page_elements := [form; link];
              page_info := [] |} in
  nth_error (page_elements (CrossDomainPage.init Sample.host p)) 1 = Some link.
Proof.
  intros link form p.
  destruct (X24_only_targets_are_rewritten Sample.host p) as [_ Hkept].
  destruct (Hkept 1 link) as (e' & Hthere & _ & _ & _ & Hclass).
  - reflexivity.
  - rewrite Hthere. f_equal. apply Hclass; reflexivity.
Defined.
